(** * AppInspect worker: ingestion store and analysis matcher

    A shallow embedding of the Python sources of the AppInspect worker
    ([apk_converter.py], [apk_analysis.py], [appinspect_ops.py],
    [appinspect_worker.py], [models.py], [utility.py]) together with the
    properties stated about them.

    Conventions.
    - Python [str] values are [string]s (sequences of 8-bit characters);
      [str.lower] and Spark's [lower] are modelled on the ASCII letters,
      and what is stated of a comparison in lower case is stated of ASCII
      strings.
    - A function that may raise returns a [PyResult]; the exception is the
      [Raise] branch.
    - A Python [dict] whose insertion order is observable is an association
      list with unique keys ([PyDict]).
    - The parquet base directory is a finite map from the name of a
      dataset directory to the batches written to it; [read_table] is a
      parameter of the code that calls it, constrained by what is taken
      for granted of it ([faithful]), with one reader spelled out for the
      examples. *)

From Stdlib Require Import Strings.String Strings.Ascii Strings.Byte List ZArith Bool Lia.
From stdpp Require Import gmap strings list fin_maps.

Import ListNotations.
Local Open Scope string_scope.
Local Open Scope list_scope.

(* ===================================================================== *)
(** * Part I: definitions                                                 *)
(* ===================================================================== *)

(** ** Exceptions *)

(** The exceptions the modelled code can raise.  The converter raises plain
    [Exception]s that differ in their message only; they are named after
    the error kinds of the design document. *)
Inductive PyError : Type :=
| SchemaError            (* "Schema of the exisiting table is invalid" *)
| DuplicatePackageError  (* "This APK already exists in the exisiting table..." *)
| KeyError (key : string)
| ValueError             (* str.split with an empty separator *)
| TypeError
| AttributeError (attr : string)
| ReError                (* re.error: the pattern does not compile *)
| SparkError             (* any failure inside the Spark backend *)
| Py4JError              (* py4j finds no Java method for the arguments *)
| OverflowError          (* a Python int too large for a 64-bit column *)
| ArrowNotImplementedError  (* pyarrow: no cast between two column types *)
| NotModelled.           (* a library construct outside the modelled fragment *)

Inductive PyResult (A : Type) : Type :=
| Ok (a : A)
| Raise (e : PyError).

Arguments Ok {A} a.
Arguments Raise {A} e.

Definition py_bind {A B : Type} (m : PyResult A) (f : A -> PyResult B) : PyResult B :=
  match m with
  | Ok a => f a
  | Raise e => Raise e
  end.

Notation "'let*' x ':=' m 'in' k" := (py_bind m (fun x => k))
  (at level 10, x name, m at level 100, k at level 200).

(** ** Python string operations *)

Module PyStr.

(** The double quote character, for the string literals that contain one. *)
Definition dquote : string := String (ascii_of_nat 34) EmptyString.

(** The characters LF and CR. *)
Definition LF : ascii := ascii_of_nat 10.
Definition CR : ascii := ascii_of_nat 13.

Definition is_upper (c : ascii) : bool :=
  (65 <=? nat_of_ascii c)%nat && (nat_of_ascii c <=? 90)%nat.

Definition lower_char (c : ascii) : ascii :=
  if is_upper c then ascii_of_nat (nat_of_ascii c + 32) else c.

(** [s.lower()] *)
Fixpoint lower (s : string) : string :=
  match s with
  | EmptyString => EmptyString
  | String c s' => String (lower_char c) (lower s')
  end.

(** [s.isascii()].  On a string of ASCII characters [lower] is what
    [str.lower] and Spark's [lower] compute; beyond ASCII these fold
    letters that [lower] leaves alone. *)
Definition isascii (s : string) : bool :=
  forallb (fun c => (nat_of_ascii c <? 128)%nat) (list_ascii_of_string s).

(** A character that case folding neither changes nor produces, and a
    string made of such characters. *)
Definition caseless (a : ascii) : Prop :=
  forall x : ascii, Ascii.eqb a (lower_char x) = Ascii.eqb a x.

Fixpoint all_caseless (s : string) : Prop :=
  match s with
  | EmptyString => True
  | String a s' => caseless a /\ all_caseless s'
  end.

(** [s.startswith(p)] *)
Definition startswith (p s : string) : bool := String.prefix p s.

(** [sub in s] *)
Fixpoint contains (sub s : string) : bool :=
  String.prefix sub s ||
  match s with
  | EmptyString => false
  | String _ s' => contains sub s'
  end.

(** [s.split(sep)] for a non-empty [sep] (Python raises [ValueError] on an
    empty one; callers with a variable separator test for it).  [skip]
    counts the characters of a separator occurrence still to be passed
    over.  The head of the result is the segment under construction. *)
Fixpoint split_from (sep : string) (skip : nat) (s : string) : list string :=
  match s with
  | EmptyString => [EmptyString]
  | String c s' =>
      match skip with
      | S k => split_from sep k s'
      | O =>
          if String.prefix sep s
          then EmptyString :: split_from sep (String.length sep - 1) s'
          else match split_from sep 0 s' with
               | seg :: segs => String c seg :: segs
               | [] => [String c EmptyString]
               end
      end
  end.

Definition split (sep s : string) : list string := split_from sep 0 s.

(** [s.replace(old, new)] for a non-empty [old]: the non-overlapping
    occurrences of [old], leftmost first, are all replaced. *)
Fixpoint replace_from (old new : string) (skip : nat) (s : string) : string :=
  match s with
  | EmptyString => EmptyString
  | String c s' =>
      match skip with
      | S k => replace_from old new k s'
      | O =>
          if String.prefix old s
          then new ++ replace_from old new (String.length old - 1) s'
          else String c (replace_from old new 0 s')
      end
  end.

Definition replace (old new s : string) : string := replace_from old new 0 s.

(** [sep.join(l)] *)
Fixpoint join (sep : string) (l : list string) : string :=
  match l with
  | [] => EmptyString
  | [x] => x
  | x :: rest => x ++ sep ++ join sep rest
  end.

(** [s.endswith(p)] *)
Fixpoint endswith (p s : string) : bool :=
  String.eqb p s ||
  match s with
  | EmptyString => false
  | String _ s' => endswith p s'
  end.

(** [x in l] for a list of strings *)
Definition str_in (x : string) (l : list string) : bool := existsb (String.eqb x) l.

(** [l[-1]] on a list known to be non-empty ([d] is never returned then). *)
Definition last_item {A : Type} (l : list A) (d : A) : A := List.last l d.

(** [os.path.join(a, b)] on a POSIX system. *)
Definition path_join (a b : string) : string :=
  if startswith "/" b then b
  else if String.eqb a "" || endswith "/" a then a ++ b
  else a ++ "/" ++ b.

End PyStr.

(** ** Regular expressions

    [re.compile(p).search(s)] (Python) and [regexp_extract] / [rlike]
    (Spark, that is [java.util.regex]) are library calls.  They are modelled
    for the pattern fragment on which the two libraries agree and which the
    patterns written in the sources stay inside: literal characters,
    backslash-escaped punctuation, positive character classes with ranges,
    capturing and non-capturing groups, alternation, the greedy quantifiers
    [*], [+], [?] and [{m,n}], and the anchors [^] and [$].  A pattern that
    neither library accepts is [Invalid]; a pattern outside the fragment is
    [Unsupported], and the model says nothing about it. *)

Module Regex.

Inductive flavour : Type := PythonRe | JavaRegex.

Inductive regex : Type :=
| REps
| RChar (c : ascii)
| RSet (ranges : list (ascii * ascii))
| RSeq (r1 r2 : regex)
| RAlt (r1 r2 : regex)
| RRep (r : regex) (lo : nat) (hi : option nat)
| RGroup (idx : nat) (r : regex)
| RBol
| REol.

(** *** Matching: a backtracking matcher with continuations, which tries
    the alternatives in the order both libraries do (left branch first,
    longest repetition first). *)

Record mstate : Type := MState {
  pos : nat;                           (* characters of the subject passed *)
  before : option ascii;               (* the character just passed, if any *)
  rest : string;                       (* what is left of the subject *)
  caps : list (nat * (nat * nat))      (* group index, start, end *)
}.

Definition in_ranges (c : ascii) (ranges : list (ascii * ascii)) : bool :=
  existsb (fun '(lo, hi) =>
             (nat_of_ascii lo <=? nat_of_ascii c)%nat &&
             (nat_of_ascii c <=? nat_of_ascii hi)%nat) ranges.

Definition str_of_codes (l : list nat) : string :=
  fold_right (fun n s => String (ascii_of_nat n) s) EmptyString l.

(** [$] without the multi-line flag: the end of the subject, or just before
    a final line terminator (Python: LF only; Java: LF unless it follows a
    CR, CR, CR LF, U+0085, U+2028, U+2029, the last three in their UTF-8
    encoding). *)
Definition at_eol (fl : flavour) (prev : option ascii) (s : string) : bool :=
  match fl with
  | PythonRe => String.eqb s "" || String.eqb s (str_of_codes [10])
  | JavaRegex =>
      String.eqb s ""
      || (String.eqb s (str_of_codes [10])
          && negb match prev with
                  | Some c => Ascii.eqb c (ascii_of_nat 13)
                  | None => false
                  end)
      || existsb (String.eqb s)
           [str_of_codes [13]; str_of_codes [13; 10];
            str_of_codes [194; 133]; str_of_codes [226; 128; 168];
            str_of_codes [226; 128; 169]]
  end.

Definition below (hi : option nat) (cnt : nat) : bool :=
  match hi with
  | None => true
  | Some h => (cnt <? h)%nat
  end.

(** One more iteration of a quantified body is tried before the rest of the
    pattern; after an iteration that consumes nothing once [lo] is reached
    the loop is left, so [fuel = length of the subject + lo + 1] is never
    used up. *)
Fixpoint rep_loop (step : mstate -> (mstate -> option mstate) -> option mstate)
    (lo : nat) (hi : option nat) (k : mstate -> option mstate)
    (fuel cnt : nat) (st : mstate) {struct fuel} : option mstate :=
  match fuel with
  | O => None
  | S fuel' =>
      let again :=
        if below hi cnt
        then step st (fun st' =>
               if (pos st' =? pos st)%nat && (lo <=? cnt)%nat then k st'
               else rep_loop step lo hi k fuel' (S cnt) st')
        else None in
      match again with
      | Some res => Some res
      | None => if (lo <=? cnt)%nat then k st else None
      end
  end.

Fixpoint rmatch (fl : flavour) (r : regex) (st : mstate)
    (k : mstate -> option mstate) {struct r} : option mstate :=
  match r with
  | REps => k st
  | RChar c =>
      match rest st with
      | String d s' =>
          if Ascii.eqb c d then k (MState (S (pos st)) (Some d) s' (caps st)) else None
      | EmptyString => None
      end
  | RSet ranges =>
      match rest st with
      | String d s' =>
          if in_ranges d ranges then k (MState (S (pos st)) (Some d) s' (caps st))
          else None
      | EmptyString => None
      end
  | RSeq r1 r2 => rmatch fl r1 st (fun st' => rmatch fl r2 st' k)
  | RAlt r1 r2 =>
      match rmatch fl r1 st k with
      | Some res => Some res
      | None => rmatch fl r2 st k
      end
  | RRep r' lo hi =>
      rep_loop (rmatch fl r') lo hi k (String.length (rest st) + lo + 1) 0 st
  | RGroup idx r' =>
      rmatch fl r' st (fun st' =>
        k (MState (pos st') (before st') (rest st')
                  ((idx, (pos st, pos st')) :: caps st')))
  | RBol => if (pos st =? 0)%nat then k st else None
  | REol => if at_eol fl (before st) (rest st) then k st else None
  end.

(** A state further on in the same subject, and a matcher that calls its
    continuation on such states only. *)
Definition forward (st st' : mstate) : Prop :=
  pos st <= pos st'
  /\ pos st' + String.length (rest st') = pos st + String.length (rest st).

Definition respects (m : mstate -> (mstate -> option mstate) -> option mstate) : Prop :=
  forall (st : mstate) (k1 k2 : mstate -> option mstate),
    (forall st', forward st st' -> k1 st' = k2 st') -> m st k1 = m st k2.

(** The leftmost match: every start offset in turn.  Group 0 is the whole
    match. *)
Fixpoint search_from (fl : flavour) (r : regex) (start : nat) (prev : option ascii)
    (s : string) : option (list (nat * (nat * nat))) :=
  match rmatch fl r (MState start prev s []) Some with
  | Some st => Some ((0, (start, pos st)) :: caps st)
  | None =>
      match s with
      | EmptyString => None
      | String c s' => search_from fl r (S start) (Some c) s'
      end
  end.

Definition search (fl : flavour) (r : regex) (s : string)
    : option (list (nat * (nat * nat))) :=
  search_from fl r 0 None s.

Fixpoint cap_lookup (idx : nat) (cs : list (nat * (nat * nat))) : option (nat * nat) :=
  match cs with
  | [] => None
  | (i, se) :: cs' => if (i =? idx)%nat then Some se else cap_lookup idx cs'
  end.

(** The text of a group of a match; a group that took no part is empty. *)
Definition group_text (s : string) (cs : list (nat * (nat * nat))) (idx : nat) : string :=
  match cap_lookup idx cs with
  | Some (a, b) => String.substring a (b - a) s
  | None => EmptyString
  end.

Definition found {A : Type} (o : option A) : bool :=
  match o with
  | Some _ => true
  | None => false
  end.

(** *** What a match is

    The states a match of a pattern can lead to from a state, whatever
    the order in which the matcher tries them. *)
Fixpoint iterate (n : nat) (step : mstate -> mstate -> Prop) (st st' : mstate) : Prop :=
  match n with
  | O => st' = st
  | S n' => exists mid : mstate, step st mid /\ iterate n' step mid st'
  end.

Fixpoint reaches (fl : flavour) (r : regex) (st st' : mstate) : Prop :=
  match r with
  | REps => st' = st
  | RChar c =>
      exists s' : string,
        rest st = String c s' /\ st' = MState (S (pos st)) (Some c) s' (caps st)
  | RSet ranges =>
      exists (d : ascii) (s' : string),
        rest st = String d s' /\ in_ranges d ranges = true
        /\ st' = MState (S (pos st)) (Some d) s' (caps st)
  | RSeq r1 r2 => exists mid : mstate, reaches fl r1 st mid /\ reaches fl r2 mid st'
  | RAlt r1 r2 => reaches fl r1 st st' \/ reaches fl r2 st st'
  | RRep r' lo hi =>
      exists n : nat,
        lo <= n /\ match hi with Some h => n <= h | None => True end
        /\ iterate n (reaches fl r') st st'
  | RGroup idx r' =>
      exists inner : mstate,
        reaches fl r' st inner
        /\ st' = MState (pos inner) (before inner) (rest inner)
                        ((idx, (pos st, pos inner)) :: caps inner)
  | RBol => pos st = 0 /\ st' = st
  | REol => at_eol fl (before st) (rest st) = true /\ st' = st
  end.

(** A pattern whose characters and sets are all within [allowed]. *)
Fixpoint consumes_only (allowed : ascii -> bool) (r : regex) : bool :=
  match r with
  | REps | RBol | REol => true
  | RChar c => allowed c
  | RSet ranges =>
      forallb (fun n => implb (in_ranges (ascii_of_nat n) ranges) (allowed (ascii_of_nat n)))
              (seq 0 256)
  | RSeq r1 r2 | RAlt r1 r2 => consumes_only allowed r1 && consumes_only allowed r2
  | RRep r' _ _ | RGroup _ r' => consumes_only allowed r'
  end.

(** *** Parsing a pattern *)

Inductive parsed (A : Type) : Type :=
| Parsed (a : A)
| Invalid
| Unsupported.

Arguments Parsed {A} a.
Arguments Invalid {A}.
Arguments Unsupported {A}.

Definition code (c : ascii) : nat := nat_of_ascii c.

Definition is_digit (c : ascii) : bool := (48 <=? code c)%nat && (code c <=? 57)%nat.

Definition is_alnum (c : ascii) : bool :=
  is_digit c
  || ((65 <=? code c)%nat && (code c <=? 90)%nat)
  || ((97 <=? code c)%nat && (code c <=? 122)%nat).

Definition is_ascii7 (c : ascii) : bool := (code c <? 128)%nat.

Definition is_quantifier_start (c : ascii) : bool :=
  existsb (Ascii.eqb c) ["*"; "+"; "?"; "{"]%char.

(** A run of decimal digits, most significant first. *)
Fixpoint parse_digits (acc : nat) (s : string) : nat * string :=
  match s with
  | String c s' =>
      if is_digit c then parse_digits (10 * acc + (code c - 48)) s' else (acc, s)
  | EmptyString => (acc, s)
  end.

Definition starts_with_digit (s : string) : bool :=
  match s with
  | String c _ => is_digit c
  | EmptyString => false
  end.

(** What follows a quantifier may not be a second quantifier (a lazy or a
    possessive mark, or a repeat of a repeat). *)
Definition quantifier_done (q : nat * option nat) (s : string)
    : parsed (option (nat * option nat) * string) :=
  match s with
  | String c _ => if is_quantifier_start c then Unsupported else Parsed (Some q, s)
  | EmptyString => Parsed (Some q, s)
  end.

Definition parse_quantifier (s : string) : parsed (option (nat * option nat) * string) :=
  match s with
  | String "*" s' => quantifier_done (0, None) s'
  | String "+" s' => quantifier_done (1, None) s'
  | String "?" s' => quantifier_done (0, Some 1) s'
  | String "{" s' =>
      if starts_with_digit s' then
        let '(m, s1) := parse_digits 0 s' in
        match s1 with
        | String "}" s2 => quantifier_done (m, Some m) s2
        | String "," (String "}" s2) => quantifier_done (m, None) s2
        | String "," s2 =>
            if starts_with_digit s2 then
              let '(n, s3) := parse_digits 0 s2 in
              match s3 with
              | String "}" s4 =>
                  if (m <=? n)%nat then quantifier_done (m, Some n) s4 else Invalid
              | _ => Unsupported
              end
            else Unsupported
        | _ => Unsupported
        end
      else Unsupported
  | _ => Parsed (None, s)
  end.

(** One member of a character class: a character, possibly escaped. *)
Definition parse_class_char (s : string) : parsed (ascii * string) :=
  match s with
  | EmptyString => Invalid
  | String "\" EmptyString => Invalid
  | String "\" (String e s') =>
      if is_alnum e || negb (is_ascii7 e) then Unsupported else Parsed (e, s')
  | String c s' =>
      if negb (is_ascii7 c) then Unsupported
      else if existsb (Ascii.eqb c) ["["; "]"; "-"]%char then Unsupported
      else match s' with
           | String c' _ =>
               if Ascii.eqb c c' && existsb (Ascii.eqb c) ["&"; "|"; "~"]%char
               then Unsupported else Parsed (c, s')
           | EmptyString => Parsed (c, s')
           end
  end.

(** The members of a class up to the closing bracket.  A hyphen is a
    literal right after the opening bracket and right before the closing
    one, and the range operator between two members. *)
Fixpoint parse_class_items (fuel : nat) (first : bool) (s : string)
    : parsed (list (ascii * ascii) * string) :=
  match fuel with
  | O => Unsupported
  | S fuel' =>
      match s with
      | EmptyString => Invalid
      | String "]" s' => if first then Unsupported else Parsed ([], s')
      | String "-" (String "]" s') => Parsed ([("-", "-")%char], s')
      | String "-" s' =>
          if first then
            match parse_class_items fuel' false s' with
            | Parsed (items, s2) => Parsed (("-", "-")%char :: items, s2)
            | Invalid => Invalid
            | Unsupported => Unsupported
            end
          else Unsupported
      | _ =>
          match parse_class_char s with
          | Parsed (lo, s1) =>
              match s1 with
              | String "-" (String "]" _) | String "-" EmptyString =>
                  match parse_class_items fuel' false s1 with
                  | Parsed (items, s2) => Parsed ((lo, lo) :: items, s2)
                  | Invalid => Invalid
                  | Unsupported => Unsupported
                  end
              | String "-" s2 =>
                  match parse_class_char s2 with
                  | Parsed (hi, s3) =>
                      if (code hi <? code lo)%nat then Invalid
                      else match parse_class_items fuel' false s3 with
                           | Parsed (items, s4) => Parsed ((lo, hi) :: items, s4)
                           | Invalid => Invalid
                           | Unsupported => Unsupported
                           end
                  | Invalid => Invalid
                  | Unsupported => Unsupported
                  end
              | _ =>
                  match parse_class_items fuel' false s1 with
                  | Parsed (items, s2) => Parsed ((lo, lo) :: items, s2)
                  | Invalid => Invalid
                  | Unsupported => Unsupported
                  end
              end
          | Invalid => Invalid
          | Unsupported => Unsupported
          end
      end
  end.

Definition parse_class (s : string) : parsed (regex * string) :=
  match s with
  | String "^" _ => Unsupported
  | _ =>
      match parse_class_items (S (String.length s)) true s with
      | Parsed (items, s') => Parsed (RSet items, s')
      | Invalid => Invalid
      | Unsupported => Unsupported
      end
  end.

Definition is_anchor (r : regex) : bool :=
  match r with
  | RBol | REol => true
  | _ => false
  end.

(** Alternation, sequence and atom, by recursive descent; [n] is the number
    of capturing groups opened so far. *)
Fixpoint parse_alt (fuel n : nat) (s : string) {struct fuel} : parsed (regex * nat * string) :=
  match fuel with
  | O => Unsupported
  | S fuel' =>
      match parse_seq fuel' n s with
      | Parsed (r1, n1, String "|" s1) =>
          match parse_alt fuel' n1 s1 with
          | Parsed (r2, n2, s2) => Parsed (RAlt r1 r2, n2, s2)
          | Invalid => Invalid
          | Unsupported => Unsupported
          end
      | other => other
      end
  end
with parse_seq (fuel n : nat) (s : string) {struct fuel} : parsed (regex * nat * string) :=
  match fuel with
  | O => Unsupported
  | S fuel' =>
      match s with
      | EmptyString | String "|" _ | String ")" _ => Parsed (REps, n, s)
      | _ =>
          match parse_atom fuel' n s with
          | Parsed (a, n1, s1) =>
              match parse_quantifier s1 with
              | Parsed (q, s2) =>
                  match q, is_anchor a with
                  | Some _, true => Unsupported
                  | _, _ =>
                      let a' := match q with
                                | Some (lo, hi) => RRep a lo hi
                                | None => a
                                end in
                      match parse_seq fuel' n1 s2 with
                      | Parsed (r, n2, s3) => Parsed (RSeq a' r, n2, s3)
                      | Invalid => Invalid
                      | Unsupported => Unsupported
                      end
                  end
              | Invalid => Invalid
              | Unsupported => Unsupported
              end
          | Invalid => Invalid
          | Unsupported => Unsupported
          end
      end
  end
with parse_atom (fuel n : nat) (s : string) {struct fuel} : parsed (regex * nat * string) :=
  match fuel with
  | O => Unsupported
  | S fuel' =>
      match s with
      | EmptyString => Invalid
      | String "(" (String "?" (String ":" s')) =>
          match parse_alt fuel' n s' with
          | Parsed (r, n1, String ")" s1) => Parsed (r, n1, s1)
          | Parsed _ => Invalid
          | Invalid => Invalid
          | Unsupported => Unsupported
          end
      | String "(" (String "?" _) => Unsupported
      | String "(" s' =>
          match parse_alt fuel' (S n) s' with
          | Parsed (r, n1, String ")" s1) => Parsed (RGroup (S n) r, n1, s1)
          | Parsed _ => Invalid
          | Invalid => Invalid
          | Unsupported => Unsupported
          end
      | String "[" s' =>
          match parse_class s' with
          | Parsed (r, s1) => Parsed (r, n, s1)
          | Invalid => Invalid
          | Unsupported => Unsupported
          end
      | String "\" EmptyString => Invalid
      | String "\" (String e s') =>
          if is_alnum e || negb (is_ascii7 e) then Unsupported
          else Parsed (RChar e, n, s')
      | String "^" s' => Parsed (RBol, n, s')
      | String "$" s' => Parsed (REol, n, s')
      | String "*" _ | String "+" _ | String "?" _ => Invalid
      | String "." _ | String "{" _ | String "}" _ | String "]" _ => Unsupported
      | String c s' =>
          if is_ascii7 c then Parsed (RChar c, n, s') else Unsupported
      end
  end.

(** Compiling a whole pattern.  What is left over can only be an unmatched
    closing parenthesis. *)
Definition compile (p : string) : parsed regex :=
  match parse_alt (4 * String.length p + 8) 0 p with
  | Parsed (r, _, EmptyString) => Parsed r
  | Parsed _ => Invalid
  | Invalid => Invalid
  | Unsupported => Unsupported
  end.

Definition regex_of (p : parsed regex) : regex :=
  match p with
  | Parsed r => r
  | _ => REps
  end.

(** The texts of the whole match and of the groups [1..n] of the leftmost
    match of a pattern, for checking the model against the libraries. *)
Definition match_groups (fl : flavour) (pattern subject : string) (n : nat)
    : parsed (option (list string)) :=
  match compile pattern with
  | Parsed r =>
      Parsed (match search fl r subject with
              | Some cs => Some (map (group_text subject cs) (seq 0 (S n)))
              | None => None
              end)
  | Invalid => Invalid
  | Unsupported => Unsupported
  end.

(** [re.compile(pattern).search(line) is not None] *)
Definition py_re_search (pattern line : string) : PyResult bool :=
  match compile pattern with
  | Parsed r => Ok (found (search PythonRe r line))
  | Invalid => Raise ReError
  | Unsupported => Raise NotModelled
  end.

(** Spark's [regexp_extract(col, pattern, idx)] for a compiled pattern that
    has a group [idx]: the group's text in the leftmost match, the empty
    string when there is no match. *)
Definition regexp_extract (subject : string) (r : regex) (idx : nat) : string :=
  match search JavaRegex r subject with
  | Some cs => group_text subject cs idx
  | None => EmptyString
  end.

(** Spark's [col.rlike(pattern)] for a compiled pattern. *)
Definition rlike (subject : string) (r : regex) : bool :=
  found (search JavaRegex r subject).

End Regex.

(** ** Python dictionaries with observable insertion order *)

Module PyDict.

Section Dict.
Context {V : Type}.

Fixpoint dict_get (k : string) (d : list (string * V)) : option V :=
  match d with
  | [] => None
  | (k', v) :: d' => if String.eqb k' k then Some v else dict_get k d'
  end.

(** [k in d.keys()] *)
Definition dict_has (k : string) (d : list (string * V)) : bool :=
  existsb (fun kv => String.eqb (fst kv) k) d.

(** [d[k] = v]: an existing key keeps its place, a new one goes last. *)
Fixpoint dict_set (k : string) (v : V) (d : list (string * V)) : list (string * V) :=
  match d with
  | [] => [(k, v)]
  | (k', v') :: d' =>
      if String.eqb k' k then (k', v) :: d' else (k', v') :: dict_set k v d'
  end.

(** [{**a, **b}] *)
Definition dict_merge (a b : list (string * V)) : list (string * V) :=
  fold_left (fun acc kv => dict_set (fst kv) (snd kv) acc) b a.

(** [list(d.keys())] *)
Definition dict_keys (d : list (string * V)) : list string := map fst d.

End Dict.

End PyDict.

(** ** [models.py] *)

Module Models.

Record ApkBasicInfo : Type := {
  app_id : string;
  version_code : Z;
  version_name : string;
  apk_sha256 : string
}.

Record ApkContentFileInfo : Type := {
  relative_path : string;
  filename : string;
  extension : string;
  content_text : option string;
  content_blob : option (list byte);
  content_mode : string;
  file_sha256 : string
}.

(** [[field.name for field in dataclasses.fields(...)]] *)
Definition ApkBasicInfo_fields : list string :=
  ["app_id"; "version_code"; "version_name"; "apk_sha256"].

Definition ApkContentFileInfo_fields : list string :=
  ["relative_path"; "filename"; "extension"; "content_text"; "content_blob";
   "content_mode"; "file_sha256"].

End Models.

(** ** [utility.py] *)

Module Utility.
Import PyStr.

(** What [os.walk] finds at a path: a regular file with its bytes, or a
    directory with its entries in the order in which they are listed
    (links are not modelled). *)
#[warnings="-register-all"]
Inductive Entry : Type :=
| FileEntry (content : list byte)
| DirEntry (children : list (string * Entry)).

(** The full names of the files that a top-down walk from [dir_path]
    meets, each with the bytes stored under it: the files of a directory
    first, then its sub-directories in turn.  A walk that starts at a
    regular file yields nothing. *)
Fixpoint walk (dir_path : string) (found : Entry) : list (string * list byte) :=
  match found with
  | FileEntry _ => []
  | DirEntry children =>
      omap (fun named =>
              match snd named with
              | FileEntry content => Some (path_join dir_path (fst named), content)
              | DirEntry _ => None
              end) children
      ++ flat_map (fun named => walk (path_join dir_path (fst named)) (snd named))
                  children
  end.

(** [get_all_files_in_dir] *)
Definition get_all_files_in_dir (root_dir : string) (found : Entry) : list string :=
  map fst (walk root_dir found).

(** The number of regular files in and below an entry. *)
Fixpoint count_files (found : Entry) : nat :=
  match found with
  | FileEntry _ => 1
  | DirEntry children => list_sum (map (fun named => count_files (snd named)) children)
  end.

(** A regular file with the given bytes lies below a directory's entries
    under the given chain of names. *)
Inductive file_at : list (string * Entry) -> list string -> list byte -> Prop :=
| file_here (children : list (string * Entry)) (name : string) (content : list byte) :
    In (name, FileEntry content) children -> file_at children [name] content
| file_below (children inner : list (string * Entry)) (name : string)
    (names : list string) (content : list byte) :
    In (name, DirEntry inner) children -> file_at inner names content ->
    file_at children (name :: names) content.

End Utility.

(** ** [apk_converter.py] *)

Module Converter.
Import PyStr PyDict Models.

(** *** Reading one extracted file *)

(** [self.ext_store_as_text] *)
Definition ext_store_as_text : list string :=
  ["smali"; "json"; "xml"; "txt"; "log"; "html"; "htm"; "js"; "css"; "yaml";
   "yml"; "csv"].

(** What text mode does to the decoded characters: [open(filename, "r")]
    leaves [newline] at [None], so CR LF and a lone CR are each read as LF. *)
Fixpoint universal_newlines (s : string) : string :=
  match s with
  | EmptyString => EmptyString
  | String c s' =>
      if Ascii.eqb c CR then
        match s' with
        | String d s'' =>
            if Ascii.eqb d LF then String LF (universal_newlines s'')
            else String LF (universal_newlines s')
        | EmptyString => String LF EmptyString
        end
      else String c (universal_newlines s')
  end.

(** [open(filename, "r").read()]: [decode] is the codec of the locale's
    preferred encoding in strict mode, [None] standing for
    [UnicodeDecodeError]. *)
Definition read_text (decode : list byte -> option string) (raw : list byte)
    : option string :=
  match decode raw with
  | Some s => Some (universal_newlines s)
  | None => None
  end.

(** [read_apk_content_file].  [raw] is what [open(filename, "rb").read()]
    returns, [sha256_hex] is [hashlib.sha256(...).hexdigest()]. *)
Definition read_apk_content_file
    (sha256_hex : list byte -> string) (decode : list byte -> option string)
    (filename apk_path : string) (raw : list byte) : PyResult ApkContentFileInfo :=
  if String.eqb apk_path "" then Raise ValueError else
  let relative_path := last_item (split apk_path filename) "" in
  let base_filename := last_item (split "/" relative_path) "" in
  let base_filename_ext := last_item (split "." base_filename) "" in
  let file_hash := sha256_hex raw in
  let as_blob :=
    {| relative_path := relative_path; filename := base_filename;
       extension := base_filename_ext; content_text := None;
       content_blob := Some raw; content_mode := "blob";
       file_sha256 := file_hash |} in
  if str_in (lower base_filename_ext) ext_store_as_text then
    match read_text decode raw with
    | Some content_text =>
        Ok {| relative_path := relative_path; filename := base_filename;
              extension := base_filename_ext; content_text := Some content_text;
              content_blob := None; content_mode := "text";
              file_sha256 := file_hash |}
    | None => Ok as_blob       (* except UnicodeDecodeError: pass *)
    end
  else Ok as_blob.

(** What [get_apk_content_file_list] comes to: the exception raised for a
    path that is no directory, or the records of the files. *)
Inductive ContentFileList : Type :=
| InvalidApkPath                       (* "APK path may be invalid" *)
| ContentFiles (file_content_list : PyResult (list ApkContentFileInfo)).

Fixpoint starmap {A B : Type} (f : A -> PyResult B) (l : list A) : PyResult (list B) :=
  match l with
  | [] => Ok []
  | x :: l' =>
      let* y := f x in
      let* rest := starmap f l' in
      Ok (y :: rest)
  end.

(** [get_apk_content_file_list].  [found] is what lies at [apk_path], if
    anything (nothing lies at the empty path); every file is read as the
    walk has found it, and the pool returns the records in the order of
    the file names. *)
Definition get_apk_content_file_list
    (sha256_hex : list byte -> string) (decode : list byte -> option string)
    (apk_path : string) (found : option Utility.Entry) : ContentFileList :=
  if String.eqb apk_path "" then InvalidApkPath else
  match found with
  | Some (Utility.DirEntry children) =>
      let all_content_filenames := Utility.walk apk_path (Utility.DirEntry children) in
      ContentFiles
        (starmap (fun named =>
                    read_apk_content_file sha256_hex decode (fst named) apk_path
                                          (snd named))
                 all_content_filenames)
  | _ => InvalidApkPath
  end.

(** A strict UTF-8 codec, as one encoding a locale may prefer: the decoded
    text is represented by its well-formed UTF-8 bytes. *)
Fixpoint utf8_valid (l : list nat) : bool :=
  let cont b := (128 <=? b)%nat && (b <=? 191)%nat in
  match l with
  | [] => true
  | b0 :: l1 =>
      if (b0 <=? 127)%nat then utf8_valid l1
      else match l1 with
      | [] => false
      | b1 :: l2 =>
          if (194 <=? b0)%nat && (b0 <=? 223)%nat then cont b1 && utf8_valid l2
          else match l2 with
          | [] => false
          | b2 :: l3 =>
              if (b0 =? 224)%nat
              then (160 <=? b1)%nat && (b1 <=? 191)%nat && cont b2 && utf8_valid l3
              else if (b0 =? 237)%nat
              then (128 <=? b1)%nat && (b1 <=? 159)%nat && cont b2 && utf8_valid l3
              else if (225 <=? b0)%nat && (b0 <=? 239)%nat
              then cont b1 && cont b2 && utf8_valid l3
              else match l3 with
              | [] => false
              | b3 :: l4 =>
                  if (b0 =? 240)%nat
                  then (144 <=? b1)%nat && (b1 <=? 191)%nat && cont b2 && cont b3
                       && utf8_valid l4
                  else if (b0 =? 244)%nat
                  then (128 <=? b1)%nat && (b1 <=? 143)%nat && cont b2 && cont b3
                       && utf8_valid l4
                  else if (241 <=? b0)%nat && (b0 <=? 243)%nat
                  then cont b1 && cont b2 && cont b3 && utf8_valid l4
                  else false
              end
          end
      end
  end.

Definition utf8_decode (raw : list byte) : option string :=
  if utf8_valid (map Byte.to_nat raw) then Some (string_of_list_byte raw) else None.

(** *** The parquet store *)

Inductive Cell : Type :=
| CNull
| CStr (s : string)
| CInt (z : Z)
| CBytes (b : list byte).

Fixpoint bytes_eqb (x y : list byte) : bool :=
  match x, y with
  | [], [] => true
  | a :: x', b :: y' => Byte.eqb a b && bytes_eqb x' y'
  | _, _ => false
  end.

Definition cell_eqb (a b : Cell) : bool :=
  match a, b with
  | CNull, CNull => true
  | CStr x, CStr y => String.eqb x y
  | CInt x, CInt y => Z.eqb x y
  | CBytes x, CBytes y => bytes_eqb x y
  | _, _ => false
  end.

(** A row is a dictionary from column name to cell. *)
Definition Row : Type := list (string * Cell).

(** A [pyarrow.Table]. *)
Record Table : Type := {
  column_names : list string;
  rows : list Row
}.

(** The dataset directory of one application, as the batches written to
    it: the rows of each [write_to_dataset] call that wrote files, in the
    order of the calls.  A call spreads its rows over the
    [content_mode=...] sub-directories and names its files after a uuid
    that it draws, so that no file replaces another.  The empty list is a
    directory that holds no file.  In which order the files are read back
    is left to [read_table]. *)
Definition Dataset : Type := list (list Row).

(** The directory at [parquet_base_path]: the dataset directories in it,
    by their names. *)
Abbreviation Store := (gmap string Dataset).

(** An application id that names a directory of its own in the base
    directory: it is not empty, it is neither [.] nor [..], and it holds
    no separator and no NUL.  The dataset paths of two such ids are never
    nested. *)
Definition plain_name (name : string) : bool :=
  negb (str_in name [""; "."; ".."])
  && negb (contains "/" name)
  && negb (contains (String Ascii.zero "") name).

Definition opt_cell {A : Type} (f : A -> Cell) (o : option A) : Cell :=
  match o with
  | Some a => f a
  | None => CNull
  end.

(** [apk_basicinfo.__dict__] and [cf.__dict__] *)
Definition basicinfo_dict (b : ApkBasicInfo) : Row :=
  [("app_id", CStr (app_id b)); ("version_code", CInt (version_code b));
   ("version_name", CStr (version_name b)); ("apk_sha256", CStr (apk_sha256 b))].

Definition contentfile_dict (cf : ApkContentFileInfo) : Row :=
  [("relative_path", CStr (relative_path cf)); ("filename", CStr (filename cf));
   ("extension", CStr (extension cf));
   ("content_text", opt_cell CStr (content_text cf));
   ("content_blob", opt_cell CBytes (content_blob cf));
   ("content_mode", CStr (content_mode cf));
   ("file_sha256", CStr (file_sha256 cf))].

(** The row of one file: the descriptor's dictionary merged with the
    record's. *)
Definition store_row (apk_basicinfo : ApkBasicInfo) (cf : ApkContentFileInfo) : Row :=
  dict_merge (basicinfo_dict apk_basicinfo) (contentfile_dict cf).

(** The columns of [pd.DataFrame(list_of_dicts)]: the keys in the order in
    which they are first met. *)
Fixpoint add_missing (cols new : list string) : list string :=
  match new with
  | [] => cols
  | k :: new' => add_missing (if str_in k cols then cols else cols ++ [k]) new'
  end.

Definition dataframe_columns (dicts : list Row) : list string :=
  fold_left (fun cols d => add_missing cols (dict_keys d)) dicts [].

(** An integer column is stored in 64 bits, signed or unsigned. *)
Definition fits_int_column (z : Z) : bool :=
  (-9223372036854775808 <=? z)%Z && (z <=? 18446744073709551615)%Z.

Definition cell_fits (c : Cell) : bool :=
  match c with
  | CInt z => fits_int_column z
  | _ => true
  end.

(** [pyarrow.Table.from_pandas(pd.DataFrame(dicts))]; a Python int that
    fits neither 64-bit type makes the conversion raise [OverflowError]
    (the ints of a column all come from one descriptor here). *)
Definition table_from_dicts (dicts : list Row) : PyResult Table :=
  if forallb (fun d => forallb (fun kv => cell_fits (snd kv)) d) dicts
  then Ok {| column_names := dataframe_columns dicts; rows := dicts |}
  else Raise OverflowError.

(** [validate_apk_content_table] *)
Definition validate_apk_content_table (table : Table) : bool :=
  forallb (fun name => str_in name (column_names table)) ApkBasicInfo_fields
  && forallb (fun name => str_in name (column_names table)) ApkContentFileInfo_fields.

(** [apk_sha256_exists]; indexing a table by a column it lacks raises
    [KeyError]. *)
Definition row_has_sha256 (apk_hash_sha256 : string) (r : Row) : bool :=
  match dict_get "apk_sha256" r with
  | Some c => cell_eqb c (CStr apk_hash_sha256)
  | None => false
  end.

Definition apk_sha256_exists (table : Table) (apk_hash_sha256 : string) : PyResult bool :=
  if str_in "apk_sha256" (column_names table)
  then Ok (0 <? length (List.filter (row_has_sha256 apk_hash_sha256) (rows table)))%nat
  else Raise (KeyError "apk_sha256").

(** [pyarrow.parquet.write_to_dataset(table, path, partition_cols=["content_mode"])]
    for the dataset directory [name] of the base directory.  The directory
    is created if need be; then a table without the partition column is
    refused with a [KeyError] (the frame of an empty batch is such a table:
    it has no column at all), and the rows of any other table are written
    as a new batch. *)
Definition write_to_dataset (table : Table) (name : string) (store : Store)
    : PyResult unit * Store :=
  let existing := default [] (store !! name) in
  if str_in "content_mode" (column_names table)
  then (Ok tt, <[name := existing ++ [rows table]]> store)
  else (Raise (KeyError "content_mode"), <[name := existing]> store).

(** [write_as_parquet], with [partition_cols] at its default as in
    [convert_apk_to_parquet].  [store] is the directory at
    [parquet_base_path] and [read_table] is [pyarrow.parquet.read_table]
    on a dataset directory of it; the result pairs what the call returns
    or raises with the directory it leaves behind.  An application id that
    is no plain name is outside the model. *)
Definition write_as_parquet (read_table : Dataset -> PyResult Table)
    (apk_basicinfo : ApkBasicInfo)
    (content_file_list : list ApkContentFileInfo) (parquet_base_path : string)
    (append_if_exists : bool) (store : Store) : PyResult string * Store :=
  if negb (plain_name (app_id apk_basicinfo)) then (Raise NotModelled, store) else
  let pd_content_df := map (store_row apk_basicinfo) content_file_list in
  match table_from_dicts pd_content_df with
  | Raise e => (Raise e, store)
  | Ok pyarrow_content_table =>
      let apk_parquet_path := path_join parquet_base_path (app_id apk_basicinfo) in
      let write (st : Store) : PyResult string * Store :=
        match write_to_dataset pyarrow_content_table (app_id apk_basicinfo) st with
        | (Ok _, st') => (Ok apk_parquet_path, st')
        | (Raise e, st') => (Raise e, st')
        end in
      if append_if_exists then
        match store !! app_id apk_basicinfo with
        | Some existing =>
            match read_table existing with
            | Raise e => (Raise e, store)
            | Ok exisiting_pyarrow_table =>
                if negb (validate_apk_content_table exisiting_pyarrow_table)
                then (Raise SchemaError, store)
                else match apk_sha256_exists exisiting_pyarrow_table
                             (apk_sha256 apk_basicinfo) with
                     | Raise e => (Raise e, store)
                     | Ok true => (Raise DuplicatePackageError, store)
                     | Ok false => write store
                     end
            end
        | None => write store
        end
      else write (delete (app_id apk_basicinfo) store)
  end.

(** [convert_apk_to_parquet], from the descriptor and the file records on:
    the fingerprint is stored in the descriptor and the batch is appended. *)
Definition convert_apk_to_parquet (read_table : Dataset -> PyResult Table)
    (apk_basicinfo : ApkBasicInfo)
    (content_file_list : list ApkContentFileInfo) (parquet_base_path : string)
    (apk_sha256 : string) (store : Store) : PyResult string * Store :=
  let apk_basicinfo :=
    {| app_id := app_id apk_basicinfo; version_code := version_code apk_basicinfo;
       version_name := version_name apk_basicinfo; apk_sha256 := apk_sha256 |} in
  write_as_parquet read_table apk_basicinfo content_file_list parquet_base_path true store.

(** *** What is stored, and what reading it back gives *)

(** A file record as [read_apk_content_file] makes it: the text of a file
    read as text, or the bytes of a file kept as they are. *)
Definition well_formed (cf : ApkContentFileInfo) : bool :=
  match content_text cf, content_blob cf with
  | Some _, None => String.eqb (content_mode cf) "text"
  | None, Some _ => String.eqb (content_mode cf) "blob"
  | _, _ => false
  end.

(** The fingerprint column of a stored row. *)
Definition row_fingerprint (r : Row) : option Cell := dict_get "apk_sha256" r.

(** A fingerprint is committed to a dataset when one of its rows carries it. *)
Definition committed (fingerprint : string) (ds : Dataset) : Prop :=
  exists r, In r (concat ds) /\ row_fingerprint r = Some (CStr fingerprint).

(** A fingerprint occurs in at most one committed batch: rows with the
    same fingerprint were written by the same call. *)
Definition fingerprint_at_most_once (ds : Dataset) : Prop :=
  forall (i j : nat) (bi bj : list Row) (ri rj : Row),
    ds !! i = Some bi -> ds !! j = Some bj ->
    In ri bi -> In rj bj ->
    row_fingerprint ri = row_fingerprint rj -> i = j.

(** A batch as the converter writes it: the rows of the well-formed
    records of one package, at least one, under a descriptor whose version
    code fits its column. *)
Definition converter_batch (batch : list Row) : Prop :=
  exists (info : ApkBasicInfo) (files : list ApkContentFileInfo),
    files <> []
    /\ Forall (fun cf => well_formed cf = true) files
    /\ fits_int_column (version_code info) = true
    /\ batch = map (store_row info) files.

Definition converter_dataset (ds : Dataset) : Prop := Forall converter_batch ds.

(** A table that lists a dataset: it has the columns of the two record
    types, and the fingerprints of its rows are those of the stored
    rows. *)
Definition lists_dataset (ds : Dataset) (t : Table) : Prop :=
  (forall column : string,
      In column (column_names t)
      <-> In column (ApkBasicInfo_fields ++ ApkContentFileInfo_fields))
  /\ (forall x : Cell,
        (exists r, In r (rows t) /\ row_fingerprint r = Some x)
        <-> (exists r, In r (concat ds) /\ row_fingerprint r = Some x)).

(** What is taken for granted of [pyarrow.parquet.read_table]: when it
    returns a table for a directory without files, the table has no
    column; when it returns a table for a dataset of converter batches,
    the table lists the dataset.  Whether it returns a table or raises,
    and in which order the rows come, is left open. *)
Definition faithful (read_table : Dataset -> PyResult Table) : Prop :=
  forall (ds : Dataset) (t : Table),
    read_table ds = Ok t ->
    (ds = [] -> column_names t = [])
    /\ (ds <> [] -> converter_dataset ds -> lists_dataset ds t).

(** The states of the directory at [parquet_base_path] that the converter
    can bring about, starting from an empty directory: each step is a
    write of well-formed records, the existing dataset being read by a
    faithful [read_table]. *)
Inductive reachable (parquet_base_path : string) : Store -> Prop :=
| reachable_empty : reachable parquet_base_path ∅
| reachable_write (read_table : Dataset -> PyResult Table) (store : Store)
    (info : ApkBasicInfo) (files : list ApkContentFileInfo) (append : bool) :
    faithful read_table ->
    Forall (fun cf => well_formed cf = true) files ->
    reachable parquet_base_path store ->
    reachable parquet_base_path
      (snd (write_as_parquet read_table info files parquet_base_path append store)).

(** What holds of every dataset of a reachable directory. *)
Definition store_ok (store : Store) : Prop :=
  forall (name : string) (ds : Dataset),
    store !! name = Some ds -> converter_dataset ds /\ fingerprint_at_most_once ds.

(** *** A reader

    How [read_table] goes about a dataset directory: the files are listed
    by path, those of [content_mode=blob] before those of
    [content_mode=text] (within a sub-directory they are taken here in the
    order they were written; their names are random); the schema of the
    first file becomes the schema of the dataset, the partition column is
    added as the last column, and the columns of every file are cast to
    the types of that schema. *)

Inductive ArrowType : Type := TNull | TString | TBinary | TInt64 | TUInt64.

Definition ArrowType_eqb (a b : ArrowType) : bool :=
  match a, b with
  | TNull, TNull | TString, TString | TBinary, TBinary
  | TInt64, TInt64 | TUInt64, TUInt64 => true
  | _, _ => false
  end.

Definition cell_type (c : Cell) : ArrowType :=
  match c with
  | CNull => TNull
  | CStr _ => TString
  | CBytes _ => TBinary
  | CInt z => if (z <=? 9223372036854775807)%Z then TInt64 else TUInt64
  end.

(** The type [from_pandas] gives a column: that of its values, [null]
    when it holds nothing but [None]. *)
Fixpoint column_type (cells : list Cell) : ArrowType :=
  match cells with
  | [] => TNull
  | CNull :: cells' => column_type cells'
  | c :: _ => cell_type c
  end.

Definition cell_of (column : string) (r : Row) : Cell :=
  default CNull (dict_get column r).

(** A file of a dataset: the sub-directory it lies in, the types of its
    columns (the partition column is not among them) and its rows. *)
Record ParquetFile : Type := {
  pf_partition : string;
  pf_schema : list (string * ArrowType);
  pf_rows : list Row
}.

Definition in_partition (value : string) (r : Row) : bool :=
  cell_eqb (cell_of "content_mode" r) (CStr value).

(** The file a batch leaves in a sub-directory, if it has a row for it;
    the types are those of the table of the whole batch. *)
Definition partition_file (value : string) (batch : list Row) : option ParquetFile :=
  match List.filter (in_partition value) batch with
  | [] => None
  | part =>
      Some {| pf_partition := value;
              pf_schema :=
                map (fun column => (column, column_type (map (cell_of column) batch)))
                    (List.filter (fun column => negb (String.eqb column "content_mode"))
                                 (dataframe_columns batch));
              pf_rows := part |}
  end.

Definition dataset_files (ds : Dataset) : list ParquetFile :=
  omap (partition_file "blob") ds ++ omap (partition_file "text") ds.

(** Casting a column of a file to the type the dataset has for it: a
    column of nulls is cast to any type, no other column is cast to
    [null]; the casts between the other types are not modelled. *)
Definition cast_column (file_type dataset_type : ArrowType) : PyResult unit :=
  if ArrowType_eqb file_type dataset_type then Ok tt
  else match file_type, dataset_type with
       | TNull, _ => Ok tt
       | _, TNull => Raise ArrowNotImplementedError
       | _, _ => Raise NotModelled
       end.

Fixpoint check_all {A : Type} (check : A -> PyResult unit) (l : list A) : PyResult unit :=
  match l with
  | [] => Ok tt
  | x :: l' =>
      let* _ := check x in
      check_all check l'
  end.

(** A column that a file lacks is read as a column of nulls. *)
Definition file_type (f : ParquetFile) (column : string) : ArrowType :=
  default TNull (dict_get column (pf_schema f)).

(** [read_table] by these rules, for a dataset whose rows all lie in the
    two sub-directories; a directory without files gives a table without
    columns. *)
Definition arrow_read_table (ds : Dataset) : PyResult Table :=
  if negb (forallb (forallb (fun r => in_partition "blob" r || in_partition "text" r)) ds)
  then Raise NotModelled else
  match dataset_files ds with
  | [] => Ok {| column_names := []; rows := [] |}
  | first :: _ =>
      let schema := pf_schema first in
      let* _ :=
        check_all (fun f =>
                     check_all (fun ct => cast_column (file_type f (fst ct)) (snd ct))
                               schema)
                  (dataset_files ds) in
      Ok {| column_names := map fst schema ++ ["content_mode"];
            rows :=
              flat_map (fun f =>
                          map (fun r =>
                                 map (fun ct => (fst ct, cell_of (fst ct) r)) schema
                                 ++ [("content_mode", CStr (pf_partition f))])
                              (pf_rows f))
                       (dataset_files ds) |}
  end.

End Converter.

(** ** [apk_analysis.py] *)

Module Analysis.
Import PyStr PyDict Models.

(** *** Values exchanged with the caller *)

(** Task arguments arrive as decoded JSON, and result records leave as
    dictionaries of such values (numbers are integers here). *)
#[warnings="-register-all"]
Inductive Json : Type :=
| JNull
| JBool (b : bool)
| JNum (z : Z)
| JStr (s : string)
| JList (l : list Json)
| JObj (o : list (string * Json)).

Definition PyRecord : Type := list (string * Json).

(** [bool(x)], as [not x] tests it. *)
Definition truthy (x : Json) : bool :=
  match x with
  | JNull => false
  | JBool b => b
  | JNum z => negb (z =? 0)%Z
  | JStr s => negb (String.eqb s "")
  | JList l => match l with [] => false | _ => true end
  | JObj o => match o with [] => false | _ => true end
  end.

(** [len(x)] *)
Definition py_len (x : Json) : PyResult Z :=
  match x with
  | JStr s => Ok (Z.of_nat (String.length s))
  | JList l => Ok (Z.of_nat (length l))
  | JObj o => Ok (Z.of_nat (length o))
  | _ => Raise TypeError
  end.

(** The integer a [limit] argument stands for; [None], strings and
    containers do not compare with [0]. *)
Definition as_int (x : Json) : PyResult Z :=
  match x with
  | JNum z => Ok z
  | JBool _ => Raise NotModelled
  | _ => Raise TypeError
  end.

Record APKAnalysisConfig : Type := {
  java_home : string;
  spark_home : string;
  spark_master : string;
  apk_parquet_basepath : string
}.

Record APKAnalysisResult : Type := {
  total : Z;
  output_limit : Z;
  records : option (list PyRecord)
}.

(** [APKAnalysisResult()]: the dataclass defaults. *)
Definition APKAnalysisResult_default : APKAnalysisResult :=
  {| total := 0; output_limit := 0; records := None |}.

Record TrackerEntry : Type := {
  name : string;
  domain_names : list string;
  class_signatures : list string;
  source : string
}.

(** *** Module-level helpers *)

(** [get_class_full_name]; [os.path.sep] is ["/"]. *)
Definition get_class_full_name (package_relative_path : string) : option string :=
  let segments :=
    drop 1 (List.filter (fun seg => (0 <? String.length seg)%nat)
                        (split "/" package_relative_path)) in
  if (length segments <=? 0)%nat then None
  else
    let segments :=
      <[length segments - 1 := replace ".smali" "" (last_item segments "")]> segments in
    Some (join "." segments).

Definition regex_signs : list string :=
  ["*"; ".."; "\"; "?"; "{"; "}"; "["; "]"; "+"; "^"; "$"; "="; ">"; "!"; "&"].

(** The inner loop of [identify_matching_criterion]: the first sign found
    in the criterion sets the flag and breaks. *)
Fixpoint criterion_is_regex (signs : list string) (criterion : string) : bool :=
  match signs with
  | [] => false
  | sign :: signs' =>
      if contains sign criterion then true else criterion_is_regex signs' criterion
  end.

(** The outer loop, over the criteria in list order.  [re_search p s] is
    [re.compile(p).search(s) is not None]; compiling may raise. *)
Fixpoint identify_loop (re_search : string -> string -> PyResult bool)
    (line : string) (criterion_list : list string) (case_insensitive : bool)
    : PyResult (option string) :=
  match criterion_list with
  | [] => Ok None
  | criterion :: criteria' =>
      let criterion_in_original_case := criterion in
      let criterion := if case_insensitive then lower criterion else criterion in
      if criterion_is_regex regex_signs criterion then
        let* hit := re_search (replace "." "\." criterion) line in
        if hit then Ok (Some criterion_in_original_case)
        else identify_loop re_search line criteria' case_insensitive
      else if contains criterion line then Ok (Some criterion_in_original_case)
      else identify_loop re_search line criteria' case_insensitive
  end.

(** [identify_matching_criterion] *)
Definition identify_matching_criterion (re_search : string -> string -> PyResult bool)
    (line : string) (criterion_list : list string) (case_insensitive : bool)
    : PyResult (option string) :=
  let line := if case_insensitive then lower line else line in
  identify_loop re_search line criterion_list case_insensitive.

Definition original_tlds : list string :=
  ["com"; "org"; "net"; "int"; "edu"; "gov"; "mil"].

(** The loop of [infer_developer_from_packagename] over the indices of
    [range(0, len(segments) - 1)]; every index of that range and its
    successor are positions of [segments], so neither subscript can fail. *)
Fixpoint infer_developer_loop (segments : list string) (indices : list nat)
    : option string :=
  match indices with
  | [] => None
  | i :: indices' =>
      if str_in (nth i segments "") original_tlds then
        if (i <? length segments - 1)%nat then Some (nth (i + 1) segments "")
        else infer_developer_loop segments indices'
      else infer_developer_loop segments indices'
  end.

(** [infer_developer_from_packagename] *)
Definition infer_developer_from_packagename (package_relative_path : string)
    : option string :=
  let segments := split "/" package_relative_path in
  infer_developer_loop segments (seq 0 (length segments - 1)).

(** *** Catalog reduction *)

(** [get_domain_to_tracker_map] *)
Definition get_domain_to_tracker_map (tracker_list : list TrackerEntry)
    : list (string * string) :=
  let domain_trackers :=
    map (fun tracker => map (fun domain => (domain, name tracker)) (domain_names tracker))
        (List.filter (fun tracker => (0 <? length (domain_names tracker))%nat) tracker_list) in
  let domain_trackers := concat domain_trackers in
  fold_left (fun domain_tracker_map tracker =>
               if negb (dict_has (fst tracker) domain_tracker_map)
               then dict_set (fst tracker) (snd tracker) domain_tracker_map
               else domain_tracker_map)
            domain_trackers [].

(** [get_classname_to_tracker_map] *)
Definition get_classname_to_tracker_map (tracker_list : list TrackerEntry)
    : list (string * string) :=
  let classname_trackers :=
    map (fun tracker =>
           map (fun class_signature => (class_signature, name tracker))
               (class_signatures tracker))
        (List.filter (fun tracker => (0 <? length (class_signatures tracker))%nat)
                     tracker_list) in
  let classname_trackers := concat classname_trackers in
  fold_left (fun classname_tracker_map tracker =>
               if negb (dict_has (fst tracker) classname_tracker_map)
               then dict_set (fst tracker) (snd tracker) classname_tracker_map
               else classname_tracker_map)
            classname_trackers [].

(** *** Limiting and materialising *)

(** [df.limit(n)] keeps at most [n] rows, here the first ones.  The
    method behind it takes a Java [int]: py4j passes a Python int outside
    the 32-bit range as a [long], finds no method [limit] for it and raises
    [Py4JError].  Spark refuses a limit below 0. *)
Definition java_int (n : Z) : bool := (-2147483648 <=? n)%Z && (n <=? 2147483647)%Z.

Definition df_limit {A : Type} (df : list A) (n : Z) : PyResult (list A) :=
  if negb (java_int n) then Raise Py4JError
  else if (n <? 0)%Z then Raise SparkError
  else Ok (take (Z.to_nat n) df).

(** [get_result_obj]; the frame is the list of its rows, which is also what
    [convert_to_dict] returns. *)
Definition get_result_obj (df : list PyRecord) (limit : Z) : PyResult APKAnalysisResult :=
  let* df := if (limit >? 0)%Z then df_limit df limit else Ok df in
  let result_records := df in
  Ok {| total := Z.of_nat (length result_records);
        output_limit := limit;
        records := Some result_records |}.

(** *** The url_extraction pipeline *)

(** A row read back from the store: the descriptor's fields with one file
    record's. *)
Record StoreRow : Type := {
  descriptor : ApkBasicInfo;
  file : ApkContentFileInfo
}.

(** The patterns of [task_url_extraction], as the Python literals spell
    them (an unknown escape such as [\/] keeps its backslash). *)
Definition url_pattern : string :=
  "(https?):\/[-a-zA-Z0-9+&@#\/%?=~_|!:,.;]*[-a-zA-Z0-9+&@#\/%=~_|]".

Definition domain_pattern : string :=
  "(https?):\/\/([-a-zA-Z0-9+&@#%?=~_|!:,.;]+)\/".

Definition fqdn_pattern : string :=
  "^(?:[a-z0-9](?:[a-z0-9-]{0,61}[a-z0-9])?\.)+[a-z0-9][a-z0-9-]{0,61}[a-z0-9]$".

Definition url_regex : Regex.regex :=
  Eval vm_compute in Regex.regex_of (Regex.compile url_pattern).

Definition domain_regex : Regex.regex :=
  Eval vm_compute in Regex.regex_of (Regex.compile domain_pattern).

Definition fqdn_regex : Regex.regex :=
  Eval vm_compute in Regex.regex_of (Regex.compile fqdn_pattern).

(** A row whose extension, path and text are ASCII. *)
Definition ascii_row (r : StoreRow) : bool :=
  isascii (extension (file r))
  && isascii (relative_path (file r))
  && match content_text (file r) with
     | Some text => isascii text
     | None => true
     end.

(** [col.contains(text)] on a nullable column: a null never passes. *)
Definition col_contains (text : string) (col : option string) : bool :=
  match col with
  | Some s => contains text s
  | None => false
  end.

(** [filter_by_extension] *)
Definition filter_by_extension (df : list StoreRow) (extensions : list string)
    (case_sensitive : bool) : list StoreRow :=
  if (length extensions <=? 0)%nat then df
  else if case_sensitive
  then List.filter (fun r => str_in (extension (file r)) extensions) df
  else
    let extensions := map lower extensions in
    List.filter (fun r => str_in (lower (extension (file r))) extensions) df.

(** The string a filter compares: as it stands in a case-sensitive
    search, in lower case otherwise. *)
Definition compared (case_sensitive : bool) (s : string) : string :=
  if case_sensitive then s else lower s.

(** [filter_by_text_containing]; [lower] of a null column is null. *)
Definition filter_by_text_containing (df : list StoreRow) (text : string)
    (case_sensitive : bool) : list StoreRow :=
  if case_sensitive
  then List.filter (fun r => col_contains text (content_text (file r))) df
  else List.filter
         (fun r => col_contains (lower text) (option_map lower (content_text (file r)))) df.

(** [filter_by_line_text_containing], on rows that carry a [line]. *)
Definition filter_by_line_text_containing (df : list (StoreRow * string)) (text : string)
    (case_sensitive : bool) : list (StoreRow * string) :=
  if case_sensitive
  then List.filter (fun rl => contains text (snd rl)) df
  else List.filter (fun rl => contains (lower text) (lower (snd rl))) df.

(** [filter_by_path_containing] *)
Definition filter_by_path_containing (df : list StoreRow) (name : string)
    (case_sensitive : bool) : list StoreRow :=
  if case_sensitive
  then List.filter (fun r => contains name (relative_path (file r))) df
  else List.filter (fun r => contains (lower name) (lower (relative_path (file r)))) df.

(** [filter_by_classname_containing] *)
Definition filter_by_classname_containing (df : list StoreRow) (name : string)
    (case_sensitive : bool) : list StoreRow :=
  let name := replace "." "/" name in
  filter_by_path_containing df name case_sensitive.

(** A row once [split_text_content_into_lines] has exploded it and the
    recipe has added its columns. *)
Record UrlRow : Type := {
  u_row : StoreRow;
  u_line : string;
  u_url : string;
  u_domain : string;
  u_class_name : option string
}.

(** [split_text_content_into_lines]: one row per LF-separated line. *)
Definition split_text_content_into_lines (df : list StoreRow)
    : list (StoreRow * string) :=
  flat_map (fun r =>
              match content_text (file r) with
              | Some t => map (fun line => (r, line)) (split (String LF "") t)
              | None => []
              end) df.

(** The row-level part of [task_url_extraction], up to [add_column_class_name]. *)
Definition url_extraction_rows (df : list StoreRow) : list UrlRow :=
  let df := List.filter (fun r => col_contains "const-string" (content_text (file r)))
                        (filter_by_extension df ["smali"] false) in
  let df := split_text_content_into_lines df in
  let df := List.filter (fun rl => contains "http://" (snd rl) || contains "https://" (snd rl))
              (List.filter (fun rl => contains "const-string" (snd rl)) df) in
  let df := map (fun rl => (rl, Regex.regexp_extract (snd rl) url_regex 0)) df in
  (* remove empty urls *)
  let df := List.filter (fun rlu => negb (String.eqb (snd rlu) "http://"))
              (List.filter (fun rlu => negb (String.eqb (snd rlu) "https://")) df) in
  let df := map (fun rlu => (rlu, Regex.regexp_extract (snd rlu) domain_regex 2)) df in
  (* remove invalid FQDNs *)
  let df := List.filter (fun rlud => Regex.rlike (snd rlud) fqdn_regex) df in
  map (fun rlud =>
         let '(((r, line), url), domain) := rlud in
         {| u_row := r; u_line := line; u_url := url; u_domain := domain;
            u_class_name := get_class_full_name (relative_path (file r)) |}) df.

(** [group_by_app_and_version]: the grouping key. *)
Definition group_key (r : StoreRow) : string * string * Z * string :=
  (app_id (descriptor r), version_name (descriptor r), version_code (descriptor r),
   apk_sha256 (descriptor r)).

Definition key_eqb (a b : string * string * Z * string) : bool :=
  let '(a1, a2, a3, a4) := a in
  let '(b1, b2, b3, b4) := b in
  String.eqb a1 b1 && String.eqb a2 b2 && (a3 =? b3)%Z && String.eqb a4 b4.

(** The distinct keys, in the order in which they are first met (Spark
    fixes no order). *)
Fixpoint distinct_keys (seen : list (string * string * Z * string))
    (l : list (string * string * Z * string)) : list (string * string * Z * string) :=
  match l with
  | [] => []
  | k :: l' =>
      if existsb (key_eqb k) seen then distinct_keys seen l'
      else k :: distinct_keys (k :: seen) l'
  end.

(** [collect_set]: the distinct values (first occurrences; Spark fixes no
    order). *)
Fixpoint collect_set (seen : list string) (l : list string) : list string :=
  match l with
  | [] => []
  | x :: l' =>
      if str_in x seen then collect_set seen l'
      else x :: collect_set (x :: seen) l'
  end.

(** [collect_list] skips nulls. *)
Definition collect_list (l : list (option string)) : list string :=
  omap (fun o => o) l.

Definition json_strings (l : list string) : Json := JList (map JStr l).

(** The grouped frame of [task_url_extraction]. *)
Definition url_extraction_grouped (df : list StoreRow) : list PyRecord :=
  let df := url_extraction_rows df in
  map (fun k =>
         let members := List.filter (fun u => key_eqb (group_key (u_row u)) k) df in
         let '(k_app_id, k_version_name, k_version_code, k_apk_sha256) := k in
         [("app_id", JStr k_app_id); ("version_name", JStr k_version_name);
          ("version_code", JNum k_version_code); ("apk_sha256", JStr k_apk_sha256);
          ("urls", json_strings (collect_set [] (map u_url members)));
          ("domains", json_strings (collect_set [] (map u_domain members)));
          ("classes", json_strings (collect_list (map u_class_name members)));
          ("lines", json_strings (collect_list (map (fun u => Some (u_line u)) members)))])
      (distinct_keys [] (map (fun u => group_key (u_row u)) df)).

(** *** The other pipelines, stage by stage *)

(** The four key columns of a grouped row. *)
Definition key_columns (k : string * string * Z * string) : PyRecord :=
  let '(k_app_id, k_version_name, k_version_code, k_apk_sha256) := k in
  [("app_id", JStr k_app_id); ("version_name", JStr k_version_name);
   ("version_code", JNum k_version_code); ("apk_sha256", JStr k_apk_sha256)].

(** [group_by_app_and_version]: one row per distinct key, the key columns
    followed by the aggregates of the rows with that key.  [row_of] gives
    the store columns of a row of the frame. *)
Definition group_by_app_and_version {A : Type} (row_of : A -> StoreRow) (df : list A)
    (aggregator_funcs : list A -> PyRecord) : list PyRecord :=
  map (fun k =>
         key_columns k
         ++ aggregator_funcs
              (List.filter (fun x => key_eqb (group_key (row_of x)) k) df))
      (distinct_keys [] (map (fun x => group_key (row_of x)) df)).

(** The stages of [task_text_search] between [read_parquets] and the
    grouping.  [extensions] and [filename] are used when they are truthy;
    the extension filter is called without [case_sensitive]. *)
Definition text_search_rows (df : list StoreRow) (search_terms : list string)
    (extensions : option (list string)) (filename : option string)
    (case_sensitive : bool) : list StoreRow :=
  let df := fold_left (fun df term => filter_by_text_containing df term case_sensitive)
                      search_terms df in
  let df := match extensions with
            | Some ((_ :: _) as extensions) => filter_by_extension df extensions false
            | _ => df
            end in
  match filename with
  | Some (String _ _ as filename) => filter_by_path_containing df filename case_sensitive
  | _ => df
  end.

(** The grouped frame of [task_text_search]. *)
Definition text_search_grouped (df : list StoreRow) (search_terms : list string)
    (extensions : option (list string)) (filename : option string)
    (case_sensitive : bool) : list PyRecord :=
  group_by_app_and_version (fun r => r)
    (text_search_rows df search_terms extensions filename case_sensitive)
    (fun members =>
       [("paths", json_strings
                    (collect_set [] (map (fun r => relative_path (file r)) members)))]).

(** The stages of [task_code_scan] up to the last line filter. *)
Definition code_scan_rows (df : list StoreRow) (search_terms : list string)
    (package_name : option string) (case_sensitive : bool) : list (StoreRow * string) :=
  let df := filter_by_extension df ["smali"] false in
  let df := match package_name with
            | Some (String _ _ as package_name) =>
                filter_by_classname_containing df package_name case_sensitive
            | _ => df
            end in
  let df := fold_left (fun df term => filter_by_text_containing df term case_sensitive)
                      search_terms df in
  let df := split_text_content_into_lines df in
  fold_left (fun df term => filter_by_line_text_containing df term case_sensitive)
            search_terms df.

(** The grouped frame of [task_code_scan]: the two added columns are
    functions of [relative_path]; the aggregates skip their nulls. *)
Definition code_scan_grouped (df : list StoreRow) (search_terms : list string)
    (package_name : option string) (with_inferred_developers with_class_name : bool)
    (case_sensitive : bool) : list PyRecord :=
  group_by_app_and_version fst
    (code_scan_rows df search_terms package_name case_sensitive)
    (fun members =>
       [("lines", json_strings (collect_list (map (fun rl => Some (snd rl)) members)))]
       ++ (if with_inferred_developers
           then [("inferred_developers",
                  json_strings
                    (collect_set []
                       (collect_list
                          (map (fun rl => infer_developer_from_packagename
                                            (relative_path (file (fst rl))))
                               members))))]
           else [])
       ++ (if with_class_name
           then [("classes",
                  json_strings
                    (collect_list
                       (map (fun rl => get_class_full_name (relative_path (file (fst rl))))
                            members)))]
           else [])).

(** The pattern of [task_permission_scan]. *)
Definition permission_pattern : string :=
  "android:name=" ++ dquote ++ "([a-zA-Z0-9_\.]+)" ++ dquote.

Definition permission_regex : Regex.regex :=
  Eval vm_compute in Regex.regex_of (Regex.compile permission_pattern).

(** The lambda behind [get_protection_level_func]: the level filed under
    the permission name if it is a key of the table, which is what
    [load_permission_protection_level_map] has read. *)
Definition get_protection_level_func
    (permission_protection_level_map : list (string * string))
    (permission_name : string) : string :=
  match dict_get permission_name permission_protection_level_map with
  | Some protection_level => protection_level
  | None => "unidentified"
  end.

Record PermissionRow : Type := {
  p_row : StoreRow;
  p_line : string;
  p_permission : string;
  p_protection_level : string
}.

(** The stages of [task_permission_scan] up to the grouping. *)
Definition permission_scan_rows
    (permission_protection_level_map : list (string * string)) (df : list StoreRow)
    : list PermissionRow :=
  let df := List.filter
              (fun r => String.eqb (relative_path (file r)) "/AndroidManifest.xml") df in
  let df := split_text_content_into_lines df in
  let df := List.filter (fun rl => contains (" android:name=" ++ dquote)%string (snd rl))
              (List.filter (fun rl => contains "permission " (snd rl)) df) in
  map (fun rl =>
         let permission := Regex.regexp_extract (snd rl) permission_regex 1 in
         {| p_row := fst rl; p_line := snd rl; p_permission := permission;
            p_protection_level :=
              get_protection_level_func permission_protection_level_map permission |})
      df.

(** The grouped frame of [task_permission_scan]; both aggregates list
    their column in the order of the group's rows. *)
Definition permission_scan_grouped
    (permission_protection_level_map : list (string * string)) (df : list StoreRow)
    : list PyRecord :=
  group_by_app_and_version p_row
    (permission_scan_rows permission_protection_level_map df)
    (fun members =>
       [("permissions",
         json_strings (collect_list (map (fun p => Some (p_permission p)) members)));
        ("protection_levels",
         json_strings (collect_list (map (fun p => Some (p_protection_level p)) members)))]).

(** [load_tracker_list]; [catalog] is the decoded [full_tracker_list.json]. *)
Definition load_tracker_list (catalog : list TrackerEntry) (source_name : string)
    : list TrackerEntry :=
  List.filter (fun tracker => String.eqb (source tracker) source_name) catalog.

(** The lambda behind [get_tracker_name_func]: the name filed under the
    matched criterion.  A criterion that is no key, [None] among them, is
    formatted into the message. *)
Definition get_tracker_name_func (tracker_map : list (string * string))
    (criterion : option string) : string :=
  match criterion with
  | Some c =>
      match dict_get c tracker_map with
      | Some tracker_name => tracker_name
      | None => ("(not detected for " ++ c ++ ")")%string
      end
  | None => "(not detected for None)"
  end.

(** A column computed row by row by a function that may fail: the first
    failure fails the frame. *)
Fixpoint with_column {A B : Type} (f : A -> PyResult B) (df : list A)
    : PyResult (list (A * B)) :=
  match df with
  | [] => Ok []
  | x :: df' =>
      let* y := f x in
      let* rest := with_column f df' in
      Ok ((x, y) :: rest)
  end.

(** A filter whose condition may fail. *)
Definition filter_where {A : Type} (cond : A -> PyResult bool) (df : list A)
    : PyResult (list A) :=
  let* flagged := with_column cond df in
  Ok (map fst (List.filter snd flagged)).

(** An exception raised inside a Python UDF reaches the driver as a failed
    Spark job. *)
Definition udf {A : Type} (r : PyResult A) : PyResult A :=
  match r with
  | Ok a => Ok a
  | Raise _ => Raise SparkError
  end.

(** Spark's [col.rlike(pattern)] for a pattern given as text, where the
    regex model covers the pattern. *)
Definition spark_rlike (subject pattern : string) : PyResult bool :=
  match Regex.compile pattern with
  | Regex.Parsed r => Ok (Regex.rlike subject r)
  | Regex.Invalid => Raise SparkError
  | Regex.Unsupported => Raise NotModelled
  end.

(** A row of the two tracker scans: the store row, its line (domain scan
    only), the criterion [identify_matching_criterion] returned and the
    tracker name filed under it. *)
Record TrackerHit : Type := {
  h_row : StoreRow;
  h_line : option string;
  h_matching : option string;
  h_tracker_name : string
}.

(** The stages of [task_tracker_classname_scan] from the catalog to the
    [tracker_name] column.  [rlike subject pattern] is Spark's [rlike] on a
    pattern built at run time; a null class name never passes it. *)
Definition tracker_classname_rows (re_search rlike : string -> string -> PyResult bool)
    (catalog : list TrackerEntry) (tracker_list_name : string) (df : list StoreRow)
    : PyResult (list TrackerHit) :=
  let tracker_list := load_tracker_list catalog tracker_list_name in
  let classname_tracker_map := get_classname_to_tracker_map tracker_list in
  let classname_list := dict_keys classname_tracker_map in
  let regex_escaped_tracker_classname_list :=
    map (fun classname => ("^(" ++ replace "." "\." classname ++ ")")%string)
        classname_list in
  let df := filter_by_extension df ["smali"] false in
  let df := omap (fun r => option_map (pair r)
                             (get_class_full_name (relative_path (file r)))) df in
  let* df := filter_where
               (fun rc => rlike (snd rc) (join "|" regex_escaped_tracker_classname_list))
               df in
  let* df := with_column
               (fun rc => udf (identify_matching_criterion re_search (snd rc)
                                 classname_list true)) df in
  Ok (map (fun rcm =>
             {| h_row := fst (fst rcm); h_line := None; h_matching := snd rcm;
                h_tracker_name := get_tracker_name_func classname_tracker_map (snd rcm) |})
          df).

(** The stages of [task_tracker_domain_scan] from the catalog to the
    [tracker_name] column. *)
Definition tracker_domain_rows (re_search rlike : string -> string -> PyResult bool)
    (catalog : list TrackerEntry) (tracker_list_name : string) (df : list StoreRow)
    : PyResult (list TrackerHit) :=
  let tracker_list := load_tracker_list catalog tracker_list_name in
  let domain_tracker_map := get_domain_to_tracker_map tracker_list in
  let domain_list := dict_keys domain_tracker_map in
  let regex_escaped_domain_list :=
    map (fun domain => ("(" ++ replace "." "\." domain ++ ")")%string)
        (List.filter (fun domain => contains "." domain) domain_list) in
  let df := List.filter (fun r => col_contains "const-string" (content_text (file r)))
                        (filter_by_extension df ["smali"] false) in
  let df := split_text_content_into_lines df in
  let df := List.filter (fun rl => contains "http" (snd rl))
              (List.filter (fun rl => contains "const-string" (snd rl)) df) in
  let* df := filter_where
               (fun rl => rlike (lower (snd rl)) (join "|" regex_escaped_domain_list)) df in
  let* df := with_column
               (fun rl => udf (identify_matching_criterion re_search (snd rl)
                                 domain_list true)) df in
  Ok (map (fun rlm =>
             {| h_row := fst (fst rlm); h_line := Some (snd (fst rlm));
                h_matching := snd rlm;
                h_tracker_name := get_tracker_name_func domain_tracker_map (snd rlm) |})
          df).

(** *** The recipes *)

Inductive Recipe : Type :=
| PermissionScan
| UrlExtraction
| TrackerClassnameScan
| TrackerDomainScan
| TextSearch
| CodeScan.

(** What an [APKAnalysis] object has of the Spark session behind it:
    [read_parquets], and for the recipes whose stages are not spelled out
    here the grouped frame they build from the bound arguments. *)
Record Backend : Type := {
  read_parquets : Json -> string -> PyResult (list StoreRow);
  grouped_frame : Recipe -> list (string * Json) -> PyResult (list PyRecord)
}.

(** The parameters of each [task_] method with their defaults. *)
Definition signature (r : Recipe) : list (string * Json) :=
  let basenames := ("app_parquet_basenames", JList [JStr "*"]) in
  let limit := ("limit", JNum 500) in
  match r with
  | PermissionScan | UrlExtraction => [basenames; limit]
  | TrackerClassnameScan | TrackerDomainScan =>
      [basenames; ("tracker_list_name", JNull); limit]
  | TextSearch =>
      [basenames; ("search_terms", JList []); ("extensions", JNull);
       ("filename", JNull); ("case_sensitive", JBool false); limit]
  | CodeScan =>
      [basenames; ("search_terms", JList []); ("package_name", JNull);
       ("with_inferred_developers", JBool true); ("with_class_name", JBool true);
       ("case_sensitive", JBool false); limit]
  end.

(** Calling a method with the dictionary [task_arguments] unpacked into
    keyword arguments: a keyword that is no parameter is a [TypeError]; a
    parameter that is not passed takes its default. *)
Definition bind_kwargs (params kwargs : list (string * Json))
    : PyResult (list (string * Json)) :=
  if forallb (fun kv => dict_has (fst kv) params) kwargs
  then Ok (map (fun pd => (fst pd, default (snd pd) (dict_get (fst pd) kwargs))) params)
  else Raise TypeError.

Definition arg (p : string) (bound : list (string * Json)) : Json :=
  default JNull (dict_get p bound).

(** The frame a recipe groups its rows into ([groupped_df] in the source)
    before it calls [get_result_obj]. *)
Definition groupped_df (be : Backend) (r : Recipe) (bound : list (string * Json))
    : PyResult (list PyRecord) :=
  match r with
  | UrlExtraction =>
      let* df := read_parquets be (arg "app_parquet_basenames" bound) "content_mode=text" in
      Ok (url_extraction_grouped df)
  | _ => grouped_frame be r bound
  end.

(** The common tail of the recipes: [get_result_obj(groupped_df, limit)]. *)
Definition materialize (df : PyResult (list PyRecord)) (bound : list (string * Json))
    : PyResult APKAnalysisResult :=
  let* df := df in
  let* limit := as_int (arg "limit" bound) in
  get_result_obj df limit.

Definition task_permission_scan (be : Backend) (bound : list (string * Json))
    : PyResult APKAnalysisResult :=
  materialize (groupped_df be PermissionScan bound) bound.

Definition task_url_extraction (be : Backend) (bound : list (string * Json))
    : PyResult APKAnalysisResult :=
  materialize (groupped_df be UrlExtraction bound) bound.

Definition task_tracker_classname_scan (be : Backend) (bound : list (string * Json))
    : PyResult APKAnalysisResult :=
  if negb (truthy (arg "tracker_list_name" bound)) then Ok APKAnalysisResult_default
  else materialize (groupped_df be TrackerClassnameScan bound) bound.

Definition task_tracker_domain_scan (be : Backend) (bound : list (string * Json))
    : PyResult APKAnalysisResult :=
  if negb (truthy (arg "tracker_list_name" bound)) then Ok APKAnalysisResult_default
  else materialize (groupped_df be TrackerDomainScan bound) bound.

Definition task_text_search (be : Backend) (bound : list (string * Json))
    : PyResult APKAnalysisResult :=
  if negb (truthy (arg "search_terms" bound)) then Ok APKAnalysisResult_default
  else
    let* n := py_len (arg "search_terms" bound) in
    if (n <=? 0)%Z then Ok APKAnalysisResult_default
    else materialize (groupped_df be TextSearch bound) bound.

Definition task_code_scan (be : Backend) (bound : list (string * Json))
    : PyResult APKAnalysisResult :=
  if negb (truthy (arg "search_terms" bound)) then Ok APKAnalysisResult_default
  else
    let* n := py_len (arg "search_terms" bound) in
    if (n <=? 0)%Z then Ok APKAnalysisResult_default
    else materialize (groupped_df be CodeScan bound) bound.

Definition run_recipe (r : Recipe) (be : Backend) (bound : list (string * Json))
    : PyResult APKAnalysisResult :=
  match r with
  | PermissionScan => task_permission_scan be bound
  | UrlExtraction => task_url_extraction be bound
  | TrackerClassnameScan => task_tracker_classname_scan be bound
  | TrackerDomainScan => task_tracker_domain_scan be bound
  | TextSearch => task_text_search be bound
  | CodeScan => task_code_scan be bound
  end.

(** A method called with keyword arguments. *)
Definition call_task (r : Recipe) (be : Backend) (kwargs : list (string * Json))
    : PyResult APKAnalysisResult :=
  let* bound := bind_kwargs (signature r) kwargs in
  run_recipe r be bound.

End Analysis.

(** ** [appinspect_ops.py] *)

Module Ops.
Import PyStr Analysis.

(** What [analyse_apks] returns: the empty dictionary, or the [__dict__] of
    an [APKAnalysisResult]. *)
Inductive AnalysisOutput : Type :=
| EmptyMapping
| ResultMapping (r : APKAnalysisResult).

Definition task_names : list (string * Recipe) :=
  [("task_permission_scan", PermissionScan);
   ("task_url_extraction", UrlExtraction);
   ("task_tracker_classname_scan", TrackerClassnameScan);
   ("task_tracker_domain_scan", TrackerDomainScan);
   ("task_text_search", TextSearch);
   ("task_code_scan", CodeScan)].

(** [getattr(analysis, task_name)] for a name that starts with [task_]:
    the [APKAnalysis] attributes with that prefix are its six recipes. *)
Definition getattr_task (task_name : string) : PyResult Recipe :=
  match PyDict.dict_get task_name task_names with
  | Some r => Ok r
  | None => Raise (AttributeError task_name)
  end.

(** [analyse_apks].  [new_analysis] is the [APKAnalysis] constructor, which
    starts the Spark session. *)
Definition analyse_apks (new_analysis : APKAnalysisConfig -> PyResult Backend)
    (analysis_config : option APKAnalysisConfig) (task_name : option string)
    (task_arguments : list (string * Json)) : PyResult AnalysisOutput :=
  match analysis_config with
  | None => Ok EmptyMapping
  | Some config =>
      match task_name with
      | None => Ok EmptyMapping
      | Some task_name =>
          if String.eqb task_name "" then Ok EmptyMapping
          else if negb (startswith "task_" task_name) then Ok EmptyMapping
          else
            let* analysis := new_analysis config in
            let* task_func_to_call := getattr_task task_name in
            let* final_results := call_task task_func_to_call analysis task_arguments in
            Ok (ResultMapping final_results)
      end
  end.

End Ops.

(** ** [appinspect_worker.py] *)

Module Worker.
Import PyStr PyDict Analysis.

Record AppInspectWorkerConfig : Type := {
  service_rpc_url : string;
  service_api_base_url : string
}.

Record AppInspectActionInfo : Type := {
  op_method : string;
  required_parameters : list string;
  parameters_to_be_removed : option (list string);
  enabled : bool;
  max_threads : nat;
  invocation_spacing_range_sec : option (Z * Z)
}.

Definition action_info_list : list AppInspectActionInfo :=
  [ {| op_method := "query_googleplay"; enabled := true;
       required_parameters := ["query_method"; "query_json_string"];
       parameters_to_be_removed := Some ["automatic_apk_retrieval"];
       max_threads := 1; invocation_spacing_range_sec := Some (3, 7)%Z |};
    {| op_method := "retrieve_apk"; enabled := true;
       required_parameters := ["appid"]; parameters_to_be_removed := None;
       max_threads := 1; invocation_spacing_range_sec := Some (5, 10)%Z |};
    {| op_method := "convert_and_move_apk"; enabled := true;
       required_parameters := ["apk_filename"]; parameters_to_be_removed := None;
       max_threads := 1; invocation_spacing_range_sec := None |};
    {| op_method := "analyse_apks"; enabled := true;
       required_parameters := ["task_name"; "task_arguments"];
       parameters_to_be_removed := None;
       max_threads := 1; invocation_spacing_range_sec := None |} ].

Definition supported_actions : list string :=
  map op_method (List.filter enabled action_info_list).

(** [get_action_info_by_name] *)
Definition get_action_info_by_name (action_name : string) : option AppInspectActionInfo :=
  List.find (fun action_info => String.eqb (op_method action_info) action_name)
            action_info_list.

(** *** Operations on decoded JSON *)

(** [key in x]: a key of a dictionary, an element of a list, a substring
    of a string; the other values are not containers. *)
Definition json_contains (key : string) (x : Json) : PyResult bool :=
  match x with
  | JObj o => Ok (dict_has key o)
  | JList l =>
      Ok (existsb (fun e => match e with JStr s => String.eqb s key | _ => false end) l)
  | JStr s => Ok (contains key s)
  | _ => Raise TypeError
  end.

(** [del x[key]] *)
Definition json_del (key : string) (x : Json) : PyResult Json :=
  match x with
  | JObj o =>
      if dict_has key o
      then Ok (JObj (List.filter (fun kv => negb (String.eqb (fst kv) key)) o))
      else Raise (KeyError key)
  | _ => Raise TypeError
  end.

(** [x[key]] *)
Definition subscript (x : Json) (key : string) : PyResult Json :=
  match x with
  | JObj o =>
      match dict_get key o with
      | Some v => Ok v
      | None => Raise (KeyError key)
      end
  | _ => Raise TypeError
  end.

(** The values a [for] loop over [x] visits. *)
Definition json_iter (x : Json) : PyResult (list Json) :=
  match x with
  | JList l => Ok l
  | JObj o => Ok (map JStr (dict_keys o))
  | JStr s => Ok (map (fun c => JStr (String c "")) (list_ascii_of_string s))
  | _ => Raise TypeError
  end.

(** *** The worker and what surrounds it *)

(** What an operation of [AppInspectOps] returns: a string, or a dataclass
    or dictionary, given as the value [json.dumps] is applied to. *)
Inductive OpResult : Type :=
| ResultStr (s : string)
| ResultData (d : Json).

(** The library and service calls of [run_task]: [ops_call m kwargs] calls
    the method [m] of [self.ops] with the dictionary [kwargs] unpacked into
    keyword arguments, [requests_post url result] gives the status code and
    content of the response. *)
Record Env : Type := {
  json_loads : string -> PyResult Json;
  json_dumps : Json -> PyResult string;
  urljoin : string -> string -> string;
  ops_call : string -> list (string * Json) -> PyResult OpResult;
  requests_post : string -> string -> PyResult (Z * string)
}.

(** What the [except BaseException] clause of [run_task] can catch: an
    exception of a call, or the one raised for a response other than 200. *)
Inductive Failure : Type :=
| Raised (e : PyError)
| UploadError (status_code : Z) (content : string).

(** The error text of a [CompleteTask] message: a literal, or an exception
    formatted with its type. *)
Inductive ErrorMessage : Type :=
| Message (s : string)
| OfException (ex : Failure).

Inductive HubMessage : Type :=
| CompleteTask (task_id : string) (error_message : option ErrorMessage)
| TakeupTasks (task_ids : list Json).      (* sent as [json.dumps(task_ids)] *)

(** The state of a worker: the messages sent over the hub, oldest first,
    the operations invoked, the results posted, and the queue of each
    action with its [(priority, (task_id, arguments))] items. *)
Record WorkerState : Type := {
  sent : list HubMessage;
  invoked : list (string * list (string * Json));
  posted : list (string * string);
  action_queues : list (string * list (Z * (string * string)))
}.

(** The state [__init__] leaves: an empty queue for every action. *)
Definition new_worker : WorkerState :=
  {| sent := []; invoked := []; posted := [];
     action_queues :=
       fold_left (fun queues action_info => dict_set (op_method action_info) [] queues)
                 action_info_list [] |}.

(** [self.hub.send(...)] *)
Definition hub_send (w : WorkerState) (m : HubMessage) : WorkerState :=
  {| sent := sent w ++ [m]; invoked := invoked w; posted := posted w;
     action_queues := action_queues w |}.

(** [task_error_raised] *)
Definition task_error_raised (w : WorkerState) (task_id : string)
    (error_message : ErrorMessage) : WorkerState :=
  hub_send w (CompleteTask task_id (Some error_message)).

(** [all([rp in task_arguments for rp in required_parameters])]: the list
    is built in full, so every membership test is made. *)
Fixpoint all_in (required_parameters : list string) (task_arguments : Json)
    : PyResult bool :=
  match required_parameters with
  | [] => Ok true
  | rp :: required_parameters' =>
      let* here := json_contains rp task_arguments in
      let* others := all_in required_parameters' task_arguments in
      Ok (here && others)
  end.

(** The loop over [parameters_to_be_removed]. *)
Fixpoint remove_parameters (names : list string) (task_arguments : Json)
    : PyResult Json :=
  match names with
  | [] => Ok task_arguments
  | parameter_name_for_removal :: names' =>
      let* present := json_contains parameter_name_for_removal task_arguments in
      if present then
        let* task_arguments := json_del parameter_name_for_removal task_arguments in
        remove_parameters names' task_arguments
      else remove_parameters names' task_arguments
  end.

(** The [try] statement of [run_task]: whatever is raised inside it is
    caught and reported.  Unpacking with [**] needs a mapping. *)
Definition run_task_try (env : Env) (worker_config : AppInspectWorkerConfig)
    (w : WorkerState) (task_id : string) (action_info : AppInspectActionInfo)
    (task_arguments : Json) : WorkerState :=
  match task_arguments with
  | JObj kwargs =>
      let w := {| sent := sent w;
                  invoked := invoked w ++ [(op_method action_info, kwargs)];
                  posted := posted w; action_queues := action_queues w |} in
      match ops_call env (op_method action_info) kwargs with
      | Raise e => task_error_raised w task_id (OfException (Raised e))
      | Ok result =>
          let dumped :=
            match result with
            | ResultStr s => Ok s
            | ResultData d => json_dumps env d
            end in
          match dumped with
          | Raise e => task_error_raised w task_id (OfException (Raised e))
          | Ok result =>
              let url := urljoin env (service_api_base_url worker_config)
                                 ("task/" ++ task_id) in
              let w := {| sent := sent w; invoked := invoked w;
                          posted := posted w ++ [(url, result)];
                          action_queues := action_queues w |} in
              match requests_post env url result with
              | Raise e => task_error_raised w task_id (OfException (Raised e))
              | Ok (status_code, content) =>
                  if (status_code =? 200)%Z
                  then hub_send w (CompleteTask task_id None)
                  else task_error_raised w task_id
                         (OfException (UploadError status_code content))
              end
          end
      end
  | _ => task_error_raised w task_id (OfException (Raised TypeError))
  end.

(** [run_task].  The result pairs what the call returns or raises with the
    state it leaves. *)
Definition run_task (env : Env) (worker_config : AppInspectWorkerConfig)
    (w : WorkerState) (task_id action_name task_arguments_json_str : string)
    : PyResult unit * WorkerState :=
  match json_loads env task_arguments_json_str with
  | Raise e => (Raise e, w)
  | Ok task_arguments =>
      match get_action_info_by_name action_name with
      | None => (Ok tt, task_error_raised w task_id (Message "Invalid action name"))
      | Some action_info =>
          match all_in (required_parameters action_info) task_arguments with
          | Raise e => (Raise e, w)
          | Ok false =>
              (Ok tt, task_error_raised w task_id (Message "Missing required parameters"))
          | Ok true =>
              let removed :=
                match parameters_to_be_removed action_info with
                | Some ((_ :: _) as names) => remove_parameters names task_arguments
                | _ => Ok task_arguments
                end in
              match removed with
              | Raise e => (Raise e, w)
              | Ok task_arguments =>
                  (Ok tt, run_task_try env worker_config w task_id action_info
                            task_arguments)
              end
          end
      end
  end.

(** The action a pending task names and the identifier it carries. *)
Definition task_action (pending_task : Json) : PyResult Json :=
  subscript pending_task "Action".

Definition task_identifier (pending_task : Json) : PyResult Json :=
  subscript pending_task "Id".

(** Whether a pending task names the given action. *)
Definition names_action (action_name : string) (pending_task : Json) : bool :=
  match task_action pending_task with
  | Ok (JStr a) => String.eqb a action_name
  | _ => false
  end.

(** The loop of [method_pending_tasks].  A value that is no string is in
    no list of action names. *)
Fixpoint pending_tasks_loop (w : WorkerState) (pending_tasks : list Json)
    (new_action_counts : list (string * nat)) (task_ids_to_takeup : list Json)
    : PyResult (list Json) :=
  match pending_tasks with
  | [] => Ok task_ids_to_takeup
  | pending_task :: pending_tasks' =>
      let* action := task_action pending_task in
      match action with
      | JStr action_name =>
          if negb (str_in action_name supported_actions)
          then pending_tasks_loop w pending_tasks' new_action_counts task_ids_to_takeup
          else
            let action_info := get_action_info_by_name action_name in
            match dict_get action_name (action_queues w) with
            | None => Raise (KeyError action_name)
            | Some queue =>
                let action_queue_size := length queue in
                match dict_get action_name new_action_counts with
                | None => Raise (KeyError action_name)
                | Some count =>
                    match action_info with
                    | None => Raise (AttributeError "max_threads")
                    | Some action_info =>
                        (* soft queue size limit: max_threads * 2 *)
                        if (max_threads action_info * 2 <=? count + action_queue_size)%nat
                        then pending_tasks_loop w pending_tasks' new_action_counts
                               task_ids_to_takeup
                        else
                          let new_action_counts :=
                            dict_set action_name (count + 1) new_action_counts in
                          let* task_id := task_identifier pending_task in
                          pending_tasks_loop w pending_tasks' new_action_counts
                            (task_ids_to_takeup ++ [task_id])
                    end
                end
            end
      | _ => pending_tasks_loop w pending_tasks' new_action_counts task_ids_to_takeup
      end
  end.

(** [method_pending_tasks] *)
Definition method_pending_tasks (env : Env) (w : WorkerState)
    (pending_tasks_json_string : string) : PyResult unit * WorkerState :=
  match json_loads env pending_tasks_json_string with
  | Raise e => (Raise e, w)
  | Ok pending_tasks =>
      let new_action_counts :=
        fold_left (fun counts supported_action => dict_set supported_action 0 counts)
                  supported_actions [] in
      let taken :=
        let* pending_tasks := json_iter pending_tasks in
        pending_tasks_loop w pending_tasks new_action_counts [] in
      match taken with
      | Raise e => (Raise e, w)
      | Ok task_ids_to_takeup =>
          if (0 <? length task_ids_to_takeup)%nat
          then (Ok tt, hub_send w (TakeupTasks task_ids_to_takeup))
          else (Ok tt, w)
      end
  end.

(** [method_assign_task]; [put] adds the item to the queue of the action. *)
Definition method_assign_task (w : WorkerState)
    (task_id action_name task_arguments_json_str : string) (priority : Z)
    : PyResult unit * WorkerState :=
  if str_in action_name supported_actions then
    match dict_get action_name (action_queues w) with
    | Some queue =>
        (Ok tt,
         {| sent := sent w; invoked := invoked w; posted := posted w;
            action_queues :=
              dict_set action_name
                (queue ++ [(priority, (task_id, task_arguments_json_str))])
                (action_queues w) |})
    | None => (Raise (KeyError action_name), w)
    end
  else
    (Ok tt, task_error_raised w task_id
              (Message "Action not supported by the assigned worker")).

End Worker.

(** ** The statements under test, in the words of the design document

    These definitions follow the document, not the code; the theorems of
    Part II compare them with the functions above. *)

Module Claimed.
Import PyStr Analysis.

(** "Drop leading empty segments". *)
Fixpoint drop_leading_empty (segments : list string) : list string :=
  match segments with
  | EmptyString :: segments' => drop_leading_empty segments'
  | _ => segments
  end.

(** "Strip a trailing decompiled-source suffix". *)
Definition strip_suffix (suffix s : string) : string :=
  if endswith suffix s
  then String.substring 0 (String.length s - String.length suffix) s
  else s.

(** [class_name(path)] as the document words it: split on the separator,
    drop the leading empty segments and the first non-empty one, none if
    nothing remains, strip a trailing [.smali] from the last segment, join
    with a dot. *)
Definition class_name (path : string) : option string :=
  match drop 1 (drop_leading_empty (split "/" path)) with
  | [] => None
  | segments =>
      Some (join "." (removelast segments
                        ++ [strip_suffix ".smali" (last_item segments "")]))
  end.

(** A criterion is in regex mode exactly when it contains a member of the
    metacharacter set. *)
Definition regex_mode (criterion : string) : bool :=
  existsb (fun sign => contains sign criterion) regex_signs.

(** The test one criterion is put to against the lower-cased target: in
    regex mode every dot is escaped and the pattern is searched
    unanchored, otherwise plain containment; the criterion is compared in
    lower case, and returned in its original case. *)
Definition criterion_test (re_search : string -> string -> PyResult bool)
    (target criterion : string) : PyResult bool :=
  if regex_mode criterion
  then re_search (replace "." "\." (lower criterion)) target
  else Ok (contains (lower criterion) target).

(** The shape of a fully qualified domain name, in the document's words:
    labels separated by dots, one or more and then a final one; a label
    is a lower-case letter or digit, followed or not by up to 61
    lower-case letters, digits or hyphens and one more letter or digit. *)
Definition fqdn_alnum (c : ascii) : bool :=
  let n := nat_of_ascii c in
  ((97 <=? n) && (n <=? 122) || (48 <=? n) && (n <=? 57))%nat.

Definition fqdn_label_char (c : ascii) : bool :=
  fqdn_alnum c || Ascii.eqb c "-".

Definition fqdn_label (label : string) : bool :=
  let chars := list_ascii_of_string label in
  (1 <=? length chars)%nat && (length chars <=? 63)%nat
  && forallb fqdn_label_char chars
  && fqdn_alnum (hd "-"%char chars)
  && fqdn_alnum (List.last chars "-"%char).

Definition fqdn_shape (domain : string) : bool :=
  let labels := split "." domain in
  (2 <=? length labels)%nat && forallb fqdn_label labels.

(** The first entry of the catalog that contributes [key]. *)
Definition first_contributor (keys_of : TrackerEntry -> list string) (key : string)
    (entries : list TrackerEntry) : option TrackerEntry :=
  List.find (fun entry => str_in key (keys_of entry)) entries.

(** The (key, entry name) pairs of a catalog, in entry order. *)
Definition flattened (keys_of : TrackerEntry -> list string)
    (entries : list TrackerEntry) : list (string * string) :=
  flat_map (fun entry => map (fun key => (key, name entry)) (keys_of entry)) entries.

(** The ordered fold with insert-if-absent semantics. *)
Definition insert_if_absent (m : list (string * string)) (p : string * string)
    : list (string * string) :=
  if negb (PyDict.dict_has (fst p) m) then PyDict.dict_set (fst p) (snd p) m else m.

(** The argument a recipe cannot do without: the search terms of the two
    searches, the catalog source name of the two tracker scans. *)
Definition required_argument (r : Recipe) : option string :=
  match r with
  | PermissionScan | UrlExtraction => None
  | TrackerClassnameScan | TrackerDomainScan => Some "tracker_list_name"
  | TextSearch | CodeScan => Some "search_terms"
  end.

(** A recipe goes on to its pipeline when its required argument is there:
    a truthy catalog source name, search terms with a positive length. *)
Definition has_required_argument (r : Recipe) (bound : list (string * Json)) : bool :=
  match r with
  | PermissionScan | UrlExtraction => true
  | TrackerClassnameScan | TrackerDomainScan => truthy (arg "tracker_list_name" bound)
  | TextSearch | CodeScan =>
      match arg "search_terms" bound with
      | JList (_ :: _) | JObj (_ :: _) | JStr (String _ _) => true
      | _ => false
      end
  end.

End Claimed.

(** ** Sample data for the worked examples *)

Module Samples.
Import PyStr Models Converter Analysis.

Definition example_info : ApkBasicInfo :=
  {| app_id := "com.test.app"; version_code := 3; version_name := "1.2";
     apk_sha256 := "3f5a" |}.

Definition example_file : ApkContentFileInfo :=
  {| relative_path := "/AndroidManifest.xml"; filename := "AndroidManifest.xml";
     extension := "xml"; content_text := Some "<manifest/>"; content_blob := None;
     content_mode := "text"; file_sha256 := "77aa" |}.

(** A binary file of the sample package. *)
Definition example_blob : ApkContentFileInfo :=
  {| relative_path := "/resources.arsc"; filename := "resources.arsc";
     extension := "arsc"; content_text := None;
     content_blob := Some [Byte.x02; Byte.x00; Byte.x0c; Byte.x00];
     content_mode := "blob"; file_sha256 := "c1d2" |}.

(** The base directory after one package, made of one text file, has
    been converted into an empty directory. *)
Definition example_store : gmap string Dataset :=
  snd (write_as_parquet arrow_read_table example_info [example_file] "/parquet" true ∅).



(** A decompiled class file of the sample package with the given text. *)
Definition smali_row (text : string) : StoreRow :=
  {| descriptor := example_info;
     file := {| relative_path := "/smali/com/test/app/Net.smali";
                filename := "Net.smali"; extension := "smali";
                content_text := Some text; content_blob := None;
                content_mode := "text"; file_sha256 := "09bc" |} |}.

(** The two lines of the document's URL example. *)
Definition bare_scheme_line : string :=
  "    const-string v0, " ++ dquote ++ "https://" ++ dquote.

Definition ads_line : string :=
  "    const-string v0, " ++ dquote ++ "https://ads.example.com/x" ++ dquote.

(** Three grouped rows. *)
Definition three_groups : list PyRecord :=
  [[("app_id", JStr "com.one")]; [("app_id", JStr "com.two")];
   [("app_id", JStr "com.three")]].

(** A backend that finds the one class file with the [ads_line], and the
    three grouped rows for every other recipe. *)
Definition sample_backend : Backend :=
  {| read_parquets := fun _ _ => Ok [smali_row ads_line];
     grouped_frame := fun _ _ => Ok three_groups |}.

(** A backend that fails whenever it is reached. *)
Definition failing_backend : Backend :=
  {| read_parquets := fun _ _ => Raise SparkError;
     grouped_frame := fun _ _ => Raise SparkError |}.

(** A later version of the sample package. *)
Definition later_info : ApkBasicInfo :=
  {| app_id := "com.test.app"; version_code := 4; version_name := "1.3";
     apk_sha256 := "91c0" |}.

(** The base directory after a later version of the sample package, made
    of one binary file, has been appended. *)
Definition mixed_store : gmap string Dataset :=
  snd (write_as_parquet arrow_read_table later_info [example_blob] "/parquet" true
         example_store).

(** A text file of the sample package at the given path. *)
Definition text_row (path extension text : string) : StoreRow :=
  {| descriptor := example_info;
     file := {| relative_path := path; filename := ""; extension := extension;
                content_text := Some text; content_blob := None;
                content_mode := "text"; file_sha256 := "5d41" |} |}.

(** A catalog with entries of two sources; the first and the last entry
    share a class signature, the first two a domain. *)
Definition sample_catalog : list TrackerEntry :=
  [ {| name := "Acme Ads"; domain_names := ["ads.example.com"];
       class_signatures := ["com.acme.ads"]; source := "exodus" |};
    {| name := "Other Ads"; domain_names := ["ads.example.com"];
       class_signatures := ["com.acme"]; source := "other" |};
    {| name := "Acme Analytics"; domain_names := ["stats.example.com"];
       class_signatures := ["com.acme.ads"; "com.acme.stats"]; source := "exodus" |} ].

(** The arguments of a store query and a list of four pending tasks, as
    they are decoded. *)
Definition query_arguments : list (string * Json) :=
  [("query_method", JStr "search"); ("automatic_apk_retrieval", JBool true);
   ("query_json_string", JStr "{}")].

Definition pending_task (identifier : Z) (action : string) : Json :=
  JObj [("Id", JNum identifier); ("Action", JStr action)].

Definition four_pending_tasks : list Json :=
  [pending_task 1 "analyse_apks"; pending_task 2 "delete_everything";
   pending_task 3 "analyse_apks"; pending_task 4 "analyse_apks"].

(** Surroundings of a worker in which the two texts below decode to the
    values above, every operation returns a string and every upload is
    answered with 200. *)
Definition sample_env : Worker.Env :=
  {| Worker.json_loads := fun s =>
       if String.eqb s "query" then Ok (JObj query_arguments)
       else if String.eqb s "pending" then Ok (JList four_pending_tasks)
       else Raise ValueError;
     Worker.json_dumps := fun _ => Ok "{}";
     Worker.urljoin := fun base url => (base ++ url)%string;
     Worker.ops_call := fun _ _ => Ok (Worker.ResultStr "done");
     Worker.requests_post := fun _ _ => Ok (200%Z, "") |}.

(** An extracted package: a manifest, a class file two levels down and
    an empty directory. *)
Definition sample_tree : list (string * Utility.Entry) :=
  [ ("AndroidManifest.xml", Utility.FileEntry (list_byte_of_string "<manifest/>"));
    ("smali",
     Utility.DirEntry
       [ ("com",
          Utility.DirEntry
            [("Main.smali", Utility.FileEntry (list_byte_of_string ".class Lcom/Main;"))]) ]);
    ("res", Utility.DirEntry []) ].

Definition sample_worker_config : Worker.AppInspectWorkerConfig :=
  {| Worker.service_rpc_url := "https://service.example/rpc";
     Worker.service_api_base_url := "https://service.example/api/" |}.

End Samples.

(* ===================================================================== *)
(** * Part II: properties                                                 *)
(* ===================================================================== *)

(** ** Dictionaries *)

Section DictFacts.
Context {V : Type}.
Implicit Types (d : list (string * V)) (k : string) (v : V).
Import PyDict.

Lemma dict_has_get k d : dict_has k d = true <-> is_Some (dict_get k d).
Proof.
  induction d as [|[k' v'] d IH]; simpl.
  - split; [discriminate | intros [? ?]; discriminate].
  - destruct (String.eqb k' k); simpl; [split; eauto | exact IH].
Qed.

Lemma dict_has_false k d : dict_has k d = false <-> dict_get k d = None.
Proof.
  rewrite <- Bool.not_true_iff_false, dict_has_get, <- eq_None_not_Some. tauto.
Qed.

Lemma dict_get_set_eq k v d : dict_get k (dict_set k v d) = Some v.
Proof.
  induction d as [|[k' v'] d IH]; simpl.
  - now rewrite String.eqb_refl.
  - destruct (String.eqb k' k) eqn:E; simpl; rewrite E; [reflexivity | exact IH].
Qed.

Lemma dict_get_set_ne k k' v d : k <> k' -> dict_get k' (dict_set k v d) = dict_get k' d.
Proof.
  intros Hne. induction d as [|[k0 v0] d IH]; simpl.
  - destruct (String.eqb_spec k k'); [contradiction | reflexivity].
  - destruct (String.eqb_spec k0 k) as [-> | ?]; simpl.
    + destruct (String.eqb_spec k k'); [contradiction | reflexivity].
    + destruct (String.eqb_spec k0 k'); [reflexivity | exact IH].
Qed.

Lemma dict_keys_set_new k v d :
  dict_has k d = false -> dict_keys (dict_set k v d) = dict_keys d ++ [k].
Proof.
  unfold dict_keys, dict_has.
  induction d as [|[k0 v0] d IH]; simpl; [reflexivity |].
  destruct (String.eqb k0 k); simpl; [discriminate |].
  intros H. now rewrite IH.
Qed.

Lemma dict_get_In k v d : dict_get k d = Some v -> In (k, v) d.
Proof.
  induction d as [|[k0 v0] d IH]; simpl; [discriminate |].
  destruct (String.eqb_spec k0 k) as [-> | _].
  - intros [= ->]. now left.
  - intros H. right. now apply IH.
Qed.

Lemma dict_has_keys k d : dict_has k d = true <-> In k (dict_keys d).
Proof.
  unfold dict_keys, dict_has.
  induction d as [|[k0 v0] d IH]; simpl; [split; [discriminate | tauto] |].
  destruct (String.eqb_spec k0 k); simpl; [tauto |].
  rewrite IH. split; [tauto | intros [? | ?]; [contradiction | assumption]].
Qed.

End DictFacts.

(** ** Catalog reduction: the first source wins *)

Section Catalog.
Import PyStr PyDict Analysis Claimed.

Lemma str_in_In (x : string) (l : list string) : str_in x l = true <-> In x l.
Proof.
  unfold str_in. rewrite existsb_exists. split.
  - intros (y & Hy & E). apply String.eqb_eq in E. now subst.
  - intros H. exists x. split; [assumption | apply String.eqb_refl].
Qed.

Lemma dict_get_app (k : string) (a b : list (string * string)) :
  dict_get k (a ++ b) = match dict_get k a with Some v => Some v | None => dict_get k b end.
Proof.
  induction a as [|[k0 v0] a IH]; simpl; [reflexivity |].
  destruct (String.eqb k0 k); [reflexivity | exact IH].
Qed.

Lemma fold_insert_if_absent_get (ps m : list (string * string)) (k : string) :
  dict_get k (fold_left insert_if_absent ps m)
  = match dict_get k m with Some v => Some v | None => dict_get k ps end.
Proof.
  revert m. induction ps as [|[k0 v0] ps IH]; intros m; simpl.
  - now destruct (dict_get k m).
  - rewrite IH. unfold insert_if_absent; simpl.
    destruct (dict_has k0 m) eqn:Hhas; simpl.
    + destruct (dict_get k m) eqn:Hk; [reflexivity |].
      destruct (String.eqb_spec k0 k) as [-> | _]; [| reflexivity].
      apply dict_has_get in Hhas. rewrite Hk in Hhas. now destruct Hhas.
    + apply dict_has_false in Hhas.
      destruct (String.eqb_spec k0 k) as [-> | Hne].
      * now rewrite dict_get_set_eq, Hhas.
      * rewrite dict_get_set_ne by assumption. reflexivity.
Qed.

Lemma fold_insert_if_absent_keys (ps m : list (string * string)) :
  NoDup (dict_keys m) -> NoDup (dict_keys (fold_left insert_if_absent ps m)).
Proof.
  revert m. induction ps as [|[k0 v0] ps IH]; intros m Hm; simpl; [assumption |].
  apply IH. unfold insert_if_absent; simpl.
  destruct (dict_has k0 m) eqn:Hhas; simpl; [assumption |].
  rewrite dict_keys_set_new by assumption.
  apply NoDup_app. repeat split.
  - assumption.
  - intros x Hx Hx'. apply list_elem_of_In in Hx, Hx'. destruct Hx' as [<- | []].
    apply dict_has_keys in Hx. congruence.
  - apply NoDup_singleton.
Qed.

Lemma dict_get_pairs (k n : string) (ks : list string) :
  dict_get k (map (fun key => (key, n)) ks) = if str_in k ks then Some n else None.
Proof.
  induction ks as [|k0 ks IH]; simpl; [reflexivity |].
  rewrite (String.eqb_sym k k0). destruct (String.eqb k0 k); [reflexivity | exact IH].
Qed.

Lemma dict_get_flattened (keys_of : TrackerEntry -> list string)
    (entries : list TrackerEntry) (k : string) :
  dict_get k (Claimed.flattened keys_of entries)
  = name <$> Claimed.first_contributor keys_of k entries.
Proof.
  unfold Claimed.flattened, Claimed.first_contributor.
  induction entries as [|e entries IH]; simpl; [reflexivity |].
  rewrite dict_get_app, dict_get_pairs.
  destruct (str_in k (keys_of e)); [reflexivity | exact IH].
Qed.

(** Leaving out the entries without keys changes nothing of the
    flattened list. *)
Lemma concat_nonempty_flattened (keys_of : TrackerEntry -> list string)
    (entries : list TrackerEntry) :
  concat (map (fun tracker => map (fun key => (key, name tracker)) (keys_of tracker))
              (List.filter (fun tracker => (0 <? length (keys_of tracker))%nat) entries))
  = Claimed.flattened keys_of entries.
Proof.
  unfold Claimed.flattened.
  induction entries as [|e entries IH]; simpl; [reflexivity |].
  destruct (keys_of e) as [|k ks] eqn:E; simpl.
  - exact IH.
  - rewrite E. simpl. now rewrite IH.
Qed.

Lemma domain_map_is_fold (entries : list TrackerEntry) :
  get_domain_to_tracker_map entries
  = fold_left insert_if_absent (Claimed.flattened domain_names entries) [].
Proof.
  unfold get_domain_to_tracker_map.
  now rewrite (concat_nonempty_flattened domain_names).
Qed.

Lemma classname_map_is_fold (entries : list TrackerEntry) :
  get_classname_to_tracker_map entries
  = fold_left insert_if_absent (Claimed.flattened class_signatures entries) [].
Proof.
  unfold get_classname_to_tracker_map.
  now rewrite (concat_nonempty_flattened class_signatures).
Qed.

(** C3.  Both catalog reductions bind every key to the name of the first
    entry, in entry order, whose key list contains it: the binding of a
    key is the first pair with that key in the flattened list of
    (key, entry name) pairs, a later entry with the same key never
    replaces it, and no key is listed twice. *)
Theorem catalog_first_source_wins (entries : list TrackerEntry) (key : string) :
  dict_get key (get_domain_to_tracker_map entries)
    = dict_get key (Claimed.flattened domain_names entries)
  /\ dict_get key (get_domain_to_tracker_map entries)
    = name <$> Claimed.first_contributor domain_names key entries
  /\ dict_get key (get_classname_to_tracker_map entries)
    = dict_get key (Claimed.flattened class_signatures entries)
  /\ dict_get key (get_classname_to_tracker_map entries)
    = name <$> Claimed.first_contributor class_signatures key entries
  /\ NoDup (dict_keys (get_domain_to_tracker_map entries))
  /\ NoDup (dict_keys (get_classname_to_tracker_map entries)).
Proof.
  rewrite domain_map_is_fold, classname_map_is_fold.
  rewrite !fold_insert_if_absent_get. simpl.
  rewrite !dict_get_flattened.
  repeat split; apply fold_insert_if_absent_keys; constructor.
Qed.

(** The document's example: two entries share a domain; the map holds the
    first entry's name for it. *)
Example catalog_shared_domain :
  get_domain_to_tracker_map
    [ {| name := "First"; domain_names := ["ads.example.com"; "one.example"];
         class_signatures := []; source := "catalog" |};
      {| name := "Second"; domain_names := ["two.example"; "ads.example.com"];
         class_signatures := []; source := "catalog" |} ]
  = [("ads.example.com", "First"); ("one.example", "First"); ("two.example", "Second")].
Proof. reflexivity. Qed.

End Catalog.

(** ** Limiting and materialising *)

Section Limit.
Import PyStr PyDict Analysis Claimed.

Lemma get_result_obj_spec (df : list PyRecord) (limit : Z) :
  ((limit <= 0)%Z ->
   get_result_obj df limit
   = Ok {| total := Z.of_nat (length df); output_limit := limit; records := Some df |})
  /\ ((0 < limit < 2147483648)%Z ->
      get_result_obj df limit
      = Ok {| total := Z.of_nat (length (take (Z.to_nat limit) df));
              output_limit := limit;
              records := Some (take (Z.to_nat limit) df) |})
  /\ ((2147483648 <= limit)%Z -> get_result_obj df limit = Raise Py4JError).
Proof.
  unfold get_result_obj, df_limit, java_int. repeat split; intros Hlimit.
  - destruct (Z.gtb_spec limit 0) as [Hpos | _]; [lia | reflexivity].
  - destruct (Z.gtb_spec limit 0) as [_ | Hle]; [| lia].
    destruct (Z.leb_spec (-2147483648) limit); [| lia].
    destruct (Z.leb_spec limit 2147483647); [| lia].
    destruct (Z.ltb_spec limit 0); [lia |]. reflexivity.
  - destruct (Z.gtb_spec limit 0) as [_ | Hle]; [| lia].
    destruct (Z.leb_spec (-2147483648) limit); [| lia].
    destruct (Z.leb_spec limit 2147483647); [lia |]. reflexivity.
Qed.

(** A recipe whose required argument is there ends in [get_result_obj]. *)
Lemma run_recipe_materializes (be : Backend) (r : Recipe) (bound : list (string * Json)) :
  has_required_argument r bound = true ->
  run_recipe r be bound = materialize (groupped_df be r bound) bound.
Proof.
  intros Hreq. destruct r; cbn [run_recipe groupped_df has_required_argument] in *;
    try reflexivity.
  - unfold task_tracker_classname_scan. now rewrite Hreq.
  - unfold task_tracker_domain_scan. now rewrite Hreq.
  - unfold task_text_search.
    destruct (arg "search_terms" bound) as [| | |[|c s]|[|x l]|[|x o]];
      try discriminate; reflexivity.
  - unfold task_code_scan.
    destruct (arg "search_terms" bound) as [| | |[|c s]|[|x l]|[|x o]];
      try discriminate; reflexivity.
Qed.

(** C7 (as the code has it).  For a recipe invocation that reaches its
    last stage (the required argument is there, the grouped frame [df] is
    built, the limit is an integer): with a limit above 0 that fits a Java
    [int] the result holds the first [limit] rows of [df], [total] is the
    number of records returned and [output_limit] is the requested limit;
    with a limit of 0 or less the result holds all of [df]; with a limit
    of 2^31 or more [df.limit] is refused and the invocation raises
    [Py4JError]. *)
Theorem limit_materialize (be : Backend) (r : Recipe) (bound : list (string * Json))
    (df : list PyRecord) (limit : Z) :
  has_required_argument r bound = true ->
  groupped_df be r bound = Ok df ->
  as_int (arg "limit" bound) = Ok limit ->
  ((0 < limit < 2147483648)%Z ->
   exists recs : list PyRecord,
     run_recipe r be bound
     = Ok {| total := Z.of_nat (length recs); output_limit := limit;
             records := Some recs |}
     /\ recs = take (Z.to_nat limit) df
     /\ (Z.of_nat (length recs) <= limit)%Z
     /\ (Z.of_nat (length recs) <= Z.of_nat (length df))%Z)
  /\ ((limit <= 0)%Z ->
      run_recipe r be bound
      = Ok {| total := Z.of_nat (length df); output_limit := limit;
              records := Some df |})
  /\ ((2147483648 <= limit)%Z -> run_recipe r be bound = Raise Py4JError).
Proof.
  intros Hreq Hdf Hlimit.
  rewrite run_recipe_materializes, Hdf by assumption.
  unfold materialize. cbn [py_bind]. rewrite Hlimit. cbn [py_bind].
  destruct (get_result_obj_spec df limit) as (Hall & Hcap & Hbig).
  split; [| split; assumption].
  intros Hrange. exists (take (Z.to_nat limit) df).
  split; [now apply Hcap |]. split; [reflexivity |]. rewrite length_take. lia.
Qed.

(** A text search that finds three packages, under a limit of two. *)
Lemma limit_materialize_witness :
  run_recipe TextSearch Samples.sample_backend
    [("search_terms", JList [JStr "token"]); ("limit", JNum 2)]
  = Ok {| total := 2; output_limit := 2;
          records := Some [[("app_id", JStr "com.one")]; [("app_id", JStr "com.two")]] |}.
Proof.
  destruct (limit_materialize Samples.sample_backend TextSearch
              [("search_terms", JList [JStr "token"]); ("limit", JNum 2)]
              Samples.three_groups 2 eq_refl eq_refl eq_refl)
    as (Hcap & _).
  destruct (Hcap ltac:(lia)) as (recs & Hrun & -> & _). exact Hrun.
Defined.

(** The same search under no limit. *)
Example limit_zero_keeps_all :
  run_recipe TextSearch Samples.sample_backend
    [("search_terms", JList [JStr "token"]); ("limit", JNum 0)]
  = Ok {| total := 3; output_limit := 0; records := Some Samples.three_groups |}.
Proof. reflexivity. Qed.

(** C7, as the document words it for every limit above 0, fails on a
    limit that does not fit a Java [int]: the same search with a limit of
    2^31 reaches [get_result_obj] and raises there; no result is returned,
    capped or not. *)
Lemma limit_beyond_java_int :
  (2147483648 > 0)%Z
  /\ groupped_df Samples.sample_backend TextSearch
       [("search_terms", JList [JStr "token"]); ("limit", JNum 2147483648)]
     = Ok Samples.three_groups
  /\ run_recipe TextSearch Samples.sample_backend
       [("search_terms", JList [JStr "token"]); ("limit", JNum 2147483648)]
     = Raise Py4JError.
Proof. repeat split. Qed.

End Limit.

(** ** Recipes that fail closed, and the driver *)

Section Recipes.
Import PyStr PyDict Analysis Ops Claimed.

(** C10.  A recipe whose required argument is falsy returns the default
    [APKAnalysisResult]: [total] 0, [output_limit] 0 and no [records]
    object at all, whatever limit the caller asked for.  This holds for the
    method given its bound arguments, and for a call that passes a limit
    only (the required argument then takes its falsy default). *)
Theorem fail_closed_result (be : Backend) (r : Recipe) (p : string) :
  required_argument r = Some p ->
  (forall bound : list (string * Json),
      truthy (arg p bound) = false ->
      run_recipe r be bound = Ok {| total := 0; output_limit := 0; records := None |})
  /\ (forall limit : Z,
      call_task r be [("limit", JNum limit)]
      = Ok {| total := 0; output_limit := 0; records := None |}).
Proof.
  intros Hreq. split.
  - intros bound Hfalsy.
    destruct r; simpl in Hreq; try discriminate; injection Hreq as <-;
      unfold run_recipe, task_tracker_classname_scan, task_tracker_domain_scan,
        task_text_search, task_code_scan;
      now rewrite Hfalsy.
  - intros limit. destruct r; simpl in Hreq; try discriminate; reflexivity.
Qed.

(** A tracker scan with an empty catalog source name, on a backend that
    would fail if it were reached, with a limit of 25. *)
Lemma fail_closed_result_witness :
  run_recipe TrackerDomainScan Samples.failing_backend
    [("tracker_list_name", JStr ""); ("limit", JNum 25)]
  = Ok {| total := 0; output_limit := 0; records := None |}.
Proof.
  apply (fail_closed_result Samples.failing_backend TrackerDomainScan
           "tracker_list_name" eq_refl).
  reflexivity.
Defined.

(** The driver returns the empty mapping when no analysis is configured,
    when the task name is absent or empty, and when it does not start with
    [task_]. *)
Lemma analyse_apks_no_config (new_analysis : APKAnalysisConfig -> PyResult Backend)
    (task_name : option string) (args : list (string * Json)) :
  analyse_apks new_analysis None task_name args = Ok EmptyMapping.
Proof. reflexivity. Qed.

Lemma analyse_apks_absent_name (new_analysis : APKAnalysisConfig -> PyResult Backend)
    (config : option APKAnalysisConfig) (args : list (string * Json)) :
  analyse_apks new_analysis config None args = Ok EmptyMapping
  /\ analyse_apks new_analysis config (Some "") args = Ok EmptyMapping.
Proof. now destruct config. Qed.

Lemma analyse_apks_foreign_name (new_analysis : APKAnalysisConfig -> PyResult Backend)
    (config : option APKAnalysisConfig) (task_name : string)
    (args : list (string * Json)) :
  startswith "task_" task_name = false ->
  analyse_apks new_analysis config (Some task_name) args = Ok EmptyMapping.
Proof.
  intros H. destruct config; [| reflexivity]. simpl. rewrite H.
  now destruct (String.eqb task_name "").
Qed.

(** The guards of the driver, together: each returns the empty mapping, and
    none of them constructs the [APKAnalysis] object. *)
Theorem analyse_apks_guards (new_analysis : APKAnalysisConfig -> PyResult Backend)
    (config : option APKAnalysisConfig) (task_name : option string)
    (args : list (string * Json)) :
  analyse_apks new_analysis None task_name args = Ok EmptyMapping
  /\ analyse_apks new_analysis config None args = Ok EmptyMapping
  /\ analyse_apks new_analysis config (Some "") args = Ok EmptyMapping
  /\ (forall unprefixed : string,
        startswith "task_" unprefixed = false ->
        analyse_apks new_analysis config (Some unprefixed) args = Ok EmptyMapping).
Proof.
  split; [apply analyse_apks_no_config |].
  split; [apply analyse_apks_absent_name |].
  split; [apply analyse_apks_absent_name |].
  intros unprefixed. apply analyse_apks_foreign_name.
Qed.

Lemma analyse_apks_guards_witness :
  analyse_apks (fun _ => Ok Samples.failing_backend)
    (Some {| java_home := "/usr/lib/jvm"; spark_home := "/opt/spark";
             spark_master := "local"; apk_parquet_basepath := "/parquet" |})
    (Some "read_parquets") []
  = Ok EmptyMapping.
Proof.
  destruct (analyse_apks_guards (fun _ => Ok Samples.failing_backend)
              (Some {| java_home := "/usr/lib/jvm"; spark_home := "/opt/spark";
                       spark_master := "local"; apk_parquet_basepath := "/parquet" |})
              None []) as (_ & _ & _ & H).
  apply H. reflexivity.
Defined.

(** A recipe called through the driver without its required argument: the
    default result, as a mapping. *)
Lemma analyse_apks_fail_closed (new_analysis : APKAnalysisConfig -> PyResult Backend)
    (config : APKAnalysisConfig) (be : Backend) (task_name : string) (r : Recipe)
    (p : string) (limit : Z) :
  new_analysis config = Ok be ->
  dict_get task_name task_names = Some r ->
  required_argument r = Some p ->
  analyse_apks new_analysis (Some config) (Some task_name) [("limit", JNum limit)]
  = Ok (ResultMapping {| total := 0; output_limit := 0; records := None |}).
Proof.
  intros Hnew Hname Hreq.
  assert (Hpre : startswith "task_" task_name = true /\ String.eqb task_name "" = false).
  { apply dict_get_In in Hname. unfold task_names in Hname.
    repeat (destruct Hname as [[= <- _] | Hname]; [now split |]).
    destruct Hname. }
  destruct Hpre as [Hpre Hne].
  unfold analyse_apks. rewrite Hne, Hpre. simpl. rewrite Hnew. simpl.
  unfold getattr_task. rewrite Hname. simpl.
  assert (Hcall : call_task r be [("limit", JNum limit)]
                  = Ok {| total := 0; output_limit := 0; records := None |})
    by (destruct r; simpl in Hreq; try discriminate; reflexivity).
  now rewrite Hcall.
Qed.

(** Any other name that starts with [task_] reaches [getattr], which
    raises. *)
Lemma analyse_apks_unknown_attribute
    (new_analysis : APKAnalysisConfig -> PyResult Backend)
    (config : APKAnalysisConfig) (task_name : string) (args : list (string * Json)) :
  startswith "task_" task_name = true ->
  dict_get task_name task_names = None ->
  analyse_apks new_analysis (Some config) (Some task_name) args
  = let* _ := new_analysis config in Raise (AttributeError task_name).
Proof.
  intros Hpre Hname. unfold analyse_apks. rewrite Hpre.
  destruct (String.eqb_spec task_name "") as [-> | _]; [discriminate |].
  simpl. destruct (new_analysis config); simpl; [| reflexivity].
  unfold getattr_task. now rewrite Hname.
Qed.

(** C6.  The driver at the task name [task_unknown], which names no
    recipe: the call raises ([AttributeError] from [getattr], unless the
    constructor has raised before); it does not return the empty mapping. *)
Theorem analyse_apks_unknown_task (new_analysis : APKAnalysisConfig -> PyResult Backend)
    (config : APKAnalysisConfig) (args : list (string * Json)) :
  analyse_apks new_analysis (Some config) (Some "task_unknown") args
  = (let* _ := new_analysis config in Raise (AttributeError "task_unknown"))
  /\ analyse_apks new_analysis (Some config) (Some "task_unknown") args
     <> Ok EmptyMapping.
Proof.
  assert (H : analyse_apks new_analysis (Some config) (Some "task_unknown") args
              = let* _ := new_analysis config in Raise (AttributeError "task_unknown"))
    by (apply analyse_apks_unknown_attribute; reflexivity).
  split; [exact H |]. rewrite H. now destruct (new_analysis config).
Qed.

End Recipes.

(** ** The regular-expression model against the libraries

    What [re.search] returns on a few patterns that exercise the order of
    alternatives, greedy repetition with backtracking, empty iterations,
    groups and anchors, and the patterns [re.compile] rejects. *)

Section RegexConformance.
Import PyStr Regex.

Lemma forward_refl (st : mstate) : forward st st.
Proof. split; reflexivity. Qed.

Lemma forward_trans (a b c : mstate) : forward a b -> forward b c -> forward a c.
Proof. unfold forward. intros [? ?] [? ?]. split; lia. Qed.

Lemma rep_loop_respects (step : mstate -> (mstate -> option mstate) -> option mstate)
    (lo : nat) (hi : option nat) (fuel cnt : nat) :
  respects step -> respects (fun st k => rep_loop step lo hi k fuel cnt st).
Proof.
  intros Hstep. revert cnt. induction fuel as [|fuel IH]; intros cnt st k1 k2 Hk;
    [reflexivity |].
  cbn [rep_loop].
  assert (Hagain : step st (fun st' =>
                      if (pos st' =? pos st)%nat && (lo <=? cnt)%nat then k1 st'
                      else rep_loop step lo hi k1 fuel (S cnt) st')
                   = step st (fun st' =>
                      if (pos st' =? pos st)%nat && (lo <=? cnt)%nat then k2 st'
                      else rep_loop step lo hi k2 fuel (S cnt) st')).
  { apply Hstep. intros st' Hst'.
    destruct ((pos st' =? pos st)%nat && (lo <=? cnt)%nat); [now apply Hk |].
    apply (IH (S cnt) st'). intros st'' Hst''. apply Hk.
    now apply (forward_trans st st' st''). }
  rewrite Hagain, (Hk st (forward_refl st)). reflexivity.
Qed.

Lemma rmatch_respects (fl : flavour) (r : regex) : respects (rmatch fl r).
Proof.
  induction r as [| c | ranges | r1 IH1 r2 IH2 | r1 IH1 r2 IH2 | r IH lo hi
                 | idx r IH | |]; intros st k1 k2 Hk; cbn [rmatch].
  - apply Hk, forward_refl.
  - destruct (rest st) as [|d s'] eqn:E; [reflexivity |].
    destruct (Ascii.eqb c d); [| reflexivity].
    apply Hk. unfold forward. rewrite E. cbn. lia.
  - destruct (rest st) as [|d s'] eqn:E; [reflexivity |].
    destruct (in_ranges d ranges); [| reflexivity].
    apply Hk. unfold forward. rewrite E. cbn. lia.
  - apply IH1. intros st' Hst'. apply IH2. intros st'' Hst''.
    apply Hk. now apply (forward_trans st st' st'').
  - now rewrite (IH1 st k1 k2 Hk), (IH2 st k1 k2 Hk).
  - now apply (rep_loop_respects (rmatch fl r) lo hi _ 0 IH st k1 k2).
  - apply IH. intros st' Hst'. apply Hk.
    destruct Hst' as [? ?]. split; cbn; assumption.
  - destruct (pos st =? 0)%nat; [apply Hk, forward_refl | reflexivity].
  - destruct (at_eol fl (before st) (rest st)); [apply Hk, forward_refl | reflexivity].
Qed.

Lemma rep_loop_fuel (step : mstate -> (mstate -> option mstate) -> option mstate)
    (lo : nat) (hi : option nat) (k : mstate -> option mstate) :
  respects step ->
  forall (fuel1 fuel2 cnt : nat) (st : mstate),
    String.length (rest st) + (lo - cnt) < fuel1 ->
    String.length (rest st) + (lo - cnt) < fuel2 ->
    rep_loop step lo hi k fuel1 cnt st = rep_loop step lo hi k fuel2 cnt st.
Proof.
  intros Hstep. induction fuel1 as [|fuel1 IH]; intros fuel2 cnt st H1 H2; [lia |].
  destruct fuel2 as [|fuel2]; [lia |]. cbn [rep_loop].
  assert (Hagain : step st (fun st' =>
                      if (pos st' =? pos st)%nat && (lo <=? cnt)%nat then k st'
                      else rep_loop step lo hi k fuel1 (S cnt) st')
                   = step st (fun st' =>
                      if (pos st' =? pos st)%nat && (lo <=? cnt)%nat then k st'
                      else rep_loop step lo hi k fuel2 (S cnt) st')).
  { apply Hstep. intros st' [Hpos Hlen].
    destruct (Nat.eqb_spec (pos st') (pos st)) as [Heq | Hne];
      destruct (Nat.leb_spec lo cnt) as [Hlo | Hlo]; cbn [andb];
      try reflexivity; apply IH; lia. }
  now rewrite Hagain.
Qed.

(** The fuel a repetition is given is enough: with more of it the matcher
    does the same. *)
Lemma repetition_fuel_suffices (fl : flavour) (r : regex) (lo : nat) (hi : option nat)
    (k : mstate -> option mstate) (st : mstate) (extra : nat) :
  rep_loop (rmatch fl r) lo hi k (String.length (rest st) + lo + 1 + extra) 0 st
  = rmatch fl (RRep r lo hi) st k.
Proof.
  cbn [rmatch]. apply rep_loop_fuel; [apply rmatch_respects | lia | lia].
Qed.

Example regex_backtracking :
  match_groups PythonRe "(a|ab)(c|bcd)(d*)" "abcd" 3 = Parsed (Some ["abcd"; "a"; "bcd"; ""])
  /\ match_groups PythonRe "a{2,3}" "aaaa" 0 = Parsed (Some ["aaa"])
  /\ match_groups PythonRe "x?y{1,}" "xxyyz" 0 = Parsed (Some ["xyy"])
  /\ match_groups PythonRe "(?:ab)+c" "xababc" 0 = Parsed (Some ["ababc"])
  /\ match_groups PythonRe "[a-c-]+\." "x-ab.c" 0 = Parsed (Some ["-ab."])
  /\ match_groups PythonRe "(a|b)*" "abba1" 1 = Parsed (Some ["abba"; "a"]).
Proof. repeat split; vm_compute; reflexivity. Qed.

Example regex_empty_iterations :
  match_groups PythonRe "(a*)*b" "aab" 1 = Parsed (Some ["aab"; ""])
  /\ match_groups PythonRe "(|b)*c" "bbc" 1 = Parsed (Some ["bbc"; ""])
  /\ match_groups PythonRe "a|" "ba" 0 = Parsed (Some [""])
  /\ match_groups PythonRe "(a){0}b" "ab" 1 = Parsed (Some ["b"; ""]).
Proof. repeat split; vm_compute; reflexivity. Qed.

Example regex_anchors :
  match_groups PythonRe "^b" "ab" 0 = Parsed None
  /\ match_groups PythonRe "b$" (String "a" (String "b" (String LF ""))) 0
     = Parsed (Some ["b"])
  /\ match_groups PythonRe "b$" (String "a" (String "b" (String CR ""))) 0
     = Parsed None
  /\ match_groups JavaRegex "b$" (String "a" (String "b" (String CR ""))) 0
     = Parsed (Some ["b"])
  /\ match_groups PythonRe (String CR "$") (String "a" (String CR (String LF ""))) 0
     = Parsed (Some [String CR ""])
  /\ match_groups JavaRegex (String CR "$") (String "a" (String CR (String LF ""))) 0
     = Parsed None.
Proof. repeat split; vm_compute; reflexivity. Qed.

Example regex_rejected_patterns :
  Forall (fun pattern => compile pattern = Invalid)
    ["*a"; "+"; "(a"; "a)"; "[a"; "a\"; "a{2,1}"; "[b-a]"].
Proof. repeat constructor. Qed.

End RegexConformance.

(** ** Strings *)

Section StringFacts.
Import PyStr.

Lemma prefix_cons (a b : ascii) (p s : string) :
  String.prefix (String a p) (String b s) = Ascii.eqb a b && String.prefix p s.
Proof.
  simpl. destruct (ascii_dec a b) as [-> | Hne].
  - now rewrite Ascii.eqb_refl.
  - apply Ascii.eqb_neq in Hne. now rewrite Hne.
Qed.

Lemma prefix_lower (p s : string) :
  all_caseless p -> String.prefix p (lower s) = String.prefix p s.
Proof.
  revert s. induction p as [|a p IH]; intros s Hp; [now destruct s |].
  destruct Hp as [Ha Hp]. destruct s as [|b s]; [reflexivity |].
  cbn [lower]. rewrite !prefix_cons, Ha, IH by assumption. reflexivity.
Qed.

Lemma contains_lower (p s : string) :
  all_caseless p -> contains p (lower s) = contains p s.
Proof.
  intros Hp. induction s as [|b s IH].
  - reflexivity.
  - cbn [contains lower].
    change (String (lower_char b) (lower s)) with (lower (String b s)).
    rewrite (prefix_lower p (String b s)) by assumption. now rewrite IH.
Qed.

Lemma prefix_empty (s : string) : String.prefix "" s = true.
Proof. now destruct s. Qed.

Lemma prefix_of_empty (p : string) : String.prefix p "" = true -> p = "".
Proof. now destruct p. Qed.

Lemma prefix_trans (a b c : string) :
  String.prefix a b = true -> String.prefix b c = true -> String.prefix a c = true.
Proof.
  revert b c. induction a as [|x a IH]; intros b c Hab Hbc; [apply prefix_empty |].
  destruct b as [|y b]; [discriminate |]. destruct c as [|z c]; [discriminate |].
  rewrite prefix_cons in *.
  apply andb_prop in Hab as [Hxy Hab]. apply andb_prop in Hbc as [Hyz Hbc].
  apply Ascii.eqb_eq in Hxy, Hyz. subst. rewrite Ascii.eqb_refl. simpl.
  now apply (IH b c).
Qed.

Lemma contains_cons (p : string) (c : ascii) (s : string) :
  contains p (String c s) = String.prefix p (String c s) || contains p s.
Proof. reflexivity. Qed.

(** The first segment of a split is a prefix of the string. *)
Lemma split_head_prefix (sep s : string) :
  exists (seg : string) (segs : list string),
    split_from sep 0 s = seg :: segs /\ String.prefix seg s = true.
Proof.
  induction s as [|c s (seg & segs & Hsplit & Hpre)].
  - exists "", []. now split.
  - cbn [split_from]. destruct (String.prefix sep (String c s)).
    + eexists "", _. now split.
    + rewrite Hsplit. exists (String c seg), segs. split; [reflexivity |].
      now rewrite prefix_cons, Ascii.eqb_refl.
Qed.

(** What a line of a text contains, the text contains. *)
Lemma contains_split_line (c0 : ascii) (sub text line : string) :
  In line (split (String c0 "") text) -> contains sub line = true ->
  contains sub text = true.
Proof.
  unfold split. revert line. induction text as [|c text IH]; intros line Hin Hsub.
  - destruct Hin as [<- | []]. exact Hsub.
  - rewrite contains_cons. apply Bool.orb_true_iff.
    cbn [split_from] in Hin.
    destruct (String.prefix (String c0 "") (String c text)).
    + change (String.length (String c0 "") - 1) with 0 in Hin.
      destruct Hin as [<- | Hin]; [| right; now apply (IH line)].
      left. destruct sub; [reflexivity | discriminate].
    + destruct (split_head_prefix (String c0 "") text) as (seg & segs & Hsplit & Hpre).
      rewrite Hsplit in Hin, IH.
      destruct Hin as [<- | Hin]; [| right; apply (IH line); [now right | assumption]].
      rewrite contains_cons in Hsub. apply Bool.orb_true_iff in Hsub as [Hsub | Hsub].
      * left. apply (prefix_trans _ (String c seg)); [assumption |].
        now rewrite prefix_cons, Ascii.eqb_refl.
      * right. apply (IH seg); [now left | assumption].
Qed.

Lemma replace_no_dot_stem (stem : string) :
  contains "." stem = false ->
  replace ".smali" "" (stem ++ ".smali") = stem.
Proof.
  unfold replace. induction stem as [|c stem IH]; intros H; [reflexivity |].
  cbn [contains] in H. apply Bool.orb_false_iff in H as [Hc Hs].
  rewrite prefix_cons in Hc.
  assert (Hdot : Ascii.eqb "." c = false).
  { destruct (Ascii.eqb "." c); [| reflexivity]. now destruct stem. }
  change (replace_from ".smali" "" 0 (String c (stem ++ ".smali")) = String c stem).
  cbn [replace_from]. rewrite prefix_cons, Hdot. simpl. now rewrite IH.
Qed.

End StringFacts.

(** ** Class names *)

Section ClassName.
Import PyStr Analysis.

Lemma insert_last {A : Type} (inner : list A) (x y : A) :
  <[length (inner ++ [x]) - 1 := y]> (inner ++ [x]) = inner ++ [y].
Proof.
  rewrite length_app. simpl.
  replace (length inner + 1 - 1) with (length inner + 0) by lia.
  now rewrite insert_app_r.
Qed.

Lemma last_item_snoc {A : Type} (inner : list A) (x d : A) :
  last_item (inner ++ [x]) d = x.
Proof. unfold last_item. apply List.last_last. Qed.

Lemma class_name_parts (path root : string) (inner : list string) (final : string) :
  List.filter (fun seg => (0 <? String.length seg)%nat) (split "/" path)
    = root :: inner ++ [final] ->
  get_class_full_name path = Some (join "." (inner ++ [replace ".smali" "" final])).
Proof.
  intros Hseg. unfold get_class_full_name. rewrite Hseg.
  change (drop 1 (root :: inner ++ [final])) with (inner ++ [final]).
  rewrite insert_last, last_item_snoc.
  destruct (Nat.leb_spec (length (inner ++ [final])) 0) as [Hlen | _]; [| reflexivity].
  rewrite length_app in Hlen. simpl in Hlen. lia.
Qed.

Lemma class_name_none (path : string) :
  length (List.filter (fun seg => (0 <? String.length seg)%nat) (split "/" path)) <= 1 ->
  get_class_full_name path = None.
Proof.
  intros Hlen. unfold get_class_full_name.
  destruct (List.filter _ (split "/" path)) as [|root [|s rest]]; simpl in *;
    [reflexivity | reflexivity | lia].
Qed.

(** C5 (as the code has it).  With [segments] the non-empty parts of the
    path between separators (every empty part is dropped, wherever it
    stands): the first segment is left out; if nothing follows it the
    result is none; otherwise the other segments are joined with a dot
    after every occurrence of [.smali] has been removed from the last one,
    and from no other.  The two paths of the document's example map to
    [com.example.app.Main] and to none. *)
Theorem class_name_derivation (path : string) :
  (forall (root : string) (inner : list string) (final : string),
      List.filter (fun seg => (0 <? String.length seg)%nat) (split "/" path)
        = root :: inner ++ [final] ->
      get_class_full_name path
        = Some (join "." (inner ++ [replace ".smali" "" final])))
  /\ (length (List.filter (fun seg => (0 <? String.length seg)%nat) (split "/" path)) <= 1 ->
      get_class_full_name path = None)
  /\ get_class_full_name "/smali/com/example/app/Main.smali" = Some "com.example.app.Main"
  /\ get_class_full_name "/smali" = None.
Proof.
  split; [| split; [| split; reflexivity]].
  - intros root inner final. apply class_name_parts.
  - apply class_name_none.
Qed.

(** A path with three segments after the root. *)
Lemma class_name_derivation_witness :
  get_class_full_name "/smali/com/example/app/Main.smali"
  = Some (join "." (["com"; "example"; "app"] ++ [replace ".smali" "" "Main.smali"])).
Proof.
  destruct (class_name_derivation "/smali/com/example/app/Main.smali") as [H _].
  exact (H "smali" ["com"; "example"; "app"] "Main.smali" eq_refl).
Defined.

(** C5, as the document words it, fails on a last segment that holds
    [.smali] elsewhere than at its end: the code removes that occurrence
    too, where stripping a trailing suffix would keep it. *)
Lemma class_name_not_suffix_strip :
  get_class_full_name "/smali/com/example/Foo.smali.smali" = Some "com.example.Foo"
  /\ Claimed.class_name "/smali/com/example/Foo.smali.smali" = Some "com.example.Foo.smali".
Proof. split; reflexivity. Qed.

(** On the two paths of the document's example the wording and the code
    agree. *)
Example class_name_documented_paths :
  Claimed.class_name "/smali/com/example/app/Main.smali"
    = get_class_full_name "/smali/com/example/app/Main.smali"
  /\ Claimed.class_name "/smali" = get_class_full_name "/smali".
Proof. split; reflexivity. Qed.

(** It fails as well on an empty segment that is not a leading one: the
    code drops it, the document's wording keeps it. *)
Example class_name_inner_empty_segment :
  get_class_full_name "/smali//com/A.smali" = Some "com.A"
  /\ Claimed.class_name "/smali//com/A.smali" = Some ".com.A".
Proof. split; reflexivity. Qed.

(** Where the last segment is a dot-free stem followed by [.smali], as the
    file of a class is, removing every occurrence strips the suffix. *)
Lemma class_name_of_class_file (path root : string) (inner : list string) (stem : string) :
  List.filter (fun seg => (0 <? String.length seg)%nat) (split "/" path)
    = root :: inner ++ [(stem ++ ".smali")%string] ->
  contains "." stem = false ->
  get_class_full_name path = Some (join "." (inner ++ [stem])).
Proof.
  intros Hseg Hstem. rewrite (class_name_parts _ _ _ _ Hseg).
  now rewrite replace_no_dot_stem.
Qed.

Lemma class_name_of_class_file_witness :
  get_class_full_name "/smali_classes2/okhttp3/internal/Util$1.smali"
  = Some "okhttp3.internal.Util$1".
Proof.
  apply (class_name_of_class_file "/smali_classes2/okhttp3/internal/Util$1.smali"
           "smali_classes2" ["okhttp3"; "internal"] "Util$1"); reflexivity.
Defined.

End ClassName.

(** ** The criterion matcher *)

Section Matcher.
Import PyStr Analysis Claimed.

Variable re_search : string -> string -> PyResult bool.

Lemma criterion_is_regex_existsb (signs : list string) (criterion : string) :
  criterion_is_regex signs criterion
  = existsb (fun sign => contains sign criterion) signs.
Proof.
  induction signs as [|sign signs IH]; simpl; [reflexivity |].
  destruct (contains sign criterion); [reflexivity | exact IH].
Qed.

Lemma regex_signs_caseless : Forall all_caseless regex_signs.
Proof.
  unfold regex_signs.
  repeat (apply Forall_cons; split; [| try apply Forall_nil]);
    repeat split; intros [[] [] [] [] [] [] [] []]; reflexivity.
Qed.

(** Folding the case of a criterion does not move it between the literal
    and the regex mode. *)
Lemma regex_mode_lower (criterion : string) :
  criterion_is_regex regex_signs (lower criterion) = regex_mode criterion.
Proof.
  rewrite criterion_is_regex_existsb. unfold regex_mode.
  pose proof regex_signs_caseless as H.
  induction H as [|sign signs Hsign _ IH]; simpl; [reflexivity |].
  now rewrite contains_lower, IH.
Qed.

(** One turn of the loop is the document's test of one criterion. *)
Lemma identify_loop_step (target criterion : string) (criteria : list string) :
  identify_loop re_search target (criterion :: criteria) true
  = let* hit := criterion_test re_search target criterion in
    if hit then Ok (Some criterion)
    else identify_loop re_search target criteria true.
Proof.
  cbn [identify_loop]. rewrite regex_mode_lower. unfold criterion_test.
  destruct (regex_mode criterion); [reflexivity |]. simpl.
  now destruct (contains (lower criterion) target).
Qed.

Lemma identify_loop_first (target : string) (pre post : list string) (c : string) :
  Forall (fun c' => criterion_test re_search target c' = Ok false) pre ->
  identify_loop re_search target (pre ++ c :: post) true
  = let* hit := criterion_test re_search target c in
    if hit then Ok (Some c) else identify_loop re_search target post true.
Proof.
  induction 1 as [|c' pre Hc' _ IH]; [apply identify_loop_step |].
  change ((c' :: pre) ++ c :: post) with (c' :: (pre ++ c :: post)).
  rewrite identify_loop_step, Hc'. exact IH.
Qed.


Lemma identify_loop_some (target : string) (criteria : list string) (c : string) :
  identify_loop re_search target criteria true = Ok (Some c)
  <-> exists pre post : list string,
        criteria = pre ++ c :: post
        /\ Forall (fun c' => criterion_test re_search target c' = Ok false) pre
        /\ criterion_test re_search target c = Ok true.
Proof.
  split.
  - induction criteria as [|c0 criteria IH]; [discriminate |].
    rewrite identify_loop_step.
    destruct (criterion_test re_search target c0) as [[|]|e] eqn:E; simpl;
      [| | discriminate].
    + intros [= <-]. exists [], criteria. repeat split; [constructor | assumption].
    + intros H. destruct (IH H) as (pre & post & -> & Hpre & Hc).
      exists (c0 :: pre), post. repeat split; [constructor | ]; assumption.
  - intros (pre & post & -> & Hpre & Hc).
    rewrite identify_loop_first by assumption. now rewrite Hc.
Qed.


(** The document's tie-break: a non-matching criterion, then a regex-mode
    criterion that matches, then a literal that matches as well. *)
Lemma identify_tie_break (target c1 c2 c3 : string) :
  criterion_test re_search (lower target) c1 = Ok false ->
  regex_mode c2 = true ->
  re_search (replace "." "\." (lower c2)) (lower target) = Ok true ->
  regex_mode c3 = false ->
  contains (lower c3) (lower target) = true ->
  identify_matching_criterion re_search target [c1; c2; c3] true = Ok (Some c2).
Proof.
  intros H1 Hmode2 H2 _ _. unfold identify_matching_criterion.
  apply identify_loop_some. exists [c1], [c3].
  repeat split; [constructor; [assumption | constructor] |].
  unfold criterion_test. now rewrite Hmode2.
Qed.


End Matcher.

Section MatcherExamples.
Import PyStr Analysis Claimed.


Lemma identify_tie_break_witness :
  identify_matching_criterion Regex.py_re_search "metrics.ADS.example.com"
    ["tracker.example.net"; "ads.example.com$"; "example"] true
  = Ok (Some "ads.example.com$").
Proof.
  apply identify_tie_break; reflexivity.
Defined.

(** Dots are escaped before the search: [ads.example] does not match
    [adsXexample]; the equals sign only switches the mode. *)
Example identify_escapes_dots :
  identify_matching_criterion Regex.py_re_search "host=adsXexample"
    ["host=ads.example"] true = Ok None
  /\ identify_matching_criterion Regex.py_re_search "host=ads.example"
    ["host=ads.example"] true = Ok (Some "host=ads.example").
Proof. split; reflexivity. Qed.


End MatcherExamples.

(** ** Classifying one extracted file *)

Section Classifier.
Import PyStr Models Converter.

Variable sha256_hex : list byte -> string.
Variable decode : list byte -> option string.

Lemma read_apk_content_file_cases (filename apk_path : string) (raw : list byte) :
  apk_path <> "" ->
  exists rec : ApkContentFileInfo,
    read_apk_content_file sha256_hex decode filename apk_path raw = Ok rec
    /\ file_sha256 rec = sha256_hex raw
    /\ ((exists s : string,
            str_in (lower (extension rec)) ext_store_as_text = true
            /\ decode raw = Some s
            /\ content_mode rec = "text"
            /\ content_text rec = Some (universal_newlines s)
            /\ content_blob rec = None)
        \/ ((str_in (lower (extension rec)) ext_store_as_text = false
             \/ decode raw = None)
            /\ content_mode rec = "blob"
            /\ content_text rec = None
            /\ content_blob rec = Some raw)).
Proof.
  intros Hne. unfold read_apk_content_file.
  destruct (String.eqb_spec apk_path "") as [-> | _]; [contradiction |].
  destruct (str_in _ ext_store_as_text) eqn:Hext.
  - unfold read_text. destruct (decode raw) as [s|] eqn:Hdec.
    + eexists. split; [reflexivity |]. split; [reflexivity |].
      left. exists s. cbn [extension content_mode content_text content_blob].
      auto.
    + eexists. split; [reflexivity |]. split; [reflexivity |].
      right. cbn [extension content_mode content_text content_blob]. auto.
  - eexists. split; [reflexivity |]. split; [reflexivity |].
    right. cbn [extension content_mode content_text content_blob]. auto.
Qed.

(** C4 (as the code has it).  Reading a file never fails on its content.
    The record is in text mode exactly when the extension, lower-cased, is
    on the allow-list and the bytes decode; the text is then the decoded
    content as text mode delivers it, that is with CR LF and CR read as LF,
    and there is no blob.  In every other case the record is in blob mode
    and holds the raw bytes unchanged, and no text. *)
Theorem classification (filename apk_path : string) (raw : list byte) :
  apk_path <> "" ->
  exists rec : ApkContentFileInfo,
    read_apk_content_file sha256_hex decode filename apk_path raw = Ok rec
    /\ (content_mode rec = "text"
        <-> str_in (lower (extension rec)) ext_store_as_text = true
            /\ is_Some (decode raw))
    /\ (forall s : string,
          str_in (lower (extension rec)) ext_store_as_text = true ->
          decode raw = Some s ->
          content_mode rec = "text"
          /\ content_text rec = Some (universal_newlines s)
          /\ content_blob rec = None)
    /\ (content_mode rec <> "text" ->
        content_mode rec = "blob"
        /\ content_text rec = None
        /\ content_blob rec = Some raw).
Proof.
  intros Hne.
  destruct (read_apk_content_file_cases filename apk_path raw Hne)
    as (rec & Hrec & _ & [(s & Hext & Hdec & Hmode & Htext & Hblob)
                        | (Hwhy & Hmode & Htext & Hblob)]);
    exists rec; (split; [exact Hrec |]).
  - split; [| split].
    + split; [intros _; split; [assumption | now rewrite Hdec] | intros _; assumption].
    + intros s' _ Hdec'. rewrite Hdec in Hdec'. injection Hdec' as <-. auto.
    + intros Hno. contradiction.
  - split; [| split].
    + split.
      * rewrite Hmode. discriminate.
      * intros [Hext [s Hdec]].
        destruct Hwhy as [Hno | Hno]; [rewrite Hext in Hno | rewrite Hdec in Hno];
          discriminate.
    + intros s Hext Hdec.
      destruct Hwhy as [Hno | Hno]; [rewrite Hext in Hno | rewrite Hdec in Hno];
        discriminate.
    + intros _. auto.
Qed.

Lemma universal_newlines_no_cr (s : string) :
  contains (String CR "") s = false -> universal_newlines s = s.
Proof.
  induction s as [|c s IH]; [reflexivity |]. intros H.
  cbn [contains] in H. apply Bool.orb_false_iff in H as [Hc Hs].
  rewrite prefix_cons in Hc. cbn [universal_newlines].
  rewrite (Ascii.eqb_sym c CR).
  destruct (Ascii.eqb CR c); [now destruct s |]. now rewrite IH.
Qed.

(** A text without carriage return is stored as it was decoded. *)
Theorem text_without_cr_exact (filename apk_path : string) (raw : list byte)
    (rec : ApkContentFileInfo) (s : string) :
  read_apk_content_file sha256_hex decode filename apk_path raw = Ok rec ->
  content_mode rec = "text" ->
  decode raw = Some s ->
  contains (String CR "") s = false ->
  content_text rec = Some s /\ content_blob rec = None.
Proof.
  intros Hrec Hmode Hdec Hcr.
  assert (Hne : apk_path <> "").
  { intros ->. discriminate. }
  destruct (read_apk_content_file_cases filename apk_path raw Hne)
    as (rec' & Hrec' & _ & [(s' & _ & Hdec' & _ & Htext & Hblob)
                          | (_ & Hblobmode & _)]);
    rewrite Hrec in Hrec'; injection Hrec' as <-.
  - rewrite Hdec in Hdec'. injection Hdec' as <-.
    now rewrite Htext, universal_newlines_no_cr.
  - rewrite Hmode in Hblobmode. discriminate.
Qed.

End Classifier.

Section ClassifierExamples.
Import PyStr Models Converter.

Lemma text_without_cr_exact_witness :
  content_text
    {| relative_path := "/assets/config.json"; filename := "config.json";
       extension := "json"; content_text := Some (String "{" (String LF "}"));
       content_blob := None; content_mode := "text"; file_sha256 := "" |}
  = Some (String "{" (String LF "}")).
Proof.
  apply (text_without_cr_exact (fun _ => "") utf8_decode "/apk/assets/config.json" "/apk"
           (list_byte_of_string (String "{" (String LF "}"))) _ _
           eq_refl eq_refl eq_refl eq_refl).
Defined.

(** A text file under a UTF-8 locale, and a file with the same name whose
    bytes are no UTF-8. *)
Lemma classification_witness :
  "/apk" <> ""
  /\ exists rec : ApkContentFileInfo,
       read_apk_content_file (fun _ => "") utf8_decode "/apk/res/notes.TXT" "/apk"
         (list_byte_of_string "hello") = Ok rec
       /\ content_mode rec = "text"
       /\ content_text rec = Some "hello"
       /\ content_blob rec = None.
Proof.
  split; [discriminate |].
  destruct (classification (fun _ => "") utf8_decode "/apk/res/notes.TXT" "/apk"
              (list_byte_of_string "hello") ltac:(discriminate))
    as (rec & Hrec & _ & Htext & _).
  exists rec. split; [exact Hrec |].
  apply (Htext "hello"); [| reflexivity].
  vm_compute in Hrec. injection Hrec as <-. reflexivity.
Defined.

Example classification_undecodable :
  read_apk_content_file (fun _ => "") utf8_decode "/apk/AndroidManifest.xml" "/apk"
    [x03; x00; x08; xff]%byte
  = Ok {| relative_path := "/AndroidManifest.xml"; filename := "AndroidManifest.xml";
          extension := "xml"; content_text := None;
          content_blob := Some [x03; x00; x08; xff]%byte;
          content_mode := "blob"; file_sha256 := "" |}.
Proof. reflexivity. Qed.

(** C4, as the document words it, fails on a text file with a carriage
    return: the bytes decode to [a CR LF b], the record holds [a LF b]. *)
Lemma classification_text_not_exact :
  utf8_decode (list_byte_of_string (String "a" (String CR (String LF "b"))))
    = Some (String "a" (String CR (String LF "b")))
  /\ read_apk_content_file (fun _ => "") utf8_decode "/apk/res/notes.txt" "/apk"
       (list_byte_of_string (String "a" (String CR (String LF "b"))))
     = Ok {| relative_path := "/res/notes.txt"; filename := "notes.txt";
             extension := "txt"; content_text := Some (String "a" (String LF "b"));
             content_blob := None; content_mode := "text"; file_sha256 := "" |}
  /\ String "a" (String LF "b") <> String "a" (String CR (String LF "b")).
Proof. repeat split. discriminate. Qed.

End ClassifierExamples.

(** ** The content store *)

Section StoreFacts.
Import PyStr PyDict Models Converter.

Local Abbreviation all_fields := (ApkBasicInfo_fields ++ ApkContentFileInfo_fields).

(** What the write at the end of [write_as_parquet] comes to, [old] being
    what the dataset directory holds. *)
Local Abbreviation written info files base old store :=
  (match files%list with
   | nil => (Raise (KeyError "content_mode"), <[app_id info := old%list]> store)
   | _ => (Ok (path_join base (app_id info)),
           <[app_id info := old ++ [map (store_row info) files]]> store)
   end : PyResult string * Store).

Lemma store_row_keys (info : ApkBasicInfo) (cf : ApkContentFileInfo) :
  dict_keys (store_row info cf) = all_fields.
Proof. reflexivity. Qed.

Lemma store_row_fingerprint (info : ApkBasicInfo) (cf : ApkContentFileInfo) :
  row_fingerprint (store_row info cf) = Some (CStr (apk_sha256 info)).
Proof. reflexivity. Qed.

Lemma dataframe_columns_rows (info : ApkBasicInfo) (files : list ApkContentFileInfo) :
  dataframe_columns (map (store_row info) files)
  = match files with [] => [] | _ => all_fields end.
Proof.
  unfold dataframe_columns. destruct files as [|cf files]; [reflexivity |].
  cbn [map fold_left]. rewrite store_row_keys.
  change (add_missing [] all_fields) with all_fields.
  induction files as [|cf' files IH]; [reflexivity |].
  cbn [map fold_left]. rewrite store_row_keys.
  change (add_missing all_fields all_fields) with all_fields. exact IH.
Qed.

Lemma store_row_fits (info : ApkBasicInfo) (cf : ApkContentFileInfo) :
  forallb (fun kv => cell_fits (snd kv)) (store_row info cf)
  = fits_int_column (version_code info).
Proof.
  unfold store_row, basicinfo_dict, contentfile_dict.
  destruct (content_text cf), (content_blob cf); cbn;
    now rewrite Bool.andb_true_r.
Qed.

Lemma store_rows_fit (info : ApkBasicInfo) (files : list ApkContentFileInfo) :
  files <> [] ->
  forallb (fun d => forallb (fun kv => cell_fits (snd kv)) d) (map (store_row info) files)
  = fits_int_column (version_code info).
Proof.
  intros Hne. induction files as [|cf files IH]; [contradiction |].
  cbn [map forallb]. rewrite store_row_fits.
  destruct files as [|cf' files]; [apply Bool.andb_true_r |].
  rewrite IH by discriminate. apply Bool.andb_diag.
Qed.

(** The table of a batch: no column at all when the batch is empty, the
    columns of the two record types otherwise; the conversion fails when
    the version code fits no integer column. *)
Lemma table_from_dicts_batch (info : ApkBasicInfo) (files : list ApkContentFileInfo) :
  table_from_dicts (map (store_row info) files)
  = match files with
    | [] => Ok {| column_names := []; rows := [] |}
    | _ =>
        if fits_int_column (version_code info)
        then Ok {| column_names := all_fields; rows := map (store_row info) files |}
        else Raise OverflowError
    end.
Proof.
  unfold table_from_dicts. rewrite dataframe_columns_rows.
  destruct files as [|cf files]; [reflexivity |].
  now rewrite store_rows_fit by discriminate.
Qed.

(** An application id outside the model, and a version code that fits no
    column: nothing is read and nothing is written. *)
Lemma write_as_parquet_not_plain (read_table : Dataset -> PyResult Table)
    (info : ApkBasicInfo) (files : list ApkContentFileInfo) (base : string)
    (append : bool) (store : Store) :
  plain_name (app_id info) = false ->
  write_as_parquet read_table info files base append store = (Raise NotModelled, store).
Proof. intros Hname. unfold write_as_parquet. now rewrite Hname. Qed.

Lemma write_as_parquet_overflow (read_table : Dataset -> PyResult Table)
    (info : ApkBasicInfo) (files : list ApkContentFileInfo) (base : string)
    (append : bool) (store : Store) :
  plain_name (app_id info) = true ->
  files <> [] ->
  fits_int_column (version_code info) = false ->
  write_as_parquet read_table info files base append store = (Raise OverflowError, store).
Proof.
  intros Hname Hne Hfits. unfold write_as_parquet. rewrite Hname. cbn [negb].
  rewrite table_from_dicts_batch, Hfits. now destruct files.
Qed.

(** What a write does otherwise, case by case. *)
Lemma write_as_parquet_cases (read_table : Dataset -> PyResult Table)
    (info : ApkBasicInfo) (files : list ApkContentFileInfo) (base : string)
    (append : bool) (store : Store) :
  plain_name (app_id info) = true ->
  (files <> [] -> fits_int_column (version_code info) = true) ->
  write_as_parquet read_table info files base append store
  = if append then
      match store !! app_id info with
      | Some existing =>
          match read_table existing with
          | Raise e => (Raise e, store)
          | Ok t =>
              if negb (validate_apk_content_table t) then (Raise SchemaError, store)
              else match apk_sha256_exists t (apk_sha256 info) with
                   | Raise e => (Raise e, store)
                   | Ok true => (Raise DuplicatePackageError, store)
                   | Ok false => written info files base existing store
                   end
          end
      | None => written info files base [] store
      end
    else written info files base [] (delete (app_id info) store).
Proof.
  intros Hname Hfits. unfold write_as_parquet. rewrite Hname. cbn [negb].
  rewrite table_from_dicts_batch.
  destruct files as [|cf files].
  - unfold write_to_dataset. cbn [column_names rows str_in existsb map].
    destruct append; [| now rewrite lookup_delete_eq].
    destruct (store !! app_id info) as [existing|]; [| reflexivity].
    destruct (read_table existing) as [t|e]; [| reflexivity].
    destruct (negb _); [reflexivity |].
    now destruct (apk_sha256_exists _ _) as [[|]|].
  - rewrite Hfits by discriminate. unfold write_to_dataset.
    cbn [column_names rows].
    change (str_in "content_mode" all_fields) with true. cbv iota.
    destruct append; [| now rewrite lookup_delete_eq].
    destruct (store !! app_id info) as [existing|]; [| reflexivity].
    destruct (read_table existing) as [t|e]; [| reflexivity].
    destruct (negb _); [reflexivity |].
    now destruct (apk_sha256_exists _ _) as [[|]|].
Qed.

Lemma cell_eqb_str (c : Cell) (x : string) : cell_eqb c (CStr x) = true <-> c = CStr x.
Proof.
  destruct c; simpl; try (split; discriminate).
  rewrite String.eqb_eq. split; [now intros -> | now intros [= ->]].
Qed.

Lemma row_has_sha256_spec (x : string) (r : Row) :
  row_has_sha256 x r = true <-> row_fingerprint r = Some (CStr x).
Proof.
  unfold row_has_sha256, row_fingerprint. destruct (dict_get "apk_sha256" r) as [c|].
  - rewrite cell_eqb_str. split; [now intros -> | now intros [= ->]].
  - split; discriminate.
Qed.

(** Validation is the presence of every field of the two record types. *)
Lemma validate_spec (t : Table) :
  validate_apk_content_table t = true
  <-> forall field : string, In field all_fields -> In field (column_names t).
Proof.
  unfold validate_apk_content_table.
  rewrite Bool.andb_true_iff, !forallb_forall. split.
  - intros [Hbasic Hfile] field Hin. apply str_in_In.
    apply in_app_or in Hin as [Hin | Hin]; auto.
  - intros Hall. split; intros field Hin; apply str_in_In, Hall, in_or_app; auto.
Qed.

Lemma validate_has_sha256 (t : Table) :
  validate_apk_content_table t = true -> str_in "apk_sha256" (column_names t) = true.
Proof.
  intros Hvalid. apply str_in_In. apply (proj1 (validate_spec t) Hvalid).
  cbn. tauto.
Qed.

(** The scan finds a fingerprint exactly when a row of the table carries it. *)
Lemma apk_sha256_exists_spec (t : Table) (x : string) :
  validate_apk_content_table t = true ->
  exists b : bool,
    apk_sha256_exists t x = Ok b
    /\ (b = true <-> exists r, In r (rows t) /\ row_fingerprint r = Some (CStr x)).
Proof.
  intros Hvalid. unfold apk_sha256_exists.
  rewrite (validate_has_sha256 _ Hvalid). eexists. split; [reflexivity |].
  destruct (List.filter (row_has_sha256 x) (rows t)) as [|r l] eqn:E.
  - split; [discriminate |]. intros (r & Hin & Hfp).
    assert (Hr : In r (List.filter (row_has_sha256 x) (rows t))).
    { apply filter_In. split; [assumption | now apply row_has_sha256_spec]. }
    rewrite E in Hr. destruct Hr.
  - split; [| reflexivity]. intros _.
    assert (Hr : In r (List.filter (row_has_sha256 x) (rows t))).
    { rewrite E. now left. }
    apply filter_In in Hr as [Hin Hfp]. exists r. split; [assumption |].
    now apply row_has_sha256_spec.
Qed.

(** Reading a dataset of converter batches back with a faithful reader:
    the table validates, and the scan answers whether the fingerprint is
    committed. *)
Lemma scan_spec (read_table : Dataset -> PyResult Table) (ds : Dataset) (t : Table)
    (x : string) :
  faithful read_table -> read_table ds = Ok t ->
  ds <> [] -> converter_dataset ds ->
  validate_apk_content_table t = true
  /\ exists b : bool,
       apk_sha256_exists t x = Ok b /\ (b = true <-> committed x ds).
Proof.
  intros Hfaithful Hread Hne Hds.
  destruct (Hfaithful ds t Hread) as [_ Hlists].
  destruct (Hlists Hne Hds) as [Hnames Hrows].
  assert (Hvalid : validate_apk_content_table t = true).
  { apply validate_spec. intros field Hin. now apply Hnames. }
  split; [exact Hvalid |].
  destruct (apk_sha256_exists_spec t x Hvalid) as (b & Hscan & Hb).
  exists b. split; [exact Hscan |]. rewrite Hb. apply Hrows.
Qed.

(** A directory without files never validates. *)
Lemma empty_directory_invalid (read_table : Dataset -> PyResult Table) (t : Table) :
  faithful read_table -> read_table [] = Ok t ->
  validate_apk_content_table t = false.
Proof.
  intros Hfaithful Hread. destruct (Hfaithful [] t Hread) as [Hnames _].
  unfold validate_apk_content_table. now rewrite Hnames.
Qed.

Lemma committed_batch (x : string) (ds : Dataset) (i : nat)
    (batch : list Row) (r : Row) :
  ds !! i = Some batch -> In r batch ->
  row_fingerprint r = Some (CStr x) -> committed x ds.
Proof.
  intros Hi Hin Hfp. exists r. split; [| assumption].
  apply in_concat. exists batch. split; [| assumption].
  apply list_elem_of_In. eapply list_elem_of_lookup_2. eassumption.
Qed.

Lemma committed_nonempty (x : string) (ds : Dataset) : committed x ds -> ds <> [].
Proof. intros (r & Hin & _) ->. destruct Hin. Qed.

Lemma appended_dataset_ok (info : ApkBasicInfo) (files : list ApkContentFileInfo)
    (old : Dataset) :
  files <> [] ->
  Forall (fun cf => well_formed cf = true) files ->
  fits_int_column (version_code info) = true ->
  converter_dataset old -> fingerprint_at_most_once old ->
  ~ committed (apk_sha256 info) old ->
  converter_dataset (old ++ [map (store_row info) files])
  /\ fingerprint_at_most_once (old ++ [map (store_row info) files]).
Proof.
  intros Hne Hwf Hfits Hold Honce Hfresh. split.
  - apply Forall_app. split; [exact Hold |].
    constructor; [| constructor]. exists info, files. auto.
  - assert (Hnew : forall r, In r (map (store_row info) files) ->
                             row_fingerprint r = Some (CStr (apk_sha256 info))).
    { intros r Hin. apply in_map_iff in Hin as (cf & <- & _).
      apply store_row_fingerprint. }
    intros i j bi bj ri rj Hi Hj Hri Hrj Hfp.
    apply lookup_app_Some in Hi as [Hi' | [Hilen Hi']];
      apply lookup_app_Some in Hj as [Hj' | [Hjlen Hj']].
    + exact (Honce i j bi bj ri rj Hi' Hj' Hri Hrj Hfp).
    + exfalso. apply Hfresh.
      apply list_lookup_singleton_Some in Hj' as [_ <-].
      apply (committed_batch _ old i bi ri Hi' Hri).
      rewrite Hfp. now apply Hnew.
    + exfalso. apply Hfresh.
      apply list_lookup_singleton_Some in Hi' as [_ <-].
      apply (committed_batch _ old j bj rj Hj' Hrj).
      rewrite <- Hfp. now apply Hnew.
    + apply list_lookup_singleton_Some in Hi' as [Hi0 _].
      apply list_lookup_singleton_Some in Hj' as [Hj0 _]. lia.
Qed.

Lemma empty_dataset_ok : converter_dataset [] /\ fingerprint_at_most_once [].
Proof.
  split; [constructor |]. intros i j bi bj ri rj Hi. discriminate.
Qed.

Lemma store_ok_insert (store : Store) (name : string) (ds : Dataset) :
  store_ok store -> converter_dataset ds /\ fingerprint_at_most_once ds ->
  store_ok (<[name := ds]> store).
Proof.
  intros Hstore Hds name' ds' Hlookup.
  apply lookup_insert_Some in Hlookup as [[_ <-] | [_ Hlookup]]; [assumption |].
  exact (Hstore _ _ Hlookup).
Qed.

Lemma store_ok_delete (store : Store) (name : string) :
  store_ok store -> store_ok (delete name store).
Proof.
  intros Hstore name' ds' Hlookup.
  apply lookup_delete_Some in Hlookup as [_ Hlookup]. exact (Hstore _ _ Hlookup).
Qed.

Lemma written_store_ok (info : ApkBasicInfo) (files : list ApkContentFileInfo)
    (base : string) (old : Dataset) (store : Store) :
  Forall (fun cf => well_formed cf = true) files ->
  (files <> [] -> fits_int_column (version_code info) = true) ->
  store_ok store ->
  converter_dataset old /\ fingerprint_at_most_once old ->
  ~ committed (apk_sha256 info) old ->
  store_ok (snd (written info files base old store)).
Proof.
  intros Hwf Hfits Hstore [Hconv Honce] Hnot.
  destruct files as [|cf files]; cbn [snd].
  - apply store_ok_insert; [exact Hstore | now split].
  - apply store_ok_insert; [exact Hstore |].
    apply appended_dataset_ok; try assumption; [discriminate | apply Hfits; discriminate].
Qed.

Lemma nothing_committed (x : string) : ~ committed x [].
Proof. intros (r & Hin & _). destruct Hin. Qed.

Lemma write_as_parquet_preserves (read_table : Dataset -> PyResult Table)
    (info : ApkBasicInfo) (files : list ApkContentFileInfo)
    (base : string) (append : bool) (store : Store) :
  faithful read_table ->
  Forall (fun cf => well_formed cf = true) files ->
  store_ok store ->
  store_ok (snd (write_as_parquet read_table info files base append store)).
Proof.
  intros Hfaithful Hwf Hstore.
  destruct (plain_name (app_id info)) eqn:Hname;
    [| now rewrite write_as_parquet_not_plain].
  assert (Hcases : files <> [] /\ fits_int_column (version_code info) = false
                   \/ (files <> [] -> fits_int_column (version_code info) = true)).
  { destruct (fits_int_column (version_code info)); [now right |].
    destruct files; [right; contradiction | left; split; [discriminate | reflexivity]]. }
  destruct Hcases as [[Hne Hfits] | Hfits];
    [now rewrite write_as_parquet_overflow |].
  rewrite write_as_parquet_cases by assumption. destruct append.
  - destruct (store !! app_id info) as [existing|] eqn:Hlookup.
    + destruct (read_table existing) as [t|e] eqn:Hread; [| exact Hstore].
      destruct existing as [|batch existing'].
      { now rewrite (empty_directory_invalid read_table t Hfaithful Hread). }
      destruct (Hstore _ _ Hlookup) as [Hconv Honce].
      destruct (scan_spec read_table _ t (apk_sha256 info) Hfaithful Hread
                          ltac:(discriminate) Hconv)
        as (-> & b & -> & Hb).
      cbn [negb]. destruct b; [exact Hstore |].
      apply written_store_ok; auto.
      intros Hc. apply Hb in Hc. discriminate.
    + apply written_store_ok; auto using empty_dataset_ok, nothing_committed.
  - apply written_store_ok; auto using empty_dataset_ok, nothing_committed.
    now apply store_ok_delete.
Qed.

Lemma reachable_store_ok (base : string) (store : Store) :
  reachable base store -> store_ok store.
Proof.
  induction 1 as [|read_table store info files append Hfaithful Hwf _ IH].
  - intros name ds Hlookup. rewrite lookup_empty in Hlookup. discriminate.
  - now apply write_as_parquet_preserves.
Qed.

(** An Append of a committed fingerprint is refused, with the duplicate
    error when the dataset is read back. *)
Lemma duplicate_append_refused (read_table : Dataset -> PyResult Table)
    (base : string) (store : Store) (info : ApkBasicInfo)
    (files : list ApkContentFileInfo) (ds : Dataset) :
  reachable base store -> faithful read_table ->
  plain_name (app_id info) = true ->
  store !! app_id info = Some ds ->
  committed (apk_sha256 info) ds ->
  (exists e : PyError,
      write_as_parquet read_table info files base true store = (Raise e, store))
  /\ (forall t : Table,
        fits_int_column (version_code info) = true ->
        read_table ds = Ok t ->
        write_as_parquet read_table info files base true store
        = (Raise DuplicatePackageError, store)).
Proof.
  intros Hreach Hfaithful Hname Hlookup Hcommitted.
  destruct (reachable_store_ok base store Hreach _ _ Hlookup) as [Hconv _].
  pose proof (committed_nonempty _ _ Hcommitted) as Hne.
  assert (Hread : forall t : Table,
             (files <> [] -> fits_int_column (version_code info) = true) ->
             read_table ds = Ok t ->
             write_as_parquet read_table info files base true store
             = (Raise DuplicatePackageError, store)).
  { intros t Hfits Hread.
    rewrite write_as_parquet_cases, Hlookup, Hread by assumption.
    destruct (scan_spec read_table ds t (apk_sha256 info) Hfaithful Hread Hne Hconv)
      as (-> & b & -> & Hb).
    apply Hb in Hcommitted. now subst b. }
  split; [| intros t Hfits; now apply Hread].
  destruct files as [|cf files].
  - destruct (read_table ds) as [t|e] eqn:E.
    + eexists. now apply (Hread t).
    + rewrite write_as_parquet_cases, Hlookup, E by (assumption || contradiction).
      now eexists.
  - destruct (fits_int_column (version_code info)) eqn:Hfits.
    + destruct (read_table ds) as [t|e] eqn:E.
      * eexists. now apply (Hread t).
      * rewrite write_as_parquet_cases, Hlookup, E by auto. now eexists.
    + rewrite write_as_parquet_overflow by (assumption || discriminate). now eexists.
Qed.

(** A successful Append commits the fingerprint of its descriptor. *)
Lemma append_commits (read_table : Dataset -> PyResult Table)
    (store store' : Store) (info : ApkBasicInfo)
    (files : list ApkContentFileInfo) (base p : string) :
  write_as_parquet read_table info files base true store = (Ok p, store') ->
  plain_name (app_id info) = true
  /\ exists ds : Dataset,
       store' !! app_id info = Some ds /\ committed (apk_sha256 info) ds.
Proof.
  intros H.
  destruct (plain_name (app_id info)) eqn:Hname;
    [| rewrite write_as_parquet_not_plain in H by assumption; discriminate].
  split; [reflexivity |].
  destruct files as [|cf files].
  - rewrite write_as_parquet_cases in H by (assumption || contradiction).
    destruct (store !! app_id info) as [existing|]; [| discriminate].
    destruct (read_table existing) as [t|e]; [| discriminate].
    destruct (negb _); [discriminate |].
    destruct (apk_sha256_exists _ _) as [[|]|]; discriminate.
  - destruct (fits_int_column (version_code info)) eqn:Hfits;
      [| rewrite write_as_parquet_overflow in H by (assumption || discriminate);
         discriminate].
    rewrite write_as_parquet_cases in H by auto.
    assert (Hwritten : exists old : Dataset,
               written info (cf :: files) base old store = (Ok p, store')).
    { destruct (store !! app_id info) as [existing|]; [| now exists []].
      destruct (read_table existing) as [t|e]; [| discriminate].
      destruct (negb _); [discriminate |].
      destruct (apk_sha256_exists _ _) as [[|]|]; try discriminate.
      now exists existing. }
    destruct Hwritten as (old & Hwritten).
    injection Hwritten as _ <-. eexists. split; [apply lookup_insert_eq |].
    exists (store_row info cf). split; [| reflexivity].
    rewrite concat_app. apply in_or_app. right. now left.
Qed.


(** The reader of the examples is faithful. *)

Lemma well_formed_partition (info : ApkBasicInfo) (cf : ApkContentFileInfo) :
  well_formed cf = true ->
  in_partition "blob" (store_row info cf) = true
  \/ in_partition "text" (store_row info cf) = true.
Proof.
  unfold well_formed, in_partition, cell_of, store_row, basicinfo_dict, contentfile_dict.
  destruct (content_text cf), (content_blob cf); try discriminate;
    intros H; apply String.eqb_eq in H; cbn; rewrite H; auto.
Qed.

Lemma partition_file_spec (value : string) (batch : list Row) (f : ParquetFile) :
  partition_file value batch = Some f ->
  pf_partition f = value
  /\ pf_rows f = List.filter (in_partition value) batch
  /\ map fst (pf_schema f)
     = List.filter (fun column => negb (String.eqb column "content_mode"))
                   (dataframe_columns batch).
Proof.
  unfold partition_file. destruct (List.filter (in_partition value) batch) eqn:E;
    [discriminate |].
  intros [= <-]. cbn [pf_partition pf_rows pf_schema]. repeat split.
  rewrite map_map. cbn [fst]. apply map_id.
Qed.

Lemma partition_file_of_row (value : string) (batch : list Row) (r : Row) :
  In r batch -> in_partition value r = true ->
  exists f : ParquetFile, partition_file value batch = Some f /\ In r (pf_rows f).
Proof.
  intros Hin Hpart.
  assert (Hr : In r (List.filter (in_partition value) batch))
    by (apply filter_In; now split).
  unfold partition_file.
  destruct (List.filter (in_partition value) batch) as [|r0 part] eqn:E;
    [destruct Hr |].
  eexists. split; [reflexivity |]. exact Hr.
Qed.

Lemma dataset_files_spec (ds : Dataset) (f : ParquetFile) :
  In f (dataset_files ds)
  <-> exists (value : string) (batch : list Row),
        (value = "blob" \/ value = "text") /\ In batch ds
        /\ partition_file value batch = Some f.
Proof.
  unfold dataset_files. rewrite in_app_iff, <- !list_elem_of_In, !list_elem_of_omap.
  split.
  - intros [(batch & Hin & Hf) | (batch & Hin & Hf)]; apply list_elem_of_In in Hin;
      [exists "blob", batch | exists "text", batch]; auto.
  - intros (value & batch & [-> | ->] & Hin & Hf); apply list_elem_of_In in Hin;
      [left | right]; now exists batch.
Qed.

Local Abbreviation file_columns :=
  ["app_id"; "version_code"; "version_name"; "apk_sha256"; "relative_path";
   "filename"; "extension"; "content_text"; "content_blob"; "file_sha256"].

Lemma converter_file (ds : Dataset) (f : ParquetFile) :
  converter_dataset ds -> In f (dataset_files ds) ->
  map fst (pf_schema f) = file_columns
  /\ forall r : Row, In r (pf_rows f) ->
       In r (concat ds) /\ exists x : string, cell_of "apk_sha256" r = CStr x
                                               /\ row_fingerprint r = Some (CStr x).
Proof.
  intros Hds Hf. apply dataset_files_spec in Hf as (value & batch & _ & Hbatch & Hf).
  apply partition_file_spec in Hf as (_ & Hrows & Hschema).
  pose proof (proj1 (List.Forall_forall _ _) Hds batch Hbatch)
    as (info & files & Hne & _ & _ & ->).
  split.
  - rewrite Hschema, dataframe_columns_rows. now destruct files.
  - intros r Hr. rewrite Hrows in Hr. apply filter_In in Hr as [Hr _]. split.
    + apply in_concat. now exists (map (store_row info) files).
    + apply in_map_iff in Hr as (cf & <- & _). now exists (apk_sha256 info).
Qed.

Lemma arrow_read_table_faithful : faithful arrow_read_table.
Proof.
  intros ds t Hread. split.
  - intros ->. injection Hread as <-. reflexivity.
  - intros Hne Hds. unfold arrow_read_table in Hread.
    destruct (negb _); [discriminate |].
    destruct (dataset_files ds) as [|first others] eqn:Hfiles.
    { exfalso. destruct ds as [|batch ds']; [contradiction |].
      apply Forall_cons_1 in Hds as [(info & files & Hfiles_ne & Hwf & _ & ->) _].
      destruct files as [|cf files]; [contradiction |].
      apply Forall_cons_1 in Hwf as [Hcf _].
      assert (Hin : In (store_row info cf) (map (store_row info) (cf :: files)))
        by now left.
      destruct (well_formed_partition info cf Hcf) as [Hpart | Hpart];
        destruct (partition_file_of_row _ _ _ Hin Hpart) as (f & Hf & _);
        assert (Habs : In f (dataset_files (map (store_row info) (cf :: files) :: ds')))
          by (apply dataset_files_spec; eexists _, _;
              split; [| split; [left; reflexivity | exact Hf]]; auto);
        rewrite Hfiles in Habs; destruct Habs. }
    destruct (check_all _ _); [| discriminate]. unfold py_bind in Hread.
    assert (Hinj : forall t1 t2 : Table, Ok t1 = Ok t2 -> t1 = t2)
      by (intros t1 t2 [= ->]; reflexivity).
    apply Hinj in Hread. subst t. clear Hinj.
    assert (Hfirst : map fst (pf_schema first) = file_columns).
    { apply (converter_file ds first Hds). rewrite Hfiles. now left. }
    rewrite <- Hfiles. split; cbn [column_names rows].
    + intros column. rewrite Hfirst. cbn. tauto.
    + assert (Hproj : forall (f : ParquetFile) (r : Row) (x : string),
                 cell_of "apk_sha256" r = CStr x ->
                 row_fingerprint
                   (map (fun ct => (fst ct, cell_of (fst ct) r)) (pf_schema first)
                    ++ [("content_mode", CStr (pf_partition f))])
                 = Some (CStr x)).
      { intros f r x Hx. unfold row_fingerprint.
        destruct (pf_schema first) as [|[c0 t0] [|[c1 t1] [|[c2 t2] [|[c3 t3] rest]]]];
          try discriminate.
        injection Hfirst as -> -> -> -> _. cbn. now rewrite Hx. }
      intros x. split.
      * intros (r' & Hin & Hfp). apply in_flat_map in Hin as (f & Hf & Hin).
        apply in_map_iff in Hin as (r & <- & Hr).
        destruct (converter_file ds f Hds Hf) as [_ Hrows].
        destruct (Hrows r Hr) as (Hin & sha & Hcell & Hfp').
        rewrite (Hproj f r sha Hcell) in Hfp. exists r. split; [exact Hin |].
        now rewrite Hfp'.
      * intros (r & Hin & Hfp). apply in_concat in Hin as (batch & Hbatch & Hr).
        pose proof (proj1 (List.Forall_forall _ _) Hds batch Hbatch)
          as (info & files & _ & Hwf & _ & ->).
        pose proof Hr as Hr'.
        apply in_map_iff in Hr' as (cf & <- & Hcf).
        pose proof (proj1 (List.Forall_forall _ _) Hwf cf Hcf) as Hcf_wf.
        assert (Hfile : exists (value : string) (f : ParquetFile),
                   (value = "blob" \/ value = "text")
                   /\ partition_file value (map (store_row info) files) = Some f
                   /\ In (store_row info cf) (pf_rows f)).
        { destruct (well_formed_partition info cf Hcf_wf) as [Hpart | Hpart];
            destruct (partition_file_of_row _ _ _ Hr Hpart) as (f & Hf & Hin);
            eexists _, f; eauto. }
        destruct Hfile as (value & f & Hvalue & Hf & Hin).
        eexists. split.
        -- apply in_flat_map. exists f. split.
           ++ apply dataset_files_spec. now exists value, (map (store_row info) files).
           ++ apply in_map. exact Hin.
        -- rewrite (Hproj f (store_row info cf) (apk_sha256 info) eq_refl).
           now rewrite store_row_fingerprint in Hfp.
Qed.


(** The records of [read_apk_content_file] are well-formed. *)
Lemma read_apk_content_file_well_formed
    (sha256_hex : list byte -> string) (decode : list byte -> option string)
    (filename apk_path : string) (raw : list byte) (rec : ApkContentFileInfo) :
  read_apk_content_file sha256_hex decode filename apk_path raw = Ok rec ->
  well_formed rec = true.
Proof.
  unfold read_apk_content_file. destruct (String.eqb apk_path ""); [discriminate |].
  destruct (str_in _ ext_store_as_text); [destruct (read_text decode raw) |];
    intros [= <-]; reflexivity.
Qed.

(** C1 (as the code has it).  In every state of the base directory that
    the converter can have brought about: an Append whose descriptor
    carries a fingerprint that a row of its application's dataset already
    carries never succeeds and leaves the directory as it was; the error
    is the duplicate-package error whenever [read_table] returns the
    existing dataset (and the version code fits its column), and the
    error of [read_table] when that raises.  The same holds of a second
    Append, of any record set, after a successful one with the same
    application and fingerprint.  Within a dataset two rows with the same
    fingerprint always belong to the same committed batch, that is a
    fingerprint is never committed twice. *)
Theorem dedup_invariant (base : string) (store : Store) :
  reachable base store ->
  (forall (read_table : Dataset -> PyResult Table) (info : ApkBasicInfo)
          (files : list ApkContentFileInfo) (ds : Dataset),
      faithful read_table ->
      plain_name (app_id info) = true ->
      store !! app_id info = Some ds ->
      committed (apk_sha256 info) ds ->
      (exists e : PyError,
          write_as_parquet read_table info files base true store = (Raise e, store))
      /\ (forall t : Table,
            fits_int_column (version_code info) = true ->
            read_table ds = Ok t ->
            write_as_parquet read_table info files base true store
            = (Raise DuplicatePackageError, store))
      /\ (forall e : PyError,
            fits_int_column (version_code info) = true ->
            read_table ds = Raise e ->
            write_as_parquet read_table info files base true store = (Raise e, store)))
  /\ (forall (read_table read_table' : Dataset -> PyResult Table)
            (info info' : ApkBasicInfo) (files files' : list ApkContentFileInfo)
            (p : string) (store' : Store),
      faithful read_table -> faithful read_table' ->
      Forall (fun cf => well_formed cf = true) files ->
      write_as_parquet read_table info files base true store = (Ok p, store') ->
      app_id info' = app_id info -> apk_sha256 info' = apk_sha256 info ->
      exists e : PyError,
        write_as_parquet read_table' info' files' base true store' = (Raise e, store'))
  /\ (forall (name : string) (ds : Dataset),
      store !! name = Some ds -> fingerprint_at_most_once ds).
Proof.
  intros Hreach. split; [| split].
  - intros read_table info files ds Hfaithful Hname Hlookup Hcommitted.
    destruct (duplicate_append_refused read_table base store info files ds
                Hreach Hfaithful Hname Hlookup Hcommitted) as [Hrefused Hduplicate].
    split; [exact Hrefused |]. split; [exact Hduplicate |].
    intros e Hfits Hread.
    rewrite write_as_parquet_cases, Hlookup, Hread by auto. reflexivity.
  - intros read_table read_table' info info' files files' p store'
           Hfaithful Hfaithful' Hwf Hfirst Happ Hsha.
    destruct (append_commits _ _ _ _ _ _ _ Hfirst) as (Hname & ds & Hlookup & Hcommitted).
    apply (duplicate_append_refused read_table' base store' info' files' ds).
    + replace store' with (snd (write_as_parquet read_table info files base true store))
        by now rewrite Hfirst.
      now constructor.
    + exact Hfaithful'.
    + now rewrite Happ.
    + now rewrite Happ.
    + now rewrite Hsha.
  - intros name ds Hlookup.
    now destruct (reachable_store_ok base store Hreach _ _ Hlookup).
Qed.


(** X11.  Overwrite, for an application id that is a plain name.  A batch
    of well-formed records that is not empty, under a version code that
    fits its column, is written whatever the directory holds, readable or
    not: the dataset of the application then consists of that one batch.
    A version code that fits no column makes the call raise
    [OverflowError] before anything is removed.  An empty batch removes
    the dataset, leaves an empty directory in its place and raises
    [KeyError].  The other datasets are left alone in every case. *)
Theorem overwrite_replaces_dataset (read_table : Dataset -> PyResult Table)
    (info : ApkBasicInfo) (files : list ApkContentFileInfo) (base : string)
    (store : Store) :
  plain_name (app_id info) = true ->
  Forall (fun cf => well_formed cf = true) files ->
  (files <> [] -> fits_int_column (version_code info) = true ->
   write_as_parquet read_table info files base false store
   = (Ok (path_join base (app_id info)),
      <[app_id info := [map (store_row info) files]]> store))
  /\ (files <> [] -> fits_int_column (version_code info) = false ->
      write_as_parquet read_table info files base false store
      = (Raise OverflowError, store))
  /\ (files = [] ->
      write_as_parquet read_table info files base false store
      = (Raise (KeyError "content_mode"), <[app_id info := []]> store))
  /\ (forall other : string,
        other <> app_id info ->
        snd (write_as_parquet read_table info files base false store) !! other
        = store !! other).
Proof.
  intros Hname Hwf.
  assert (Hwrite : (files <> [] -> fits_int_column (version_code info) = true) ->
                   write_as_parquet read_table info files base false store
                   = written info files base [] store).
  { intros Hfits. rewrite write_as_parquet_cases by assumption.
    destruct files; now rewrite insert_delete_eq. }
  split; [| split; [| split]].
  - intros Hne Hfits. rewrite Hwrite by auto. destruct files; [contradiction | reflexivity].
  - intros Hne Hfits. now apply write_as_parquet_overflow.
  - intros ->. now rewrite Hwrite by contradiction.
  - intros other Hother.
    destruct (fits_int_column (version_code info)) eqn:Hfits.
    + rewrite Hwrite by auto.
      destruct files; cbn [snd]; now rewrite lookup_insert_ne by congruence.
    + destruct files as [|cf files].
      * rewrite Hwrite by contradiction. cbn [snd].
        now rewrite lookup_insert_ne by congruence.
      * now rewrite write_as_parquet_overflow by (assumption || discriminate).
Qed.

(** X12.  A successful append of well-formed records returns the dataset
    path of the application and loses nothing: the rows the dataset holds
    afterwards are the rows it held before together with one row for each
    record of the batch (a dataset that did not exist is created), and
    every other dataset is left as it was. *)
Theorem append_extends (read_table : Dataset -> PyResult Table)
    (info : ApkBasicInfo) (files : list ApkContentFileInfo)
    (base p : string) (store store' : Store) :
  Forall (fun cf => well_formed cf = true) files ->
  write_as_parquet read_table info files base true store = (Ok p, store') ->
  p = path_join base (app_id info)
  /\ (exists ds' : Dataset,
        store' !! app_id info = Some ds'
        /\ Permutation (concat ds')
                       (concat (default [] (store !! app_id info))
                        ++ map (store_row info) files))
  /\ (forall other : string, other <> app_id info -> store' !! other = store !! other).
Proof.
  intros _ H.
  destruct (plain_name (app_id info)) eqn:Hname;
    [| rewrite write_as_parquet_not_plain in H by assumption; discriminate].
  assert (Hfits : files <> [] -> fits_int_column (version_code info) = true).
  { intros Hne. destruct (fits_int_column (version_code info)) eqn:Hfits; [reflexivity |].
    rewrite write_as_parquet_overflow in H by assumption. discriminate. }
  rewrite write_as_parquet_cases in H by assumption.
  assert (Hwritten : written info files base (default [] (store !! app_id info)) store
                     = (Ok p, store')).
  { destruct (store !! app_id info) as [existing|]; [| exact H].
    destruct (read_table existing) as [t|e]; [| discriminate].
    destruct (negb _); [discriminate |].
    destruct (apk_sha256_exists _ _) as [[|]|]; try discriminate. exact H. }
  destruct files as [|cf files]; [discriminate |].
  injection Hwritten as <- <-. split; [reflexivity |]. split.
  - eexists. split; [apply lookup_insert_eq |].
    rewrite concat_app. cbn [concat]. now rewrite app_nil_r.
  - intros other Hother. now rewrite lookup_insert_ne by congruence.
Qed.

(** X13.  The outcomes of an Append of well-formed records, under a plain
    application id and a version code that fits its column, to a directory
    the converter has written.  Without a dataset directory the batch
    becomes the dataset; an empty batch leaves an empty directory and
    raises [KeyError].  With a dataset directory: the error of
    [read_table] if it raises; the schema error if the directory holds no
    file; the duplicate error if the fingerprint is committed; otherwise
    the batch is added to the dataset, an empty batch raising [KeyError]
    with nothing written. *)
Theorem append_outcomes (read_table : Dataset -> PyResult Table) (base : string)
    (store : Store) (info : ApkBasicInfo) (files : list ApkContentFileInfo) :
  reachable base store ->
  faithful read_table ->
  plain_name (app_id info) = true ->
  fits_int_column (version_code info) = true ->
  Forall (fun cf => well_formed cf = true) files ->
  (store !! app_id info = None -> files <> [] ->
   write_as_parquet read_table info files base true store
   = (Ok (path_join base (app_id info)),
      <[app_id info := [map (store_row info) files]]> store))
  /\ (store !! app_id info = None -> files = [] ->
      write_as_parquet read_table info files base true store
      = (Raise (KeyError "content_mode"), <[app_id info := []]> store))
  /\ (forall (ds : Dataset) (e : PyError),
      store !! app_id info = Some ds -> read_table ds = Raise e ->
      write_as_parquet read_table info files base true store = (Raise e, store))
  /\ (forall t : Table,
      store !! app_id info = Some ([] : Dataset) -> read_table [] = Ok t ->
      write_as_parquet read_table info files base true store = (Raise SchemaError, store))
  /\ (forall (ds : Dataset) (t : Table),
      store !! app_id info = Some ds -> read_table ds = Ok t ->
      committed (apk_sha256 info) ds ->
      write_as_parquet read_table info files base true store
      = (Raise DuplicatePackageError, store))
  /\ (forall (ds : Dataset) (t : Table),
      store !! app_id info = Some ds -> read_table ds = Ok t ->
      ds <> [] -> ~ committed (apk_sha256 info) ds ->
      write_as_parquet read_table info files base true store
      = match files with
        | [] => (Raise (KeyError "content_mode"), store)
        | _ => (Ok (path_join base (app_id info)),
                <[app_id info := ds ++ [map (store_row info) files]]> store)
        end).
Proof.
  intros Hreach Hfaithful Hname Hfits Hwf.
  rewrite write_as_parquet_cases by auto.
  split; [| split; [| split; [| split; [| split]]]].
  - intros -> Hne. destruct files; [contradiction | reflexivity].
  - now intros -> ->.
  - intros ds e -> ->. reflexivity.
  - intros t Hlookup Hread. rewrite Hlookup, Hread.
    now rewrite (empty_directory_invalid read_table t Hfaithful Hread).
  - intros ds t Hlookup Hread Hcommitted.
    destruct (duplicate_append_refused read_table base store info files ds
                Hreach Hfaithful Hname Hlookup Hcommitted) as [_ Hduplicate].
    pose proof (Hduplicate t Hfits Hread) as Hrefused.
    now rewrite write_as_parquet_cases in Hrefused by auto.
  - intros ds t Hlookup Hread Hne Hfresh. rewrite Hlookup, Hread.
    destruct (reachable_store_ok base store Hreach _ _ Hlookup) as [Hconv _].
    destruct (scan_spec read_table ds t (apk_sha256 info) Hfaithful Hread Hne Hconv)
      as (-> & b & -> & Hb).
    cbn [negb]. destruct b; [exfalso; now apply Hfresh, Hb |].
    destruct files; [| reflexivity]. now rewrite insert_id.
Qed.

End StoreFacts.

Section StoreExamples.
Import PyStr PyDict Models Converter Samples.

Lemma example_store_reachable : reachable "/parquet" example_store.
Proof.
  apply reachable_write;
    [exact arrow_read_table_faithful | repeat constructor | constructor].
Qed.

Lemma mixed_store_reachable : reachable "/parquet" mixed_store.
Proof.
  apply reachable_write;
    [exact arrow_read_table_faithful | repeat constructor | exact example_store_reachable].
Qed.

(** The same package a second time, with any files: refused as a
    duplicate, the directory unchanged. *)
Lemma dedup_invariant_witness :
  reachable "/parquet" example_store
  /\ write_as_parquet arrow_read_table example_info [] "/parquet" true example_store
     = (Raise DuplicatePackageError, example_store)
  /\ write_as_parquet arrow_read_table example_info [example_file] "/parquet" true
       example_store
     = (Raise DuplicatePackageError, example_store).
Proof.
  pose proof example_store_reachable as Hreach.
  assert (Hlookup : example_store !! app_id example_info
                    = Some [[store_row example_info example_file]])
    by (vm_compute; reflexivity).
  assert (Hcommitted : committed (apk_sha256 example_info)
                         [[store_row example_info example_file]]).
  { eexists. split; [left; reflexivity | reflexivity]. }
  destruct (dedup_invariant "/parquet" example_store Hreach) as [Hdup _].
  split; [exact Hreach |].
  split.
  - destruct (Hdup arrow_read_table example_info [] _ arrow_read_table_faithful
                   eq_refl Hlookup Hcommitted) as (_ & Hduplicate & _).
    eapply Hduplicate; [reflexivity | vm_compute; reflexivity].
  - destruct (Hdup arrow_read_table example_info [example_file] _
                   arrow_read_table_faithful eq_refl Hlookup Hcommitted)
      as (_ & Hduplicate & _).
    eapply Hduplicate; [reflexivity | vm_compute; reflexivity].
Defined.

(** C1, as the document words it, fails where the dataset cannot be read
    back.  After the sample package, made of one text file, a later
    version made of one binary file is appended; both appends succeed.
    The two files of the dataset then disagree on the types of the content
    columns, [read_table] raises, and the sample package appended a second
    time meets that error, not the duplicate-package error. *)
Lemma duplicate_append_unreadable :
  reachable "/parquet" mixed_store
  /\ (exists ds : Dataset,
        mixed_store !! "com.test.app" = Some ds
        /\ committed "3f5a" ds
        /\ arrow_read_table ds = Raise ArrowNotImplementedError)
  /\ write_as_parquet arrow_read_table example_info [example_file] "/parquet" true
       mixed_store
     = (Raise ArrowNotImplementedError, mixed_store).
Proof.
  split; [exact mixed_store_reachable |]. split.
  - eexists. split; [vm_compute; reflexivity |]. split; [| vm_compute; reflexivity].
    eexists. split; [left; reflexivity | reflexivity].
  - vm_compute. reflexivity.
Qed.


Lemma overwrite_replaces_dataset_witness :
  write_as_parquet arrow_read_table later_info [example_blob] "/parquet" false mixed_store
  = (Ok "/parquet/com.test.app",
     <["com.test.app" := [[store_row later_info example_blob]]]> mixed_store).
Proof.
  destruct (overwrite_replaces_dataset arrow_read_table later_info [example_blob]
              "/parquet" mixed_store eq_refl ltac:(repeat constructor))
    as (Hwrite & _).
  apply Hwrite; [discriminate | reflexivity].
Defined.

Lemma append_extends_witness :
  exists ds' : Dataset,
    mixed_store !! "com.test.app" = Some ds'
    /\ Permutation (concat ds')
         ([store_row example_info example_file] ++ [store_row later_info example_blob]).
Proof.
  destruct (append_extends arrow_read_table later_info [example_blob] "/parquet"
              "/parquet/com.test.app" example_store mixed_store
              ltac:(repeat constructor) ltac:(vm_compute; reflexivity))
    as (_ & (ds' & Hlookup & Hrows) & _).
  exists ds'. split; [exact Hlookup |].
  replace (concat (default [] (example_store !! app_id later_info)))
    with [store_row example_info example_file] in Hrows by (vm_compute; reflexivity).
  exact Hrows.
Defined.

Lemma append_outcomes_witness :
  write_as_parquet arrow_read_table later_info [example_blob] "/parquet" true example_store
  = (Ok "/parquet/com.test.app",
     <["com.test.app" := [[store_row example_info example_file]]
                         ++ [[store_row later_info example_blob]]]> example_store).
Proof.
  destruct (append_outcomes arrow_read_table "/parquet" example_store later_info
              [example_blob] example_store_reachable arrow_read_table_faithful
              eq_refl eq_refl ltac:(repeat constructor))
    as (_ & _ & _ & _ & _ & Hadd).
  apply (Hadd [[store_row example_info example_file]]
              {| column_names :=
                   ["app_id"; "version_code"; "version_name"; "apk_sha256";
                    "relative_path"; "filename"; "extension"; "content_text";
                    "content_blob"; "file_sha256"; "content_mode"];
                 rows := [[("app_id", CStr "com.test.app"); ("version_code", CInt 3);
                           ("version_name", CStr "1.2"); ("apk_sha256", CStr "3f5a");
                           ("relative_path", CStr "/AndroidManifest.xml");
                           ("filename", CStr "AndroidManifest.xml");
                           ("extension", CStr "xml");
                           ("content_text", CStr "<manifest/>");
                           ("content_blob", CNull); ("file_sha256", CStr "77aa");
                           ("content_mode", CStr "text")]] |}).
  - vm_compute. reflexivity.
  - vm_compute. reflexivity.
  - discriminate.
  - intros (r & [<- | []] & Hfp). discriminate Hfp.
Defined.

(** An empty batch for an application without a dataset leaves an empty
    directory behind; every later Append to it raises the schema error,
    and an Overwrite puts the dataset in place. *)
Example empty_batch_leaves_directory :
  write_as_parquet arrow_read_table example_info [] "/parquet" true ∅
  = (Raise (KeyError "content_mode"), {[ "com.test.app" := [] ]})
  /\ write_as_parquet arrow_read_table example_info [example_file] "/parquet" true
       {[ "com.test.app" := [] ]}
     = (Raise SchemaError, {[ "com.test.app" := [] ]})
  /\ write_as_parquet arrow_read_table example_info [example_file] "/parquet" false
       {[ "com.test.app" := [] ]}
     = (Ok "/parquet/com.test.app", example_store).
Proof. repeat split; vm_compute; reflexivity. Qed.

(** A dataset written by one batch with a text file and a binary file:
    the rows come back sub-directory by sub-directory, the one of
    [content_mode=blob] first, and the partition column last. *)
Example rows_come_back_by_partition :
  match arrow_read_table
          [[store_row example_info example_file; store_row example_info example_blob]] with
  | Ok t => (column_names t,
             map (fun r => (cell_of "relative_path" r, cell_of "content_mode" r)) (rows t))
  | Raise _ => ([], [])
  end
  = (["app_id"; "version_code"; "version_name"; "apk_sha256"; "relative_path";
      "filename"; "extension"; "content_text"; "content_blob"; "file_sha256";
      "content_mode"],
     [(CStr "/resources.arsc", CStr "blob"); (CStr "/AndroidManifest.xml", CStr "text")]).
Proof. vm_compute. reflexivity. Qed.

(** A version code beyond 64 bits: the conversion of the frame fails
    before the directory is looked at, in both modes. *)
Example version_code_overflow :
  let info := {| app_id := "com.test.app"; version_code := 18446744073709551616;
                 version_name := "1.2"; apk_sha256 := "aa11" |} in
  write_as_parquet arrow_read_table info [example_file] "/parquet" true example_store
  = (Raise OverflowError, example_store)
  /\ write_as_parquet arrow_read_table info [example_file] "/parquet" false example_store
     = (Raise OverflowError, example_store).
Proof. split; vm_compute; reflexivity. Qed.

End StoreExamples.

(** ** URL extraction *)

Section UrlExtraction.
Import PyStr Models Analysis Samples.

Lemma patterns_compile :
  Regex.compile url_pattern = Regex.Parsed url_regex
  /\ Regex.compile domain_pattern = Regex.Parsed domain_regex
  /\ Regex.compile fqdn_pattern = Regex.Parsed fqdn_regex.
Proof. repeat split; vm_compute; reflexivity. Qed.

(** The rows that leave the row-level stages are exactly those built from
    a line that passes every filter. *)
Lemma url_extraction_rows_spec (df : list StoreRow) (u : UrlRow) :
  In u (url_extraction_rows df)
  <-> exists text : string,
        In (u_row u) df
        /\ str_in (lower (extension (file (u_row u)))) ["smali"] = true
        /\ content_text (file (u_row u)) = Some text
        /\ contains "const-string" text = true
        /\ In (u_line u) (split (String LF "") text)
        /\ contains "const-string" (u_line u) = true
        /\ contains "http://" (u_line u) || contains "https://" (u_line u) = true
        /\ u_url u = Regex.regexp_extract (u_line u) url_regex 0
        /\ u_url u <> "https://"
        /\ u_url u <> "http://"
        /\ u_domain u = Regex.regexp_extract (u_url u) domain_regex 2
        /\ Regex.rlike (u_domain u) fqdn_regex = true
        /\ u_class_name u = get_class_full_name (relative_path (file (u_row u))).
Proof.
  unfold url_extraction_rows, split_text_content_into_lines, filter_by_extension.
  change (length ["smali"] <=? 0)%nat with false.
  change (map lower ["smali"]) with ["smali"]. cbv iota.
  rewrite in_map_iff. split.
  - intros ([[[r line] url] domain] & <- & H).
    cbn [u_row u_line u_url u_domain u_class_name].
    apply filter_In in H as [H Hfqdn]. cbn [snd] in Hfqdn.
    apply in_map_iff in H as ([[r1 line1] url1] & Heq & H).
    cbn [snd] in Heq. injection Heq as -> -> -> <-.
    apply filter_In in H as [H Hhttp]. apply filter_In in H as [H Hhttps].
    cbn [snd] in Hhttp, Hhttps.
    apply in_map_iff in H as ([r2 line2] & Heq & H).
    cbn [snd] in Heq. injection Heq as -> -> <-.
    apply filter_In in H as [H Hscheme]. apply filter_In in H as [H Hconst].
    cbn [snd] in Hscheme, Hconst.
    apply in_flat_map in H as (r0 & Hr0 & Hin).
    apply filter_In in Hr0 as [Hr0 Htext]. apply filter_In in Hr0 as [Hr0 Hext].
    destruct (content_text (file r0)) as [text|] eqn:Etext; [| destruct Hin].
    apply in_map_iff in Hin as (line0 & Heq & Hline). injection Heq as -> ->.
    exists text. rewrite Etext.
    apply Bool.negb_true_iff, String.eqb_neq in Hhttp, Hhttps.
    repeat split; assumption.
  - intros (text & Hr & Hext & Htext & Hconst & Hline & Hconst' & Hscheme & Hurl
            & Hhttps & Hhttp & Hdomain & Hfqdn & Hclass).
    exists (u_row u, u_line u, u_url u, u_domain u). split.
    { destruct u as [r line url domain cls]. cbn in *. now subst cls. }
    apply filter_In. split; [| exact Hfqdn].
    apply in_map_iff. exists (u_row u, u_line u, u_url u).
    split; [cbn [snd]; now rewrite Hdomain |].
    apply String.eqb_neq, Bool.negb_true_iff in Hhttp, Hhttps.
    apply filter_In. split; [| exact Hhttp].
    apply filter_In. split; [| exact Hhttps].
    apply in_map_iff. exists (u_row u, u_line u).
    split; [cbn [snd]; now rewrite Hurl |].
    apply filter_In. split; [| exact Hscheme].
    apply filter_In. split; [| exact Hconst'].
    apply in_flat_map. exists (u_row u). split.
    + apply filter_In. split; [| now rewrite Htext].
      apply filter_In. now split.
    + rewrite Htext. apply in_map_iff. now exists (u_line u).
Qed.

(** The line with the bare scheme leaves no row, in any file of any
    frame. *)
Lemma bare_scheme_line_dropped (df : list StoreRow) (u : UrlRow) :
  In u (url_extraction_rows df) -> u_line u <> bare_scheme_line.
Proof.
  intros Hu Hline. apply url_extraction_rows_spec in Hu
    as (text & _ & _ & _ & _ & _ & _ & _ & Hurl & Hhttps & _).
  rewrite Hline in Hurl. apply Hhttps. rewrite Hurl. vm_compute. reflexivity.
Qed.

(** The line with the address leaves its row, for every class file with
    that line in every frame. *)
Lemma ads_line_kept (df : list StoreRow) (r : StoreRow) (text : string) :
  In r df ->
  str_in (lower (extension (file r))) ["smali"] = true ->
  content_text (file r) = Some text ->
  In ads_line (split (String LF "") text) ->
  In {| u_row := r; u_line := ads_line; u_url := "https://ads.example.com/x";
        u_domain := "ads.example.com";
        u_class_name := get_class_full_name (relative_path (file r)) |}
     (url_extraction_rows df).
Proof.
  intros Hr Hext Htext Hline. apply url_extraction_rows_spec.
  exists text. cbn [u_row u_line u_url u_domain u_class_name].
  assert (Hconst : contains "const-string" ads_line = true) by (vm_compute; reflexivity).
  repeat split; try assumption; try (vm_compute; reflexivity); try discriminate.
  now apply (contains_split_line LF "const-string" text ads_line).
Qed.

(** The rows of the one-file packages. *)
Example url_extraction_rows_of_samples :
  url_extraction_rows [smali_row bare_scheme_line] = []
  /\ url_extraction_rows [smali_row ads_line]
     = [ {| u_row := smali_row ads_line; u_line := ads_line;
            u_url := "https://ads.example.com/x"; u_domain := "ads.example.com";
            u_class_name := Some "com.test.app.Net" |} ].
Proof. split; vm_compute; reflexivity. Qed.

(** What the domain pattern and the name shape let through. *)
Example url_without_path_is_dropped :
  url_extraction_rows
    [smali_row ("    const-string v0, " ++ dquote ++ "https://ads.example.com" ++ dquote)]
  = [].
Proof. vm_compute. reflexivity. Qed.

Example http_url_is_kept :
  map u_domain
    (url_extraction_rows
       [smali_row ("    const-string v1, " ++ dquote ++ "http://cdn.example.org/a/b?c=1"
                   ++ dquote)])
  = ["cdn.example.org"].
Proof. vm_compute. reflexivity. Qed.

(** The recipe called with no argument at all: the defaults apply, the
    one package found is returned in full. *)
Example url_extraction_call :
  call_task UrlExtraction sample_backend []
  = Ok {| total := 1; output_limit := 500;
          records :=
            Some [ [("app_id", JStr "com.test.app"); ("version_name", JStr "1.2");
                    ("version_code", JNum 3); ("apk_sha256", JStr "3f5a");
                    ("urls", JList [JStr "https://ads.example.com/x"]);
                    ("domains", JList [JStr "ads.example.com"]);
                    ("classes", JList [JStr "com.test.app.Net"]);
                    ("lines", JList [JStr ads_line])] ] |}.
Proof. vm_compute. reflexivity. Qed.

End UrlExtraction.
(** ** Inferred developers *)

Section Developers.
Import PyStr Analysis.

Lemma infer_developer_loop_spec (segments : list string) (n a : nat) (d : string) :
  a + n <= length segments - 1 ->
  infer_developer_loop segments (seq a n) = Some d
  <-> exists i : nat,
        a <= i < a + n
        /\ str_in (nth i segments "") original_tlds = true
        /\ nth (i + 1) segments "" = d
        /\ forall j : nat, a <= j < i -> str_in (nth j segments "") original_tlds = false.
Proof.
  revert a. induction n as [|n IH]; intros a Hlen.
  - simpl. split; [discriminate | intros (i & Hi & _); lia].
  - cbn [seq infer_developer_loop].
    destruct (str_in (nth a segments "") original_tlds) eqn:Htld.
    + destruct (Nat.ltb_spec a (length segments - 1)) as [_ | Hge]; [| lia].
      split.
      * intros [= <-]. exists a. repeat split; try lia. exact Htld.
      * intros (i & Hi & Hi_tld & Hd & Hfirst).
        destruct (Nat.eq_dec i a) as [-> | Hne]; [now rewrite Hd |].
        rewrite (Hfirst a) in Htld by lia. discriminate.
    + rewrite IH by lia. split.
      * intros (i & Hi & Hi_tld & Hd & Hfirst). exists i. repeat split; try lia; try assumption.
        intros j Hj. destruct (Nat.eq_dec j a) as [-> | Hne]; [exact Htld | apply Hfirst; lia].
      * intros (i & Hi & Hi_tld & Hd & Hfirst).
        assert (i <> a) by (intros ->; rewrite Hi_tld in Htld; discriminate).
        exists i. repeat split; try lia; try assumption.
        intros j Hj. apply Hfirst. lia.
Qed.

Lemma infer_developer_loop_none (segments : list string) (n a : nat) :
  a + n <= length segments - 1 ->
  infer_developer_loop segments (seq a n) = None
  <-> forall i : nat, a <= i < a + n -> str_in (nth i segments "") original_tlds = false.
Proof.
  revert a. induction n as [|n IH]; intros a Hlen.
  - simpl. split; [intros _ i Hi; lia | reflexivity].
  - cbn [seq infer_developer_loop].
    destruct (str_in (nth a segments "") original_tlds) eqn:Htld.
    + destruct (Nat.ltb_spec a (length segments - 1)) as [_ | Hge]; [| lia].
      split; [discriminate |]. intros Hall. rewrite (Hall a) in Htld by lia. discriminate.
    + rewrite IH by lia. split.
      * intros Hall i Hi. destruct (Nat.eq_dec i a) as [-> | Hne]; [exact Htld | apply Hall; lia].
      * intros Hall i Hi. apply Hall. lia.
Qed.

Lemma nth_lookup_string (l : list string) (i : nat) (x : string) :
  l !! i = Some x -> nth i l "" = x.
Proof.
  revert i. induction l as [|y l IH]; intros [|i] H; try discriminate.
  - now injection H.
  - simpl. now apply IH.
Qed.

(** X1.  The developer inferred from a path is the segment that follows
    the first segment, the last one apart, that is one of the seven
    original top-level domains; there is none exactly when no segment
    other than the last is such a domain. *)
Theorem infer_developer_first_tld (path : string) :
  (forall d : string,
      infer_developer_from_packagename path = Some d
      <-> exists (i : nat) (tld : string),
            split "/" path !! i = Some tld
            /\ In tld original_tlds
            /\ split "/" path !! (i + 1) = Some d
            /\ forall (j : nat) (seg : string),
                 j < i -> split "/" path !! j = Some seg -> ~ In seg original_tlds)
  /\ (infer_developer_from_packagename path = None
      <-> forall (i : nat) (seg next : string),
            split "/" path !! i = Some seg ->
            split "/" path !! (i + 1) = Some next -> ~ In seg original_tlds).
Proof.
  unfold infer_developer_from_packagename.
  set (segments := split "/" path).
  assert (Hspec := fun d => infer_developer_loop_spec segments (length segments - 1) 0 d
                              (Nat.le_refl _)).
  assert (Hin : forall s, str_in s original_tlds = true <-> In s original_tlds).
  { intros s. unfold str_in. rewrite existsb_exists. split.
    - intros (x & Hx & Heq). apply String.eqb_eq in Heq. now subst.
    - intros H. exists s. split; [assumption | apply String.eqb_refl]. }
  assert (Hfirst_iff : forall d,
    infer_developer_loop segments (seq 0 (length segments - 1)) = Some d
    <-> exists (i : nat) (tld : string),
          segments !! i = Some tld /\ In tld original_tlds
          /\ segments !! (i + 1) = Some d
          /\ forall (j : nat) (seg : string),
               j < i -> segments !! j = Some seg -> ~ In seg original_tlds).
  { intros d. rewrite Hspec. split.
    - intros (i & Hi & Htld & Hd & Hfirst).
      destruct (lookup_lt_is_Some_2 segments i) as [tld Hi_seg]; [lia |].
      destruct (lookup_lt_is_Some_2 segments (i + 1)) as [next Hnext]; [lia |].
      exists i, tld. rewrite (nth_lookup_string _ _ _ Hi_seg) in Htld.
      rewrite (nth_lookup_string _ _ _ Hnext) in Hd. subst next.
      repeat split; try assumption; [now apply Hin |].
      intros j seg Hj Hseg Habs. apply Hin in Habs.
      rewrite <- (nth_lookup_string _ _ _ Hseg), Hfirst in Habs by lia. discriminate.
    - intros (i & tld & Hi_seg & Htld & Hd & Hfirst).
      apply lookup_lt_Some in Hd as Hlt. exists i.
      rewrite (nth_lookup_string _ _ _ Hi_seg), (nth_lookup_string _ _ _ Hd).
      repeat split; try lia; [now apply Hin |].
      intros j Hj. destruct (lookup_lt_is_Some_2 segments j) as [seg Hseg]; [lia |].
      rewrite (nth_lookup_string _ _ _ Hseg).
      destruct (str_in seg original_tlds) eqn:E; [| reflexivity].
      apply Hin in E. now destruct (Hfirst j seg). }
  split; [exact Hfirst_iff |].
  rewrite (infer_developer_loop_none segments (length segments - 1) 0 (Nat.le_refl _)).
  split.
  - intros Hnone i seg next Hseg Hnext Htld.
    apply lookup_lt_Some in Hnext.
    rewrite <- (nth_lookup_string _ _ _ Hseg) in Htld. apply Hin in Htld.
    rewrite Hnone in Htld by lia. discriminate.
  - intros Hall i Hi.
    destruct (lookup_lt_is_Some_2 segments i) as [seg Hseg]; [lia |].
    destruct (lookup_lt_is_Some_2 segments (i + 1)) as [next Hnext]; [lia |].
    rewrite (nth_lookup_string _ _ _ Hseg).
    destruct (str_in seg original_tlds) eqn:E; [| reflexivity].
    apply Hin in E. now destruct (Hall i seg next).
Qed.

End Developers.

(** ** The search pipelines *)

Section Search.
Import PyStr Models Analysis.

Lemma filter_filter_andb {A : Type} (p q : A -> bool) (l : list A) :
  List.filter q (List.filter p l) = List.filter (fun x => p x && q x) l.
Proof.
  induction l as [|x l IH]; [reflexivity |]. simpl.
  destruct (p x); simpl; [destruct (q x) |]; now rewrite IH.
Qed.

Lemma filter_all {A : Type} (l : list A) : List.filter (fun _ => true) l = l.
Proof. induction l as [|x l IH]; [reflexivity |]. simpl. now rewrite IH. Qed.

(** A loop that filters once per term keeps the rows that pass every
    test. *)
Lemma fold_left_filter {A T : Type} (test : T -> A -> bool) (terms : list T) (df : list A) :
  fold_left (fun df term => List.filter (test term) df) terms df
  = List.filter (fun r => forallb (fun term => test term r) terms) df.
Proof.
  revert df. induction terms as [|term terms IH]; intros df; simpl.
  - symmetry. apply filter_all.
  - rewrite IH. apply filter_filter_andb.
Qed.

Local Abbreviation text_test case_sensitive :=
  (fun (term : string) (r : StoreRow) =>
     col_contains (compared case_sensitive term)
       (option_map (compared case_sensitive) (content_text (file r)))).

Local Abbreviation line_test case_sensitive :=
  (fun (term : string) (rl : StoreRow * string) =>
     contains (compared case_sensitive term) (compared case_sensitive (snd rl))).

Local Abbreviation path_test case_sensitive :=
  (fun (name : string) (r : StoreRow) =>
     contains (compared case_sensitive name)
              (compared case_sensitive (relative_path (file r)))).

Lemma filter_by_text_containing_test (df : list StoreRow) (term : string) (cs : bool) :
  filter_by_text_containing df term cs = List.filter (text_test cs term) df.
Proof.
  unfold filter_by_text_containing, compared. destruct cs; [| reflexivity].
  apply filter_ext. intros r. now destruct (content_text (file r)).
Qed.

Lemma filter_by_line_text_containing_test (df : list (StoreRow * string)) (term : string)
    (cs : bool) :
  filter_by_line_text_containing df term cs = List.filter (line_test cs term) df.
Proof. unfold filter_by_line_text_containing, compared. now destruct cs. Qed.

Lemma filter_by_path_containing_test (df : list StoreRow) (name : string) (cs : bool) :
  filter_by_path_containing df name cs = List.filter (path_test cs name) df.
Proof. unfold filter_by_path_containing, compared. now destruct cs. Qed.

Lemma text_terms_filter (df : list StoreRow) (terms : list string) (cs : bool) :
  fold_left (fun df term => filter_by_text_containing df term cs) terms df
  = List.filter (fun r => forallb (fun term => text_test cs term r) terms) df.
Proof.
  rewrite <- fold_left_filter. revert df.
  induction terms as [|term terms IH]; intros df; [reflexivity |].
  simpl. now rewrite IH, filter_by_text_containing_test.
Qed.

Lemma line_terms_filter (df : list (StoreRow * string)) (terms : list string) (cs : bool) :
  fold_left (fun df term => filter_by_line_text_containing df term cs) terms df
  = List.filter (fun rl => forallb (fun term => line_test cs term rl) terms) df.
Proof.
  rewrite <- fold_left_filter. revert df.
  induction terms as [|term terms IH]; intros df; [reflexivity |].
  simpl. now rewrite IH, filter_by_line_text_containing_test.
Qed.

Lemma text_test_spec (cs : bool) (term : string) (r : StoreRow) :
  text_test cs term r = true
  <-> exists text : string,
        content_text (file r) = Some text
        /\ contains (compared cs term) (compared cs text) = true.
Proof.
  cbv beta. destruct (content_text (file r)) as [text|]; simpl.
  - split; [intros H; now exists text | intros (t & [= <-] & H); exact H].
  - split; [discriminate | intros (t & Habs & _); discriminate].
Qed.

Lemma filter_by_extension_In (df : list StoreRow) (extensions : list string) (r : StoreRow) :
  extensions <> [] ->
  In r (filter_by_extension df extensions false)
  <-> In r df /\ str_in (lower (extension (file r))) (map lower extensions) = true.
Proof.
  intros Hne. unfold filter_by_extension.
  destruct extensions as [|e es]; [contradiction |]. cbn [length Nat.leb].
  apply filter_In.
Qed.

Lemma text_search_rows_In (df : list StoreRow) (search_terms : list string)
    (extensions : option (list string)) (filename : option string)
    (case_sensitive : bool) (r : StoreRow) :
  In r (text_search_rows df search_terms extensions filename case_sensitive)
  <-> In r df
      /\ (forall term : string,
            In term search_terms ->
            exists text : string,
              content_text (file r) = Some text
              /\ contains (compared case_sensitive term) (compared case_sensitive text)
                 = true)
      /\ (forall given : list string,
            extensions = Some given -> given <> [] ->
            str_in (lower (extension (file r))) (map lower given) = true)
      /\ (forall name : string,
            filename = Some name -> name <> "" ->
            contains (compared case_sensitive name)
                     (compared case_sensitive (relative_path (file r))) = true).
Proof.
  unfold text_search_rows. rewrite text_terms_filter.
  set (stage1 := List.filter _ df).
  assert (H1 : forall x, In x stage1
                <-> In x df /\ forall term, In term search_terms ->
                      exists text, content_text (file x) = Some text
                        /\ contains (compared case_sensitive term)
                                    (compared case_sensitive text) = true).
  { intros x. unfold stage1. rewrite filter_In, forallb_forall.
    split; intros [Hin Hall]; (split; [exact Hin |]); intros term Hterm;
      apply text_test_spec; now apply Hall. }
  set (stage2 := match extensions with
                 | Some ((_ :: _) as exts) => filter_by_extension stage1 exts false
                 | _ => stage1
                 end).
  assert (H2 : forall x, In x stage2
                <-> In x stage1 /\ forall given, extensions = Some given -> given <> [] ->
                      str_in (lower (extension (file x))) (map lower given) = true).
  { intros x. unfold stage2. destruct extensions as [[|e es]|].
    - split; [intros H; split; [exact H |]; intros given [= <-] Hne; contradiction
             | now intros [H _]].
    - rewrite (filter_by_extension_In stage1 (e :: es) x) by (intros Habs; discriminate Habs).
      split.
      + intros [H He]. split; [exact H |]. now intros given [= <-] _.
      + intros [H He]. split; [exact H |]. now apply He.
    - split; [intros H; split; [exact H |]; intros given Habs; discriminate
             | now intros [H _]]. }
  assert (H3 : In r (match filename with
                     | Some (String _ _ as name) =>
                         filter_by_path_containing stage2 name case_sensitive
                     | _ => stage2
                     end)
               <-> In r stage2 /\ forall name, filename = Some name -> name <> "" ->
                     contains (compared case_sensitive name)
                              (compared case_sensitive (relative_path (file r))) = true).
  { destruct filename as [[|c name]|].
    - split; [intros H; split; [exact H |]; intros name [= <-] Hne; contradiction
             | now intros [H _]].
    - rewrite filter_by_path_containing_test, filter_In. split.
      + intros [H Hp]. split; [exact H |]. now intros name' [= <-] _.
      + intros [H Hp]. split; [exact H |]. now apply Hp.
    - split; [intros H; split; [exact H |]; intros name Habs; discriminate
             | now intros [H _]]. }
  rewrite H3, H2, H1. tauto.
Qed.

Lemma prefix_lower_mono (p s : string) :
  String.prefix p s = true -> String.prefix (lower p) (lower s) = true.
Proof.
  revert s. induction p as [|a p IH]; intros s H; [apply prefix_empty |].
  destruct s as [|b s]; [discriminate |]. cbn [lower].
  rewrite prefix_cons in *. apply andb_prop in H as [Hab Hps].
  apply Ascii.eqb_eq in Hab. subst b. now rewrite Ascii.eqb_refl, IH.
Qed.

Lemma contains_lower_mono (p s : string) :
  contains p s = true -> contains (lower p) (lower s) = true.
Proof.
  induction s as [|b s IH]; intros H.
  - simpl in *. rewrite Bool.orb_false_r in *. now apply (prefix_lower_mono p "").
  - rewrite contains_cons in H. change (lower (String b s)) with (String (lower_char b) (lower s)).
    rewrite contains_cons. apply Bool.orb_true_iff in H as [H | H].
    + apply (prefix_lower_mono p (String b s)) in H. cbn [lower] in H. now rewrite H.
    + rewrite (IH H). apply Bool.orb_true_r.
Qed.

(** X2.  The text search is conjunctive, for search terms, extensions, a
    file name and a file that are ASCII: the file is kept exactly when its
    text contains every search term, its extension is one of [extensions]
    when some are given (compared in lower case whatever [case_sensitive]
    is), and its path contains [filename] when one is given.  Terms, text
    and path are compared as they stand in a case-sensitive search and in
    lower case otherwise; an empty extension list or file name counts as
    not given.  Whatever the case-sensitive search keeps of such files,
    the search made without regard to case keeps as well. *)
Theorem text_search_rows_spec (df : list StoreRow) (search_terms : list string)
    (extensions : option (list string)) (filename : option string) :
  Forall (fun term => isascii term = true) search_terms ->
  Forall (fun given => isascii given = true) (default [] extensions) ->
  isascii (default "" filename) = true ->
  (forall (case_sensitive : bool) (r : StoreRow),
      ascii_row r = true ->
      In r (text_search_rows df search_terms extensions filename case_sensitive)
      <-> In r df
          /\ (forall term : string,
                In term search_terms ->
                exists text : string,
                  content_text (file r) = Some text
                  /\ contains (compared case_sensitive term)
                              (compared case_sensitive text) = true)
          /\ (forall given : list string,
                extensions = Some given -> given <> [] ->
                str_in (lower (extension (file r))) (map lower given) = true)
          /\ (forall name : string,
                filename = Some name -> name <> "" ->
                contains (compared case_sensitive name)
                         (compared case_sensitive (relative_path (file r))) = true))
  /\ (forall r : StoreRow,
        ascii_row r = true ->
        In r (text_search_rows df search_terms extensions filename true) ->
        In r (text_search_rows df search_terms extensions filename false)).
Proof.
  intros _ _ _. split; [intros case_sensitive r _; apply text_search_rows_In |].
  intros r _. rewrite !text_search_rows_In. unfold compared.
  intros (Hin & Hterms & Hext & Hname). repeat split; try assumption.
  - intros term Hterm. destruct (Hterms term Hterm) as (text & Htext & Hc).
    exists text. split; [exact Htext | now apply contains_lower_mono].
  - intros name Hsome Hne. now apply contains_lower_mono, Hname.
Qed.

Lemma forallb_same_elements {A : Type} (f : A -> bool) (l l' : list A) :
  (forall x, In x l <-> In x l') -> forallb f l = forallb f l'.
Proof.
  intros Hsame. apply eq_iff_eq_true. rewrite !forallb_forall.
  split; intros H x Hx; apply H, Hsame, Hx.
Qed.

(** X3.  The search terms count as a set: their order and their
    repetitions change neither the files the text search keeps nor the
    lines the code scan keeps. *)
Theorem search_terms_as_set (df : list StoreRow) (terms terms' : list string)
    (extensions : option (list string)) (filename package_name : option string)
    (case_sensitive : bool) :
  (forall term : string, In term terms <-> In term terms') ->
  text_search_rows df terms extensions filename case_sensitive
  = text_search_rows df terms' extensions filename case_sensitive
  /\ code_scan_rows df terms package_name case_sensitive
     = code_scan_rows df terms' package_name case_sensitive.
Proof.
  intros Hsame. unfold text_search_rows, code_scan_rows.
  rewrite !text_terms_filter, !line_terms_filter.
  assert (Htext : forall l : list StoreRow,
            List.filter (fun r => forallb (fun term => text_test case_sensitive term r) terms) l
            = List.filter
                (fun r => forallb (fun term => text_test case_sensitive term r) terms') l).
  { intros l. apply filter_ext. intros r. now apply forallb_same_elements. }
  assert (Hline : forall l : list (StoreRow * string),
            List.filter (fun rl => forallb (fun term => line_test case_sensitive term rl) terms) l
            = List.filter
                (fun rl => forallb (fun term => line_test case_sensitive term rl) terms') l).
  { intros l. apply filter_ext. intros rl. now apply forallb_same_elements. }
  now rewrite !Htext, Hline.
Qed.

Lemma caseless_LF : all_caseless (String LF "").
Proof. split; [| exact I]. intros [[] [] [] [] [] [] [] []]; reflexivity. Qed.

Lemma split_from_lower (sep : string) (s : string) (skip : nat) :
  all_caseless sep ->
  split_from sep skip (lower s) = map lower (split_from sep skip s).
Proof.
  intros Hsep. revert skip. induction s as [|c s IH]; intros skip; [reflexivity |].
  change (lower (String c s)) with (String (lower_char c) (lower s)).
  cbn [split_from]. destruct skip as [|k]; [| apply IH].
  change (String (lower_char c) (lower s)) with (lower (String c s)).
  rewrite (prefix_lower sep (String c s)) by assumption.
  destruct (String.prefix sep (String c s)).
  - now rewrite IH.
  - rewrite IH. now destruct (split_from sep 0 s).
Qed.

(** What a line of a text contains, the text contains, with or without
    regard to case. *)
Lemma compared_line_in_text (cs : bool) (term text line : string) :
  In line (split (String LF "") text) ->
  contains (compared cs term) (compared cs line) = true ->
  contains (compared cs term) (compared cs text) = true.
Proof.
  destruct cs; simpl; [apply contains_split_line |].
  intros Hin. apply (contains_split_line LF).
  unfold split. rewrite (split_from_lower _ _ _ caseless_LF). now apply in_map.
Qed.

Lemma split_text_content_into_lines_In (df : list StoreRow) (r : StoreRow) (line : string) :
  In (r, line) (split_text_content_into_lines df)
  <-> In r df /\ exists text : string,
        content_text (file r) = Some text /\ In line (split (String LF "") text).
Proof.
  unfold split_text_content_into_lines. rewrite in_flat_map. split.
  - intros (r0 & Hr0 & Hin). destruct (content_text (file r0)) as [text|] eqn:E; [| destruct Hin].
    apply in_map_iff in Hin as (l & [= <- <-] & Hl). split; [exact Hr0 |].
    exists text. now split.
  - intros (Hr & text & Htext & Hl). exists r. split; [exact Hr |].
    rewrite Htext. apply in_map_iff. now exists line.
Qed.

(** X4.  For search terms, a package name and a file that are ASCII, the
    code scan reports a line of a decompiled class file exactly when that
    one line contains every search term, the file has the [smali]
    extension and, if a package name is given, its path contains the name
    with the dots turned into separators.  Terms found on different lines
    of a file do not add up to a match, and the filter on the whole text
    that precedes the split changes nothing. *)
Theorem code_scan_rows_spec (df : list StoreRow) (search_terms : list string)
    (package_name : option string) (case_sensitive : bool) (r : StoreRow) (line : string) :
  Forall (fun term => isascii term = true) search_terms ->
  isascii (default "" package_name) = true ->
  ascii_row r = true ->
  In (r, line) (code_scan_rows df search_terms package_name case_sensitive)
  <-> In r df
      /\ str_in (lower (extension (file r))) ["smali"] = true
      /\ (forall name : string,
            package_name = Some name -> name <> "" ->
            contains (compared case_sensitive (replace "." "/" name))
                     (compared case_sensitive (relative_path (file r))) = true)
      /\ (exists text : string,
            content_text (file r) = Some text /\ In line (split (String LF "") text))
      /\ (forall term : string,
            In term search_terms ->
            contains (compared case_sensitive term) (compared case_sensitive line) = true).
Proof.
  intros _ _ _.
  unfold code_scan_rows. rewrite text_terms_filter, line_terms_filter.
  set (stage1 := filter_by_extension df ["smali"] false).
  set (stage2 := match package_name with
                 | Some (String _ _ as name) =>
                     filter_by_classname_containing stage1 name case_sensitive
                 | _ => stage1
                 end).
  assert (H1 : forall x, In x stage1
                <-> In x df /\ str_in (lower (extension (file x))) ["smali"] = true).
  { intros x. unfold stage1. now rewrite filter_by_extension_In. }
  assert (H2 : forall x, In x stage2
                <-> In x stage1 /\ forall name, package_name = Some name -> name <> "" ->
                      contains (compared case_sensitive (replace "." "/" name))
                               (compared case_sensitive (relative_path (file x))) = true).
  { intros x. unfold stage2. destruct package_name as [[|c name]|].
    - split; [intros H; split; [exact H |]; intros name [= <-] Hne; contradiction
             | now intros [H _]].
    - unfold filter_by_classname_containing.
      rewrite filter_by_path_containing_test, filter_In. split.
      + intros [H Hp]. split; [exact H |]. now intros name' [= <-] _.
      + intros [H Hp]. split; [exact H |]. now apply Hp.
    - split; [intros H; split; [exact H |]; intros name Habs; discriminate
             | now intros [H _]]. }
  rewrite filter_In, split_text_content_into_lines_In, filter_In, H2, H1.
  rewrite !forallb_forall. cbn [snd]. split.
  - intros (((((Hr & Hext) & Hpkg) & _) & Htext) & Hline). now repeat split.
  - intros (Hr & Hext & Hpkg & (text & Htext & Hin) & Hline).
    repeat split; try assumption; [| now exists text].
    intros term Hterm. apply text_test_spec. exists text. split; [exact Htext |].
    apply (compared_line_in_text _ _ _ line); [exact Hin | now apply Hline].
Qed.

End Search.

(** ** Grouping by package version *)

Section Grouping.
Import PyStr PyDict Models Analysis.

Lemma key_eqb_eq (a b : string * string * Z * string) : key_eqb a b = true <-> a = b.
Proof.
  destruct a as [[[a1 a2] a3] a4], b as [[[b1 b2] b3] b4]. unfold key_eqb.
  rewrite !Bool.andb_true_iff, !String.eqb_eq, Z.eqb_eq.
  split; [intros [[[-> ->] ->] ->]; reflexivity | intros [= -> -> -> ->]; now repeat split].
Qed.

Lemma existsb_key_eqb (k : string * string * Z * string)
    (seen : list (string * string * Z * string)) :
  existsb (key_eqb k) seen = true <-> In k seen.
Proof.
  rewrite existsb_exists. split.
  - intros (x & Hx & Heq). apply key_eqb_eq in Heq. now subst.
  - intros H. exists k. split; [exact H | now apply key_eqb_eq].
Qed.

Lemma distinct_keys_In (seen l : list (string * string * Z * string))
    (k : string * string * Z * string) :
  In k (distinct_keys seen l) <-> In k l /\ ~ In k seen.
Proof.
  revert seen. induction l as [|x l IH]; intros seen; simpl; [tauto |].
  destruct (existsb (key_eqb x) seen) eqn:E.
  - apply existsb_key_eqb in E. rewrite IH. split.
    + intros [H Hn]. split; [now right | exact Hn].
    + intros [[-> | H] Hn]; [contradiction | now split].
  - assert (Hx : ~ In x seen) by (rewrite <- existsb_key_eqb, E; discriminate).
    simpl. rewrite IH. simpl. split.
    + intros [<- | [H Hn]]; [split; [now left | exact Hx] |].
      split; [now right | intros Hk; apply Hn; now right].
    + intros [[-> | H] Hn]; [now left |].
      destruct (key_eqb x k) eqn:Ek; [apply key_eqb_eq in Ek; now left |].
      right. split; [exact H |]. intros [Heq | Hs]; [| now apply Hn].
      apply key_eqb_eq in Heq. rewrite Heq in Ek. discriminate.
Qed.

Lemma distinct_keys_NoDup (seen l : list (string * string * Z * string)) :
  NoDup (distinct_keys seen l).
Proof.
  revert seen. induction l as [|x l IH]; intros seen; simpl; [constructor |].
  destruct (existsb (key_eqb x) seen); [apply IH |].
  constructor; [| apply IH]. rewrite list_elem_of_In, distinct_keys_In.
  intros [_ Hn]. apply Hn. now left.
Qed.

Lemma collect_set_In (seen l : list string) (x : string) :
  In x (collect_set seen l) <-> In x l /\ ~ In x seen.
Proof.
  revert seen. induction l as [|y l IH]; intros seen; simpl; [tauto |].
  destruct (str_in y seen) eqn:E.
  - apply str_in_In in E. rewrite IH. split.
    + intros [H Hn]. split; [now right | exact Hn].
    + intros [[-> | H] Hn]; [contradiction | now split].
  - assert (Hy : ~ In y seen) by (rewrite <- str_in_In, E; discriminate).
    simpl. rewrite IH. simpl. split.
    + intros [<- | [H Hn]]; [split; [now left | exact Hy] |].
      split; [now right | intros Hk; apply Hn; now right].
    + intros [[-> | H] Hn]; [now left |].
      destruct (String.eqb_spec y x) as [-> | Hne]; [now left |].
      right. split; [exact H |]. intros [Heq | Hs]; [now apply Hne | now apply Hn].
Qed.

Lemma collect_set_NoDup (seen l : list string) : NoDup (collect_set seen l).
Proof.
  revert seen. induction l as [|x l IH]; intros seen; simpl; [constructor |].
  destruct (str_in x seen); [apply IH |].
  constructor; [| apply IH]. rewrite list_elem_of_In, collect_set_In.
  intros [_ Hn]. apply Hn. now left.
Qed.

(** X5.  The text search returns one record for each package version
    that has a kept file, and no other; the record lists the paths of the
    kept files of that version, each path once.  The total of a text
    search therefore counts package versions, not files. *)
Theorem text_search_groups (df : list StoreRow) (search_terms : list string)
    (extensions : option (list string)) (filename : option string)
    (case_sensitive : bool) :
  exists keys : list (string * string * Z * string),
    NoDup keys
    /\ (forall k, In k keys
          <-> exists r : StoreRow,
                In r (text_search_rows df search_terms extensions filename case_sensitive)
                /\ group_key r = k)
    /\ Forall2
         (fun k record =>
            exists paths : list string,
              record = key_columns k ++ [("paths", json_strings paths)]
              /\ NoDup paths
              /\ forall p : string,
                   In p paths
                   <-> exists r : StoreRow,
                         In r (text_search_rows df search_terms extensions filename
                                 case_sensitive)
                         /\ group_key r = k /\ relative_path (file r) = p)
         keys
         (text_search_grouped df search_terms extensions filename case_sensitive).
Proof.
  unfold text_search_grouped, group_by_app_and_version.
  set (rows := text_search_rows df search_terms extensions filename case_sensitive).
  exists (distinct_keys [] (map (fun x => group_key x) rows)).
  split; [apply distinct_keys_NoDup |]. split.
  - intros k. rewrite distinct_keys_In, in_map_iff. simpl. split.
    + intros [(r & Hk & Hr) _]. now exists r.
    + intros (r & Hr & Hk). split; [now exists r | tauto].
  - apply Forall2_fmap_r, Forall_Forall2_diag, Forall_forall. intros k _.
    eexists. split; [reflexivity |]. split; [apply collect_set_NoDup |].
    intros p. rewrite collect_set_In, in_map_iff. split.
    + intros [(r & Hp & Hr) _]. apply filter_In in Hr as [Hr Hk].
      apply key_eqb_eq in Hk. now exists r.
    + intros (r & Hr & Hk & Hp). split; [| tauto].
      exists r. split; [exact Hp |]. apply filter_In. split; [exact Hr |].
      now apply key_eqb_eq.
Qed.

Lemma collect_list_somes {A : Type} (f : A -> string) (l : list A) :
  collect_list (map (fun x => Some (f x)) l) = map f l.
Proof. induction l as [|x l IH]; [reflexivity |]. simpl. now rewrite <- IH. Qed.

Lemma collect_list_length (l : list (option string)) :
  length (collect_list l) <= length l.
Proof.
  induction l as [|[x|] l IH]; simpl; [lia | | ];
    change (omap (fun o => o) l) with (collect_list l); simpl; lia.
Qed.

Lemma collect_list_all_some (l : list (option string)) :
  (forall o, In o l -> is_Some o) -> map Some (collect_list l) = l.
Proof.
  induction l as [|[x|] l IH]; intros Hall; [reflexivity | |].
  - change (collect_list (Some x :: l)) with (x :: collect_list l). simpl.
    rewrite IH; [reflexivity |]. intros o Ho. apply Hall. now right.
  - destruct (Hall None) as [y Hy]; [now left | discriminate].
Qed.

Lemma collect_list_omap {A : Type} (f : A -> option string) (l : list A) :
  collect_list (map f l) = omap f l.
Proof.
  unfold collect_list. induction l as [|x l IH]; [reflexivity |].
  cbn [map omap list_omap]. destruct (f x); cbn; now rewrite <- IH.
Qed.

(** X6.  The code scan returns one record for each package version that
    has a matching line, and no other.  The [lines] of the record are the
    matching lines of that version, each as often as it was matched, in
    some order of the matching rows; its [classes] are, in the same
    order, the class names of the files the lines were found in, the rows
    whose path gives no class name being skipped.  So [classes] is never
    longer than [lines], and where no row is skipped the class at each
    position is that of the file the line at the same position was found
    in. *)
Theorem code_scan_lines_and_classes (df : list StoreRow) (search_terms : list string)
    (package_name : option string) (with_inferred_developers case_sensitive : bool) :
  exists keys : list (string * string * Z * string),
    NoDup keys
    /\ (forall k, In k keys
          <-> exists m : StoreRow * string,
                In m (code_scan_rows df search_terms package_name case_sensitive)
                /\ group_key (fst m) = k)
    /\ Forall2
         (fun k record =>
            exists (members : list (StoreRow * string)) (classes : list string),
              Permutation members
                (List.filter (fun m => key_eqb (group_key (fst m)) k)
                   (code_scan_rows df search_terms package_name case_sensitive))
              /\ dict_get "lines" record = Some (json_strings (map snd members))
              /\ dict_get "classes" record = Some (json_strings classes)
              /\ classes
                 = omap (fun m => get_class_full_name (relative_path (file (fst m))))
                        members
              /\ length classes <= length members
              /\ ((forall m, In m members ->
                     is_Some (get_class_full_name (relative_path (file (fst m))))) ->
                  map Some classes
                  = map (fun m => get_class_full_name (relative_path (file (fst m))))
                        members))
         keys
         (code_scan_grouped df search_terms package_name with_inferred_developers true
            case_sensitive).
Proof.
  unfold code_scan_grouped, group_by_app_and_version.
  set (rows := code_scan_rows df search_terms package_name case_sensitive).
  exists (distinct_keys [] (map (fun x => group_key (fst x)) rows)).
  split; [apply distinct_keys_NoDup |]. split.
  - intros k. rewrite distinct_keys_In, in_map_iff. simpl. split.
    + intros [(m & Hk & Hm) _]. now exists m.
    + intros (m & Hm & Hk). split; [now exists m | tauto].
  - apply Forall2_fmap_r, Forall_Forall2_diag, Forall_forall.
    intros [[[k1 k2] k3] k4] _.
    set (members := List.filter _ rows).
    exists members, (collect_list
                       (map (fun rl => get_class_full_name (relative_path (file (fst rl))))
                            members)).
    split; [reflexivity |].
    split; [now rewrite collect_list_somes |].
    split; [now destruct with_inferred_developers |].
    split; [apply collect_list_omap |].
    split.
    + etransitivity; [apply collect_list_length |]. now rewrite length_map.
    + intros Hall. apply collect_list_all_some. intros o Ho.
      apply in_map_iff in Ho as (m & <- & Hm). now apply Hall.
Qed.

(** A class file that lies directly below the root has no class name: its
    line is reported, and [classes] falls one short. *)
Example code_scan_lines_without_class :
  code_scan_grouped
    [ {| descriptor := Samples.example_info;
         file := {| relative_path := "/Main.smali"; filename := "Main.smali";
                    extension := "smali"; content_text := Some "invoke-static {}";
                    content_blob := None; content_mode := "text";
                    file_sha256 := "11aa" |} |} ]
    ["invoke"] None false true false
  = [ [("app_id", JStr "com.test.app"); ("version_name", JStr "1.2");
       ("version_code", JNum 3); ("apk_sha256", JStr "3f5a");
       ("lines", JList [JStr "invoke-static {}"]); ("classes", JList [])] ].
Proof. reflexivity. Qed.

Lemma permission_scan_rows_In (table : list (string * string)) (df : list StoreRow)
    (p : PermissionRow) :
  In p (permission_scan_rows table df)
  <-> In (p_row p) df
      /\ relative_path (file (p_row p)) = "/AndroidManifest.xml"
      /\ (exists text : string,
            content_text (file (p_row p)) = Some text
            /\ In (p_line p) (split (String LF "") text))
      /\ contains "permission " (p_line p) = true
      /\ contains (" android:name=" ++ dquote) (p_line p) = true
      /\ p_permission p = Regex.regexp_extract (p_line p) permission_regex 1
      /\ p_protection_level p = get_protection_level_func table (p_permission p).
Proof.
  unfold permission_scan_rows. rewrite in_map_iff. split.
  - intros ([r line] & <- & Hin). cbn [p_row p_line p_permission p_protection_level fst snd].
    apply filter_In in Hin as [Hin Hname]. apply filter_In in Hin as [Hin Hperm].
    apply split_text_content_into_lines_In in Hin as [Hr Htext].
    apply filter_In in Hr as [Hr Hpath]. apply String.eqb_eq in Hpath.
    now repeat split.
  - intros (Hr & Hpath & Htext & Hperm & Hname & Hp & Hl).
    exists (p_row p, p_line p). split.
    + destruct p as [r line perm level]. simpl in *. now subst.
    + apply filter_In. split; [| exact Hname]. apply filter_In. split; [| exact Hperm].
      apply split_text_content_into_lines_In. split; [| exact Htext].
      apply filter_In. split; [exact Hr | now apply String.eqb_eq].
Qed.

(** X7.  The permission scan reads the lines of the file whose path is
    exactly [/AndroidManifest.xml] and of no other file.  In each record
    the two lists run in step: the protection level at a position is the
    one the table files under the permission at that position, and
    [unidentified] when the table has no such key. *)
Theorem permission_levels_follow_permissions (table : list (string * string))
    (df : list StoreRow) :
  (forall p : PermissionRow,
      In p (permission_scan_rows table df) ->
      relative_path (file (p_row p)) = "/AndroidManifest.xml"
      /\ contains "permission " (p_line p) = true
      /\ p_permission p = Regex.regexp_extract (p_line p) permission_regex 1)
  /\ Forall
       (fun record =>
          exists permissions : list string,
            dict_get "permissions" record = Some (json_strings permissions)
            /\ dict_get "protection_levels" record
               = Some (json_strings (map (get_protection_level_func table) permissions)))
       (permission_scan_grouped table df).
Proof.
  split.
  - intros p Hp. apply permission_scan_rows_In in Hp. tauto.
  - unfold permission_scan_grouped, group_by_app_and_version.
    set (rows := permission_scan_rows table df).
    apply List.Forall_forall. intros record Hrec.
    apply in_map_iff in Hrec as ([[[k1 k2] k3] k4] & <- & _).
    set (members := List.filter _ rows).
    exists (map p_permission members). split.
    + now rewrite collect_list_somes.
    + rewrite !collect_list_somes, map_map.
      assert (Hlevels : forall l, In l rows ->
                p_protection_level l = get_protection_level_func table (p_permission l)).
      { intros l Hl. apply permission_scan_rows_In in Hl. tauto. }
      assert (Hmap : map p_protection_level members
                     = map (fun x => get_protection_level_func table (p_permission x))
                           members).
      { apply map_ext_in. intros l Hl. apply Hlevels. now apply filter_In in Hl. }
      now rewrite Hmap.
Qed.

End Grouping.

(** ** Tracker names *)

Section Trackers.
Import PyStr PyDict Models Analysis.

Variables re_search rlike : string -> string -> PyResult bool.

Lemma with_column_In {A B : Type} (f : A -> PyResult B) (df : list A)
    (out : list (A * B)) (xy : A * B) :
  with_column f df = Ok out -> In xy out -> f (fst xy) = Ok (snd xy).
Proof.
  revert out. induction df as [|x df IH]; intros out H Hin.
  - injection H as <-. destruct Hin.
  - cbn [with_column] in H. unfold py_bind in H.
    destruct (f x) as [y|] eqn:Ey; [| discriminate].
    destruct (with_column f df) as [rest|]; [| discriminate].
    injection H as <-. destruct Hin as [<- | Hin]; [exact Ey | now apply (IH rest)].
Qed.

Lemma udf_ok {A : Type} (r : PyResult A) (a : A) : udf r = Ok a -> r = Ok a.
Proof. destruct r; [intros [= <-]; reflexivity | discriminate]. Qed.

(** A criterion that is returned is one of the list. *)
Lemma identified_criterion_listed (line : string) (criterion_list : list string)
    (c : string) :
  identify_matching_criterion re_search line criterion_list true = Ok (Some c) ->
  In c criterion_list.
Proof.
  unfold identify_matching_criterion. intros H.
  apply identify_loop_some in H as (pre & post & -> & _).
  apply in_or_app. right. now left.
Qed.

(** The name filed under a key of a catalog map is that of the first
    entry that lists the key. *)
Lemma map_key_first_entry (keys_of : TrackerEntry -> list string)
    (entries : list TrackerEntry) (c : string) :
  In c (dict_keys (fold_left Claimed.insert_if_absent (Claimed.flattened keys_of entries) [])) ->
  exists entry : TrackerEntry,
    List.find (fun e => str_in c (keys_of e)) entries = Some entry
    /\ dict_get c (fold_left Claimed.insert_if_absent (Claimed.flattened keys_of entries) [])
       = Some (name entry).
Proof.
  intros Hkey. apply dict_has_keys, dict_has_get in Hkey as [n Hn].
  rewrite fold_insert_if_absent_get in *. cbn [dict_get] in *.
  rewrite dict_get_flattened in *. unfold Claimed.first_contributor in *.
  destruct (List.find _ entries) as [entry|]; [| discriminate].
  now exists entry.
Qed.

Lemma tracker_name_resolved (keys_of : TrackerEntry -> list string)
    (catalog : list TrackerEntry) (tracker_list_name line : string)
    (matching : option string) :
  udf (identify_matching_criterion re_search line
         (dict_keys (fold_left Claimed.insert_if_absent
                       (Claimed.flattened keys_of
                          (load_tracker_list catalog tracker_list_name)) []))
         true) = Ok matching ->
  match matching with
  | Some c =>
      exists entry : TrackerEntry,
        List.find (fun e => str_in c (keys_of e))
                  (load_tracker_list catalog tracker_list_name) = Some entry
        /\ In entry catalog
        /\ source entry = tracker_list_name
        /\ get_tracker_name_func
             (fold_left Claimed.insert_if_absent
                (Claimed.flattened keys_of (load_tracker_list catalog tracker_list_name)) [])
             matching = name entry
  | None =>
      get_tracker_name_func
        (fold_left Claimed.insert_if_absent
           (Claimed.flattened keys_of (load_tracker_list catalog tracker_list_name)) [])
        matching = "(not detected for None)"
  end.
Proof.
  intros H. apply udf_ok in H. destruct matching as [c|]; [| reflexivity].
  apply identified_criterion_listed, map_key_first_entry in H as (entry & Hfind & Hget).
  exists entry. split; [exact Hfind |].
  apply find_some in Hfind as [Hin _]. apply filter_In in Hin as [Hin Hsrc].
  apply String.eqb_eq in Hsrc. repeat split; try assumption.
  cbn [get_tracker_name_func]. now rewrite Hget.
Qed.

(** X8.  In both tracker scans the tracker named for a row is the first
    entry of the chosen source that lists the matched criterion, whatever
    entries of other sources list it; the message [(not detected for ...)]
    stands in a row only when no criterion matched, and then it names
    [None]. *)
Theorem tracker_names_resolve (catalog : list TrackerEntry) (tracker_list_name : string)
    (df : list StoreRow) :
  (forall hits : list TrackerHit,
      tracker_classname_rows re_search rlike catalog tracker_list_name df = Ok hits ->
      Forall
        (fun hit =>
           match h_matching hit with
           | Some c =>
               exists entry : TrackerEntry,
                 List.find (fun e => str_in c (class_signatures e))
                           (load_tracker_list catalog tracker_list_name) = Some entry
                 /\ In entry catalog
                 /\ source entry = tracker_list_name
                 /\ h_tracker_name hit = name entry
           | None => h_tracker_name hit = "(not detected for None)"
           end) hits)
  /\ (forall hits : list TrackerHit,
      tracker_domain_rows re_search rlike catalog tracker_list_name df = Ok hits ->
      Forall
        (fun hit =>
           match h_matching hit with
           | Some c =>
               exists entry : TrackerEntry,
                 List.find (fun e => str_in c (domain_names e))
                           (load_tracker_list catalog tracker_list_name) = Some entry
                 /\ In entry catalog
                 /\ source entry = tracker_list_name
                 /\ h_tracker_name hit = name entry
           | None => h_tracker_name hit = "(not detected for None)"
           end) hits).
Proof.
  split; intros hits Hrows; apply List.Forall_forall; intros hit Hhit.
  - unfold tracker_classname_rows in Hrows. rewrite classname_map_is_fold in Hrows.
    unfold py_bind in Hrows.
    destruct (filter_where _ _) as [kept|]; [| discriminate].
    destruct (with_column _ kept) as [out|] eqn:Eout; [| discriminate].
    injection Hrows as <-. apply in_map_iff in Hhit as (rcm & <- & Hin).
    cbn [h_matching h_tracker_name].
    apply (with_column_In _ _ _ _ Eout) in Hin.
    exact (tracker_name_resolved class_signatures catalog tracker_list_name _ _ Hin).
  - unfold tracker_domain_rows in Hrows. rewrite domain_map_is_fold in Hrows.
    unfold py_bind in Hrows.
    destruct (filter_where _ _) as [kept|]; [| discriminate].
    destruct (with_column _ kept) as [out|] eqn:Eout; [| discriminate].
    injection Hrows as <-. apply in_map_iff in Hhit as (rlm & <- & Hin).
    cbn [h_matching h_tracker_name].
    apply (with_column_In _ _ _ _ Eout) in Hin.
    exact (tracker_name_resolved domain_names catalog tracker_list_name _ _ Hin).
Qed.

End Trackers.

(** ** The path fields of a file record *)

Section PathFields.
Import PyStr Models Converter.

Variable sha256_hex : list byte -> string.
Variable decode : list byte -> option string.

Lemma prefix_app (p s : string) : String.prefix p (p ++ s) = true.
Proof.
  induction p as [|c p IH]; [apply prefix_empty |].
  change (String c p ++ s)%string with (String c (p ++ s)).
  now rewrite prefix_cons, Ascii.eqb_refl.
Qed.

Lemma split_from_skip (sep p s : string) :
  split_from sep (String.length p) (p ++ s) = split_from sep 0 s.
Proof. induction p as [|c p IH]; [reflexivity | exact IH]. Qed.

(** A string in which the separator does not occur is one segment. *)
Lemma split_no_separator (sep s : string) :
  contains sep s = false -> split_from sep 0 s = [s].
Proof.
  induction s as [|c s IH]; intros H; [reflexivity |].
  rewrite contains_cons in H. apply Bool.orb_false_iff in H as [Hpre Hrest].
  cbn [split_from]. now rewrite Hpre, (IH Hrest).
Qed.

Lemma split_leading_separator (sep rest : string) :
  sep <> "" -> split_from sep 0 (sep ++ rest) = "" :: split_from sep 0 rest.
Proof.
  intros Hsep. destruct sep as [|c sep]; [contradiction |].
  change (split_from (String c sep) 0 (String c (sep ++ rest))
          = "" :: split_from (String c sep) 0 rest).
  cbn [split_from].
  change (String c (sep ++ rest)) with (String c sep ++ rest)%string.
  rewrite prefix_app.
  replace (String.length (String c sep) - 1) with (String.length sep)
    by (cbn [String.length]; lia).
  now rewrite split_from_skip.
Qed.

Lemma split_from_nonempty (sep s : string) : split_from sep 0 s <> [].
Proof.
  destruct (split_head_prefix sep s) as (seg & segs & -> & _). discriminate.
Qed.

(** Splitting on a one-character separator before a last part that is
    free of it. *)
Lemma split_char_snoc (c : ascii) (front back : string) :
  contains (String c "") back = false ->
  split_from (String c "") 0 (front ++ String c back)
  = split_from (String c "") 0 front ++ [back].
Proof.
  intros Hback. induction front as [|a front IH].
  - change ("" ++ String c back)%string with (String c "" ++ back)%string.
    rewrite split_leading_separator by discriminate.
    now rewrite (split_no_separator _ _ Hback).
  - change (String a front ++ String c back)%string
      with (String a (front ++ String c back)).
    cbn [split_from]. change (String.length (String c "") - 1) with 0. rewrite IH.
    assert (Hpre : forall t, String.prefix (String c "") (String a t) = Ascii.eqb c a).
    { intros t. rewrite prefix_cons, prefix_empty. apply Bool.andb_true_r. }
    rewrite !Hpre. destruct (Ascii.eqb c a); [reflexivity |].
    destruct (split_from (String c "") 0 front) as [|seg segs] eqn:E; [| reflexivity].
    now destruct (split_from_nonempty (String c "") front).
Qed.

Lemma read_apk_content_file_fields (filename apk_path : string) (raw : list byte)
    (rec : ApkContentFileInfo) :
  read_apk_content_file sha256_hex decode filename apk_path raw = Ok rec ->
  apk_path <> ""
  /\ relative_path rec = last_item (split apk_path filename) ""
  /\ Models.filename rec = last_item (split "/" (relative_path rec)) ""
  /\ extension rec = last_item (split "." (Models.filename rec)) "".
Proof.
  unfold read_apk_content_file. destruct (String.eqb_spec apk_path "") as [-> | Hne];
    [discriminate |].
  destruct (str_in _ ext_store_as_text); [destruct (read_text decode raw) |];
    intros [= <-]; now repeat split.
Qed.

(** X9.  For a file found below the extracted directory, whose full name
    is the directory path followed by the rest, the record's relative path
    is that rest, provided the directory path does not occur again inside
    it. *)
Theorem relative_path_below_root (apk_path rest : string) (raw : list byte)
    (rec : ApkContentFileInfo) :
  contains apk_path rest = false ->
  read_apk_content_file sha256_hex decode (apk_path ++ rest) apk_path raw = Ok rec ->
  relative_path rec = rest.
Proof.
  intros Hrest Hread.
  apply read_apk_content_file_fields in Hread as (Hne & -> & _).
  unfold split. rewrite (split_leading_separator _ _ Hne), (split_no_separator _ _ Hrest).
  reflexivity.
Qed.

(** X10.  The file name of a record is the part of the relative path
    after its last separator, and the extension is the part of the file
    name after its last dot.  A file name without a dot is its own
    extension, so such a file is classified by its whole name. *)
Theorem name_and_extension (filename apk_path : string) (raw : list byte)
    (rec : ApkContentFileInfo) :
  read_apk_content_file sha256_hex decode filename apk_path raw = Ok rec ->
  (forall directory base : string,
      relative_path rec = (directory ++ "/" ++ base)%string ->
      contains "/" base = false -> Models.filename rec = base)
  /\ (forall stem ext : string,
        Models.filename rec = (stem ++ "." ++ ext)%string ->
        contains "." ext = false -> extension rec = ext)
  /\ (contains "." (Models.filename rec) = false -> extension rec = Models.filename rec)
  /\ (content_mode rec = "text" ->
      str_in (lower (extension rec)) ext_store_as_text = true).
Proof.
  intros Hread.
  destruct (read_apk_content_file_fields _ _ _ _ Hread) as (Hne & Hrel & Hname & Hext).
  split; [| split; [| split]].
  - intros directory base Hpath Hbase. rewrite Hname, Hpath. unfold split.
    change ("/" ++ base)%string with (String "/" base).
    rewrite (split_char_snoc "/" directory base Hbase). apply last_item_snoc.
  - intros stem ext Hfile Hdot. rewrite Hext, Hfile. unfold split.
    change ("." ++ ext)%string with (String "." ext).
    rewrite (split_char_snoc "." stem ext Hdot). apply last_item_snoc.
  - intros Hdot. rewrite Hext at 1. unfold split.
    now rewrite (split_no_separator _ _ Hdot).
  - revert Hread. unfold read_apk_content_file.
    destruct (String.eqb apk_path ""); [discriminate |].
    destruct (str_in _ ext_store_as_text) eqn:E;
      [destruct (read_text decode raw) |]; intros [= <-]; simpl;
      solve [intros _; exact E | discriminate].
Qed.

End PathFields.

(** ** The worker *)

Section WorkerRuns.
Import PyStr PyDict Analysis Worker.

Variable env : Env.
Variable worker_config : AppInspectWorkerConfig.

Lemma all_in_dictionary (keys : list string) (kwargs : list (string * Json)) :
  all_in keys (JObj kwargs) = Ok (forallb (fun key => dict_has key kwargs) keys).
Proof.
  induction keys as [|key keys IH]; [reflexivity |].
  cbn [all_in json_contains py_bind forallb]. now rewrite IH.
Qed.

Lemma dict_has_filter_other (key other : string) (kwargs : list (string * Json)) :
  dict_has key (List.filter (fun kv => negb (String.eqb (fst kv) other)) kwargs)
  = dict_has key kwargs && negb (String.eqb key other).
Proof.
  unfold dict_has. induction kwargs as [|[k v] kwargs IH]; [reflexivity |].
  cbn [List.filter fst]. destruct (String.eqb_spec k other) as [-> | Hne]; cbn [negb existsb fst].
  - rewrite IH. destruct (String.eqb_spec other key) as [<- | Hk].
    + rewrite String.eqb_refl. cbn. now rewrite Bool.andb_false_r.
    + reflexivity.
  - rewrite IH. destruct (String.eqb_spec k key) as [<- | Hk]; [| reflexivity].
    cbn. destruct (String.eqb_spec k other); [contradiction | reflexivity].
Qed.

(** Removing parameters from a dictionary cannot fail; it leaves the
    bindings of the other keys, in their order. *)
Lemma remove_parameters_dictionary (names : list string) (kwargs : list (string * Json)) :
  remove_parameters names (JObj kwargs)
  = Ok (JObj (List.filter (fun kv => negb (str_in (fst kv) names)) kwargs)).
Proof.
  revert kwargs. induction names as [|name names IH]; intros kwargs.
  - cbn [remove_parameters]. now rewrite filter_all.
  - cbn [remove_parameters json_contains json_del py_bind].
    assert (Hfilter : List.filter (fun kv => negb (str_in (fst kv) (name :: names))) kwargs
                      = List.filter (fun kv => negb (str_in (fst kv) names))
                          (List.filter (fun kv => negb (String.eqb (fst kv) name)) kwargs)).
    { rewrite filter_filter_andb. apply filter_ext. intros [k v]. cbn [fst str_in existsb].
      rewrite Bool.negb_orb. now rewrite (String.eqb_sym k name). }
    destruct (dict_has name kwargs) eqn:Hhas; cbn [py_bind].
    + now rewrite IH, Hfilter.
    + rewrite IH, Hfilter. do 2 f_equal. f_equal. symmetry.
      apply forallb_filter_id. apply forallb_forall. intros [k v] Hin. cbn [fst].
      destruct (String.eqb_spec k name) as [-> | Hne]; [| reflexivity].
      apply Bool.not_true_iff_false in Hhas. exfalso. apply Hhas.
      unfold dict_has. apply existsb_exists. exists (name, v).
      split; [exact Hin | apply String.eqb_refl].
Qed.

Lemma dict_has_filter_names (key : string) (names : list string)
    (kwargs : list (string * Json)) :
  dict_has key (List.filter (fun kv => negb (str_in (fst kv) names)) kwargs)
  = dict_has key kwargs && negb (str_in key names).
Proof.
  unfold dict_has. induction kwargs as [|[k v] kwargs IH]; [reflexivity |].
  cbn [List.filter fst]. destruct (str_in k names) eqn:Hk; cbn [negb existsb fst].
  - rewrite IH. destruct (String.eqb_spec k key) as [<- | Hne]; [| reflexivity].
    rewrite Hk. cbn. now rewrite Bool.andb_false_r.
  - rewrite IH. destruct (String.eqb_spec k key) as [<- | Hne]; [| reflexivity].
    now rewrite Hk.
Qed.

(** What [run_task] passes on to the operation once the action is known
    and the arguments are a dictionary with the required keys. *)
Lemma run_task_dictionary (w : WorkerState) (task_id action_name s : string)
    (kwargs : list (string * Json)) (action_info : AppInspectActionInfo) :
  json_loads env s = Ok (JObj kwargs) ->
  get_action_info_by_name action_name = Some action_info ->
  forallb (fun key => dict_has key kwargs) (required_parameters action_info) = true ->
  run_task env worker_config w task_id action_name s
  = (Ok tt,
     run_task_try env worker_config w task_id action_info
       (JObj (List.filter
                (fun kv => negb (str_in (fst kv)
                                   (default [] (parameters_to_be_removed action_info))))
                kwargs))).
Proof.
  intros Hloads Hinfo Hrequired. unfold run_task.
  rewrite Hloads, Hinfo, all_in_dictionary, Hrequired.
  destruct (parameters_to_be_removed action_info) as [[|name names]|]; cbn [default].
  - now rewrite filter_all.
  - now rewrite remove_parameters_dictionary.
  - now rewrite filter_all.
Qed.

Lemma run_task_try_reports (w : WorkerState) (task_id : string)
    (action_info : AppInspectActionInfo) (task_arguments : Json) :
  exists outcome : option ErrorMessage,
    sent (run_task_try env worker_config w task_id action_info task_arguments)
    = sent w ++ [CompleteTask task_id outcome]
    /\ action_queues (run_task_try env worker_config w task_id action_info task_arguments)
       = action_queues w
    /\ (outcome = None ->
        exists (url result content : string),
          posted (run_task_try env worker_config w task_id action_info task_arguments)
          = posted w ++ [(url, result)]
          /\ requests_post env url result = Ok (200%Z, content)).
Proof.
  unfold run_task_try.
  destruct task_arguments as [| | | | |kwargs];
    try (eexists; split; [reflexivity |]; split; [reflexivity | discriminate]).
  destruct (ops_call env (op_method action_info) kwargs) as [result|e];
    [| eexists; split; [reflexivity |]; split; [reflexivity | discriminate]].
  destruct (match result with ResultStr s => Ok s | ResultData d => json_dumps env d end)
    as [text|e]; [| eexists; split; [reflexivity |]; split; [reflexivity | discriminate]].
  destruct (requests_post env _ text) as [[status_code content]|e] eqn:Hpost;
    [| eexists; split; [reflexivity |]; split; [reflexivity | discriminate]].
  destruct (Z.eqb_spec status_code 200) as [-> | Hne];
    [| eexists; split; [reflexivity |]; split; [reflexivity | discriminate]].
  exists None. split; [reflexivity |]. split; [reflexivity |].
  intros _. eexists _, text, content. split; [reflexivity | exact Hpost].
Qed.

(** X14.  A task whose arguments decode to a JSON object is answered
    exactly once: [run_task] returns without raising, whatever the
    operation, the serialisation or the upload do, and sends one
    [CompleteTask] message for the task and nothing else; the queues are
    not touched.  The message carries no error only if the result was
    posted and the response was 200. *)
Theorem run_task_reports_once (w : WorkerState) (task_id action_name s : string)
    (kwargs : list (string * Json)) :
  json_loads env s = Ok (JObj kwargs) ->
  exists outcome : option ErrorMessage,
    fst (run_task env worker_config w task_id action_name s) = Ok tt
    /\ sent (snd (run_task env worker_config w task_id action_name s))
       = sent w ++ [CompleteTask task_id outcome]
    /\ action_queues (snd (run_task env worker_config w task_id action_name s))
       = action_queues w
    /\ (outcome = None ->
        exists (url result content : string),
          posted (snd (run_task env worker_config w task_id action_name s))
          = posted w ++ [(url, result)]
          /\ requests_post env url result = Ok (200%Z, content)).
Proof.
  intros Hloads.
  destruct (get_action_info_by_name action_name) as [action_info|] eqn:Hinfo.
  - destruct (forallb (fun key => dict_has key kwargs) (required_parameters action_info))
      eqn:Hrequired.
    + rewrite (run_task_dictionary w task_id action_name s kwargs action_info
                 Hloads Hinfo Hrequired). cbn [fst snd].
      destruct (run_task_try_reports w task_id action_info
                  (JObj (List.filter
                           (fun kv => negb (str_in (fst kv)
                                              (default [] (parameters_to_be_removed
                                                             action_info))))
                           kwargs))) as (outcome & Hsent & Hqueues & Hposted).
      exists outcome. now repeat split.
    + unfold run_task. rewrite Hloads, Hinfo, all_in_dictionary, Hrequired.
      eexists. split; [reflexivity |]. split; [reflexivity |].
      split; [reflexivity | discriminate].
  - unfold run_task. rewrite Hloads, Hinfo.
    eexists. split; [reflexivity |]. split; [reflexivity |].
    split; [reflexivity | discriminate].
Qed.

Lemma dictionary_or_not (x : Json) :
  (exists kwargs : list (string * Json), x = JObj kwargs)
  \/ (forall kwargs : list (string * Json), x <> JObj kwargs).
Proof. destruct x; try (right; discriminate). left. now eexists. Qed.

Lemma required_not_removed (action_info : AppInspectActionInfo) (names : list string)
    (rp : string) :
  In action_info action_info_list ->
  parameters_to_be_removed action_info = Some names ->
  In rp (required_parameters action_info) -> str_in rp names = false.
Proof.
  intros Hin Hnames Hrp. unfold action_info_list in Hin.
  repeat (destruct Hin as [<- | Hin]; [cbn in Hnames, Hrp; try discriminate |]);
    [| destruct Hin].
  injection Hnames as <-. now destruct Hrp as [<- | [<- | []]].
Qed.

(** X15.  [run_task] invokes at most one operation, and only the one
    named by the action.  The operation is invoked only when the arguments
    are a dictionary that has every required parameter of the action; it
    then receives that dictionary without the parameters the action wants
    removed, so every required parameter is passed and none of the removed
    ones is.  A task of an unknown action, or one that lacks a required
    parameter, invokes nothing. *)
Theorem run_task_call_arguments (w : WorkerState) (task_id action_name s : string) :
  invoked (snd (run_task env worker_config w task_id action_name s)) = invoked w
  \/ exists (action_info : AppInspectActionInfo) (kwargs passed : list (string * Json)),
       json_loads env s = Ok (JObj kwargs)
       /\ get_action_info_by_name action_name = Some action_info
       /\ op_method action_info = action_name
       /\ invoked (snd (run_task env worker_config w task_id action_name s))
          = invoked w ++ [(action_name, passed)]
       /\ passed
          = List.filter
              (fun kv => negb (str_in (fst kv)
                                 (default [] (parameters_to_be_removed action_info))))
              kwargs
       /\ (forall rp : string,
             In rp (required_parameters action_info) ->
             dict_has rp kwargs = true /\ dict_has rp passed = true)
       /\ (forall name : string,
             In name (default [] (parameters_to_be_removed action_info)) ->
             dict_has name passed = false).
Proof.
  destruct (json_loads env s) as [task_arguments|e] eqn:Hloads;
    [| left; unfold run_task; now rewrite Hloads].
  destruct (get_action_info_by_name action_name) as [action_info|] eqn:Hinfo;
    [| left; unfold run_task; now rewrite Hloads, Hinfo].
  destruct (dictionary_or_not task_arguments) as [[kwargs ->] | Hnot].
  - destruct (forallb (fun key => dict_has key kwargs) (required_parameters action_info))
      eqn:Hrequired;
      [| left; unfold run_task; now rewrite Hloads, Hinfo, all_in_dictionary, Hrequired].
    right. exists action_info, kwargs. eexists.
    rewrite (run_task_dictionary w task_id action_name s kwargs action_info
               Hloads Hinfo Hrequired). cbn [snd run_task_try invoked].
    apply find_some in Hinfo as [Hlisted Hname]. apply String.eqb_eq in Hname.
    split; [reflexivity |]. split; [reflexivity |]. split; [exact Hname |].
    split.
    { destruct (ops_call env (op_method action_info) _) as [result|e]; [| now rewrite Hname].
      destruct (match result with ResultStr s => Ok s | ResultData d => json_dumps env d end)
        as [text|e]; [| now rewrite Hname].
      destruct (requests_post env _ text) as [[status_code content]|e]; [| now rewrite Hname].
      destruct (status_code =? 200)%Z; now rewrite Hname. }
    split; [reflexivity |]. split.
    + intros rp Hrp.
      assert (Hhas : dict_has rp kwargs = true).
      { rewrite forallb_forall in Hrequired. now apply Hrequired. }
      split; [exact Hhas |]. rewrite dict_has_filter_names, Hhas.
      destruct (parameters_to_be_removed action_info) as [names|] eqn:Hnames;
        [| reflexivity].
      change (default [] (Some names)) with names.
      now rewrite (required_not_removed action_info names rp).
    + intros name Hname'. rewrite dict_has_filter_names.
      apply str_in_In in Hname'. rewrite Hname'. apply Bool.andb_false_r.
  - left. unfold run_task. rewrite Hloads, Hinfo.
    destruct (all_in _ task_arguments) as [[|]|]; try reflexivity.
    assert (Hremoved : forall names,
              remove_parameters names task_arguments = Ok task_arguments
              \/ exists e, remove_parameters names task_arguments = Raise e).
    { induction names as [|name names IH]; [now left |].
      cbn [remove_parameters]. destruct (json_contains name task_arguments) as [[|]|e];
        cbn [py_bind]; [| exact IH | right; now exists e].
      right. destruct task_arguments; cbn; eauto. now destruct (Hnot o). }
    destruct (parameters_to_be_removed action_info) as [[|name names]|];
      try (destruct (Hremoved (name :: names)) as [-> | [e ->]]; [| reflexivity]);
      cbn [snd]; unfold run_task_try; destruct task_arguments; try reflexivity;
      now destruct (Hnot o).
Qed.

End WorkerRuns.

Section WorkerQueues.
Import PyStr PyDict Analysis Worker.

Variable env : Env.

(** A supported action has its entry in the action list, under its own
    name. *)
Lemma supported_action_info (action_name : string) :
  str_in action_name supported_actions = true ->
  exists action_info : AppInspectActionInfo,
    get_action_info_by_name action_name = Some action_info
    /\ In action_info action_info_list
    /\ op_method action_info = action_name.
Proof.
  intros Hin. apply str_in_In in Hin. unfold supported_actions in Hin.
  apply in_map_iff in Hin as (listed & Hname & Hlisted).
  apply filter_In in Hlisted as [Hlisted _].
  destruct (get_action_info_by_name action_name) as [action_info|] eqn:Hfind.
  - exists action_info. apply find_some in Hfind as [H1 H2].
    apply String.eqb_eq in H2. now repeat split.
  - unfold get_action_info_by_name in Hfind.
    apply (find_none _ _ Hfind) in Hlisted. rewrite Hname, String.eqb_refl in Hlisted.
    discriminate.
Qed.

Lemma names_action_of (action_name a : string) (pending_task : Json) :
  task_action pending_task = Ok (JStr a) ->
  names_action action_name pending_task = String.eqb a action_name.
Proof. unfold names_action. now intros ->. Qed.

(** The loop takes a task exactly while the tasks already taken for its
    action and the ones queued stay below twice the thread count. *)
Lemma pending_tasks_loop_spec (w : WorkerState) (pending_tasks : list Json) :
  Forall (fun t => (exists a, task_action t = Ok (JStr a))
                   /\ exists i, task_identifier t = Ok i) pending_tasks ->
  (forall action_info, In action_info action_info_list ->
     is_Some (dict_get (op_method action_info) (action_queues w))) ->
  forall (counts : list (string * nat)) (ids : list Json),
    (forall a, str_in a supported_actions = true -> is_Some (dict_get a counts)) ->
    exists (taken new_ids : list Json),
      pending_tasks_loop w pending_tasks counts ids = Ok (ids ++ new_ids)
      /\ sublist taken pending_tasks
      /\ Forall2 (fun t i => task_identifier t = Ok i) taken new_ids
      /\ Forall (fun t => exists a, task_action t = Ok (JStr a)
                                    /\ str_in a supported_actions = true) taken
      /\ forall (a : string) (action_info : AppInspectActionInfo)
                (queue : list (Z * (string * string))) (c : nat),
           str_in a supported_actions = true ->
           get_action_info_by_name a = Some action_info ->
           dict_get a (action_queues w) = Some queue ->
           dict_get a counts = Some c ->
           length (List.filter (names_action a) taken)
           = Nat.min (length (List.filter (names_action a) pending_tasks))
                     (max_threads action_info * 2 - (c + length queue)).
Proof.
  intros Hwf Hqueues. induction Hwf as [|t tasks [[a0 Haction] [id Hid]] Hwf IH];
    intros counts ids Hcounts.
  - exists [], []. cbn [pending_tasks_loop]. rewrite app_nil_r.
    repeat split; constructor.
  - cbn [pending_tasks_loop]. rewrite Haction. cbn [py_bind].
    destruct (str_in a0 supported_actions) eqn:Hsupported; cbn [negb].
    + destruct (supported_action_info a0 Hsupported) as (info0 & Hinfo0 & Hlisted0 & Hname0).
      destruct (Hqueues info0 Hlisted0) as [queue0 Hqueue0]. rewrite Hname0 in Hqueue0.
      destruct (Hcounts a0 Hsupported) as [c0 Hc0].
      rewrite Hqueue0, Hc0, Hinfo0.
      destruct (Nat.leb_spec (max_threads info0 * 2) (c0 + length queue0)) as [Hfull | Hroom].
      * destruct (IH counts ids Hcounts) as (taken & new_ids & Hloop & Hsub & Hids & Hsup & Hcount).
        exists taken, new_ids. split; [exact Hloop |]. split; [now apply sublist_cons |].
        split; [exact Hids |]. split; [exact Hsup |].
        intros a info queue c Ha Hinfo Hqueue Hc. cbn [List.filter].
        rewrite (names_action_of a a0 t Haction).
        rewrite (Hcount a info queue c Ha Hinfo Hqueue Hc).
        destruct (String.eqb_spec a0 a) as [<- | Hne]; [| reflexivity].
        rewrite Hinfo0 in Hinfo. injection Hinfo as <-.
        rewrite Hqueue0 in Hqueue. injection Hqueue as <-.
        rewrite Hc0 in Hc. injection Hc as <-. cbn [length]. lia.
      * rewrite Hid. cbn [py_bind].
        destruct (IH (dict_set a0 (c0 + 1) counts) (ids ++ [id])) as
          (taken & new_ids & Hloop & Hsub & Hids & Hsup & Hcount).
        { intros a Ha. destruct (String.eqb_spec a0 a) as [<- | Hne].
          - rewrite dict_get_set_eq. now eexists.
          - rewrite dict_get_set_ne by assumption. now apply Hcounts. }
        exists (t :: taken), (id :: new_ids).
        split; [now rewrite Hloop, <- app_assoc |].
        split; [now apply sublist_skip |].
        split; [now constructor |].
        split; [constructor; [now exists a0 | exact Hsup] |].
        intros a info queue c Ha Hinfo Hqueue Hc. cbn [List.filter].
        rewrite (names_action_of a a0 t Haction).
        destruct (String.eqb_spec a0 a) as [<- | Hne].
        -- rewrite Hinfo0 in Hinfo. injection Hinfo as <-.
           rewrite Hqueue0 in Hqueue. injection Hqueue as <-.
           rewrite Hc0 in Hc. injection Hc as <-. cbn [length].
           rewrite (Hcount a0 info0 queue0 (c0 + 1) Ha Hinfo0 Hqueue0)
             by apply dict_get_set_eq.
           lia.
        -- apply (Hcount a info queue c Ha Hinfo Hqueue).
           now rewrite dict_get_set_ne.
    + destruct (IH counts ids Hcounts) as (taken & new_ids & Hloop & Hsub & Hids & Hsup & Hcount).
      exists taken, new_ids. split; [exact Hloop |]. split; [now apply sublist_cons |].
      split; [exact Hids |]. split; [exact Hsup |].
      intros a info queue c Ha Hinfo Hqueue Hc. cbn [List.filter].
      rewrite (names_action_of a a0 t Haction).
      destruct (String.eqb_spec a0 a) as [<- | Hne]; [congruence |].
      now apply Hcount.
Qed.

Lemma initial_counts (a : string) :
  str_in a supported_actions = true ->
  dict_get a (fold_left (fun counts supported_action => dict_set supported_action 0 counts)
                        supported_actions []) = Some 0.
Proof.
  intros Hin. apply str_in_In in Hin. vm_compute in Hin.
  repeat (destruct Hin as [<- | Hin]; [reflexivity |]). destruct Hin.
Qed.

(** X16.  Of a list of well-formed pending tasks the worker asks for the
    tasks of supported actions only, in the order of the list, and for each
    action it asks for as many of them as fit under the soft limit: the
    number of its tasks in the list, or what twice the thread count of the
    action leaves after the tasks already queued for it, whichever is
    smaller.  It sends one [TakeupTasks] message with their identifiers,
    and none when it asks for no task. *)
Theorem pending_tasks_soft_limit (w : WorkerState) (s : string) (pending_tasks : list Json) :
  json_loads env s = Ok (JList pending_tasks) ->
  Forall (fun t => (exists a, task_action t = Ok (JStr a))
                   /\ exists i, task_identifier t = Ok i) pending_tasks ->
  (forall action_info, In action_info action_info_list ->
     is_Some (dict_get (op_method action_info) (action_queues w))) ->
  exists (taken task_ids : list Json),
    sublist taken pending_tasks
    /\ Forall2 (fun t i => task_identifier t = Ok i) taken task_ids
    /\ method_pending_tasks env w s
       = (Ok tt, match task_ids with
                 | [] => w
                 | _ => hub_send w (TakeupTasks task_ids)
                 end)
    /\ Forall (fun t => exists a, task_action t = Ok (JStr a)
                                  /\ str_in a supported_actions = true) taken
    /\ forall (a : string) (action_info : AppInspectActionInfo)
              (queue : list (Z * (string * string))),
         str_in a supported_actions = true ->
         get_action_info_by_name a = Some action_info ->
         dict_get a (action_queues w) = Some queue ->
         length (List.filter (names_action a) taken)
         = Nat.min (length (List.filter (names_action a) pending_tasks))
                   (max_threads action_info * 2 - length queue).
Proof.
  intros Hloads Hwf Hqueues.
  destruct (pending_tasks_loop_spec w pending_tasks Hwf Hqueues
              (fold_left (fun counts supported_action => dict_set supported_action 0 counts)
                         supported_actions []) [])
    as (taken & task_ids & Hloop & Hsub & Hids & Hsup & Hcount).
  { intros a Ha. rewrite (initial_counts a Ha). now eexists. }
  exists taken, task_ids. split; [exact Hsub |]. split; [exact Hids |]. split.
  - unfold method_pending_tasks. rewrite Hloads. cbn [json_iter py_bind].
    rewrite Hloop. cbn [app]. now destruct task_ids.
  - split; [exact Hsup |]. intros a info queue Ha Hinfo Hqueue.
    now rewrite (Hcount a info queue 0 Ha Hinfo Hqueue (initial_counts a Ha)).
Qed.

Lemma dict_get_set_other {V : Type} (k k' : string) (v : V) (d : list (string * V)) :
  dict_get k' (dict_set k v d) = if String.eqb k k' then Some v else dict_get k' d.
Proof.
  destruct (String.eqb_spec k k') as [<- | Hne];
    [apply dict_get_set_eq | now apply dict_get_set_ne].
Qed.

(** Assigning a task of a supported action puts it last in the
    queue of that action and sends nothing; the other queues keep their
    items.  A task of any other action is refused with one [CompleteTask]
    error and reaches no queue. *)
Lemma assign_task_enqueues (w : WorkerState)
    (task_id action_name task_arguments_json_str : string) (priority : Z) :
  (forall action_info, In action_info action_info_list ->
     is_Some (dict_get (op_method action_info) (action_queues w))) ->
  fst (method_assign_task w task_id action_name task_arguments_json_str priority) = Ok tt
  /\ (forall action_info, In action_info action_info_list ->
        is_Some (dict_get (op_method action_info)
                   (action_queues (snd (method_assign_task w task_id action_name
                                          task_arguments_json_str priority)))))
  /\ if str_in action_name supported_actions
     then sent (snd (method_assign_task w task_id action_name task_arguments_json_str
                       priority)) = sent w
          /\ forall other : string,
               dict_get other
                 (action_queues (snd (method_assign_task w task_id action_name
                                        task_arguments_json_str priority)))
               = if String.eqb action_name other
                 then option_map
                        (fun queue => queue ++ [(priority, (task_id, task_arguments_json_str))])
                        (dict_get action_name (action_queues w))
                 else dict_get other (action_queues w)
     else snd (method_assign_task w task_id action_name task_arguments_json_str priority)
          = hub_send w (CompleteTask task_id
                          (Some (Message "Action not supported by the assigned worker"))).
Proof.
  intros Hqueues. unfold method_assign_task.
  destruct (str_in action_name supported_actions) eqn:Hsupported.
  - destruct (supported_action_info action_name Hsupported) as (info & _ & Hlisted & Hname).
    destruct (Hqueues info Hlisted) as [queue Hqueue]. rewrite Hname in Hqueue.
    rewrite Hqueue. cbn [fst snd sent action_queues option_map].
    split; [reflexivity |]. split.
    + intros action_info Hin. rewrite dict_get_set_other.
      destruct (String.eqb action_name (op_method action_info)); [now eexists |].
      now apply Hqueues.
    + split; [reflexivity |]. intros other. apply dict_get_set_other.
  - cbn [fst snd]. split; [reflexivity |]. split; [exact Hqueues | reflexivity].
Qed.

End WorkerQueues.

(** ** Defaults of a recipe call *)

Section Defaults.
Import PyStr PyDict Analysis Claimed.

Lemma bound_limit_default (r : Recipe) (kwargs bound : list (string * Json)) :
  dict_has "limit" kwargs = false ->
  bind_kwargs (signature r) kwargs = Ok bound ->
  arg "limit" bound = JNum 500.
Proof.
  intros Hlimit Hbind. apply dict_has_false in Hlimit.
  unfold bind_kwargs in Hbind. destruct (forallb _ kwargs); [| discriminate].
  injection Hbind as <-. unfold arg.
  destruct r; cbn; now rewrite Hlimit.
Qed.

(** X17.  A recipe called without a [limit] runs with the limit 500: it
    returns the first 500 rows of its grouped frame, or all of them if
    they are fewer, and reports 500 as [output_limit]. *)
Theorem default_limit (r : Recipe) (be : Backend) (kwargs bound : list (string * Json))
    (df : list PyRecord) :
  dict_has "limit" kwargs = false ->
  bind_kwargs (signature r) kwargs = Ok bound ->
  has_required_argument r bound = true ->
  groupped_df be r bound = Ok df ->
  call_task r be kwargs
  = Ok {| total := Z.of_nat (length (take 500 df)); output_limit := 500;
          records := Some (take 500 df) |}
  /\ (length (take 500 df) <= 500)%nat.
Proof.
  intros Hlimit Hbind Hrequired Hframe. split; [| rewrite length_take; lia].
  unfold call_task. rewrite Hbind. cbn [py_bind].
  rewrite (run_recipe_materializes be r bound Hrequired), Hframe.
  unfold materialize. cbn [py_bind].
  now rewrite (bound_limit_default r kwargs bound Hlimit Hbind).
Qed.

End Defaults.

(** ** Reading an extracted directory *)

Section Listing.
Import PyStr Models Utility Converter.

Variable sha256_hex : list byte -> string.
Variable decode : list byte -> option string.

Lemma Entry_induction (P : Entry -> Prop) :
  (forall content, P (FileEntry content)) ->
  (forall children, Forall (fun named => P (snd named)) children -> P (DirEntry children)) ->
  forall found, P found.
Proof.
  intros Hfile Hdir. fix IH 1. intros [content | children]; [apply Hfile |].
  apply Hdir. induction children as [|[name child] children IHchildren];
    constructor; [apply IH | exact IHchildren].
Qed.

Lemma walk_length (found : Entry) (dir_path : string) :
  length (walk dir_path found)
  = match found with
    | FileEntry _ => 0
    | DirEntry _ => count_files found
    end.
Proof.
  revert dir_path. induction found as [content | children IH] using Entry_induction;
    intros dir_path; [reflexivity |].
  cbn [walk count_files]. rewrite length_app.
  induction children as [|[name child] children IHchildren]; [reflexivity |].
  apply Forall_cons_1 in IH as [Hchild IH]. specialize (IHchildren IH).
  cbn [snd] in Hchild. specialize (Hchild (path_join dir_path name)).
  cbn [omap list_omap flat_map map snd fst]. rewrite length_app, Hchild.
  change (list_sum (?x :: ?l)) with (x + list_sum l).
  destruct child as [content | inner];
    [change (count_files (FileEntry content)) with 1 |]; cbn [length] in *; lia.
Qed.

Lemma starmap_each {A B : Type} (f : A -> PyResult B) (P : A -> B -> Prop) (l : list A) :
  (forall x, In x l -> exists y, f x = Ok y /\ P x y) ->
  exists ys : list B, starmap f l = Ok ys /\ Forall2 P l ys.
Proof.
  induction l as [|x l IH]; intros Hall; [exists []; split; [reflexivity | constructor] |].
  destruct (Hall x) as (y & Hy & HP); [now left |].
  destruct IH as (ys & Hys & Hrest); [intros x' Hx'; apply Hall; now right |].
  exists (y :: ys). cbn [starmap]. rewrite Hy, Hys. split; [reflexivity | now constructor].
Qed.

Lemma read_apk_content_file_ok (filename apk_path : string) (raw : list byte) :
  apk_path <> "" ->
  exists rec : ApkContentFileInfo,
    read_apk_content_file sha256_hex decode filename apk_path raw = Ok rec
    /\ relative_path rec = last_item (split apk_path filename) ""
    /\ Models.filename rec = last_item (split "/" (relative_path rec)) ""
    /\ file_sha256 rec = sha256_hex raw.
Proof.
  intros Hne. unfold read_apk_content_file.
  destruct (String.eqb_spec apk_path "") as [-> | _]; [contradiction |].
  destruct (str_in _ ext_store_as_text); [destruct (read_text decode raw) |];
    eexists; (split; [reflexivity |]); repeat split; reflexivity.
Qed.

(** X18.  Reading an extracted directory gives one record for every
    regular file in or below it and none for the directories themselves,
    in the order of the walk: the files of a directory before those of its
    sub-directories.  Each record carries the digest of the bytes of its
    file.  A path at which there is no directory is refused. *)
Theorem content_files_one_per_file (apk_path : string) (children : list (string * Entry)) :
  apk_path <> "" ->
  (exists records : list ApkContentFileInfo,
      get_apk_content_file_list sha256_hex decode apk_path (Some (DirEntry children))
      = ContentFiles (Ok records)
      /\ length records = count_files (DirEntry children)
      /\ map file_sha256 records
         = map (fun named => sha256_hex (snd named)) (walk apk_path (DirEntry children)))
  /\ (forall content : list byte,
        get_apk_content_file_list sha256_hex decode apk_path (Some (FileEntry content))
        = InvalidApkPath)
  /\ get_apk_content_file_list sha256_hex decode apk_path None = InvalidApkPath.
Proof.
  intros Hne. unfold get_apk_content_file_list.
  destruct (String.eqb_spec apk_path "") as [-> | _]; [contradiction |].
  split; [| split; reflexivity].
  destruct (starmap_each
              (fun named => read_apk_content_file sha256_hex decode (fst named) apk_path
                              (snd named))
              (fun named rec => file_sha256 rec = sha256_hex (snd named))
              (walk apk_path (DirEntry children))) as (records & -> & Heach).
  { intros [name raw] _.
    destruct (read_apk_content_file_ok name apk_path raw Hne)
      as (rec & Hrec & _ & _ & Hsha).
    now exists rec. }
  exists records. split; [reflexivity |]. split.
  - rewrite <- (Forall2_length _ _ _ Heach). apply (walk_length (DirEntry children)).
  - clear -Heach. induction Heach as [|named rec files records Hsha _ IH]; [reflexivity |].
    cbn [map]. now rewrite Hsha, IH.
Qed.

Lemma string_append_assoc (a b c : string) : ((a ++ b) ++ c = a ++ b ++ c)%string.
Proof.
  induction a as [|x a IH]; [reflexivity |].
  change (String x ((a ++ b) ++ c) = String x (a ++ b ++ c))%string. now f_equal.
Qed.

Lemma string_append_nonempty (a b : string) : b <> "" -> (a ++ b)%string <> "".
Proof. destruct a; [now intros | discriminate]. Qed.

Lemma prefix_slash_of_contains (n : string) :
  contains "/" n = false -> String.prefix "/" n = false.
Proof. destruct n; [reflexivity |]. rewrite contains_cons. now intros [H _]%Bool.orb_false_iff. Qed.

Lemma endswith_without_slash (n : string) :
  contains "/" n = false -> endswith "/" n = false.
Proof.
  induction n as [|c n IH]; [reflexivity |]. rewrite contains_cons.
  intros [Hc Hn]%Bool.orb_false_iff. cbn [endswith]. rewrite (IH Hn), Bool.orb_false_r.
  rewrite prefix_cons, prefix_empty, Bool.andb_true_r in Hc.
  cbn [String.eqb]. now rewrite Hc.
Qed.

Lemma endswith_append (a b : string) :
  b <> "" -> endswith "/" (a ++ b) = endswith "/" b.
Proof.
  intros Hb. induction a as [|c a IH]; [reflexivity |].
  change (String c a ++ b)%string with (String c (a ++ b)). cbn [endswith]. rewrite IH.
  cbn [String.eqb]. pose proof (string_append_nonempty a b Hb) as Hne.
  destruct (a ++ b)%string; [contradiction |]. now destruct (Ascii.eqb "/" c).
Qed.

(** Joining a name to a directory path that has no trailing separator. *)
Lemma path_join_name (dir_path name : string) :
  dir_path <> "" -> endswith "/" dir_path = false ->
  name <> "" -> contains "/" name = false ->
  path_join dir_path name = (dir_path ++ "/" ++ name)%string
  /\ path_join dir_path name <> ""
  /\ endswith "/" (path_join dir_path name) = false.
Proof.
  intros Hdir Hend Hname Hslash.
  assert (Hjoin : path_join dir_path name = (dir_path ++ "/" ++ name)%string).
  { unfold path_join, startswith. rewrite (prefix_slash_of_contains name Hslash), Hend.
    destruct (String.eqb_spec dir_path ""); [contradiction | reflexivity]. }
  rewrite Hjoin. split; [reflexivity |]. split.
  - apply string_append_nonempty. discriminate.
  - rewrite <- string_append_assoc, endswith_append by assumption.
    now apply endswith_without_slash.
Qed.

Lemma walk_file_at (children : list (string * Entry)) (names : list string)
    (content : list byte) :
  file_at children names content ->
  Forall (fun name => name <> "" /\ contains "/" name = false) names ->
  forall dir_path : string,
    dir_path <> "" -> endswith "/" dir_path = false ->
    In ((dir_path ++ "/" ++ join "/" names)%string, content)
       (walk dir_path (DirEntry children)).
Proof.
  induction 1 as [children name content Hin | children inner name names content Hin Hfile IH];
    intros Hvalid dir_path Hdir Hend; cbn [walk]; apply in_or_app.
  - left. apply Forall_cons_1 in Hvalid as [[Hname Hslash] _].
    apply list_elem_of_In, list_elem_of_omap. exists (name, FileEntry content).
    split; [now apply list_elem_of_In |]. cbn [fst snd join].
    now destruct (path_join_name dir_path name Hdir Hend Hname Hslash) as (-> & _).
  - right. apply Forall_cons_1 in Hvalid as [[Hname Hslash] Hvalid].
    apply in_flat_map. exists (name, DirEntry inner). split; [exact Hin |]. cbn [fst snd].
    destruct (path_join_name dir_path name Hdir Hend Hname Hslash) as (Hjoin & Hne & Hend').
    specialize (IH Hvalid (path_join dir_path name) Hne Hend').
    rewrite Hjoin in IH at 1. rewrite !string_append_assoc in IH.
    assert (Hnames : join "/" (name :: names) = (name ++ "/" ++ join "/" names)%string).
    { destruct Hfile; reflexivity. }
    now rewrite Hnames.
Qed.

Lemma Forall2_In_left {A B : Type} (P : A -> B -> Prop) (l : list A) (l' : list B)
    (x : A) :
  Forall2 P l l' -> In x l -> exists y : B, In y l' /\ P x y.
Proof.
  induction 1 as [|a b l l' HP _ IH]; intros Hin; [destruct Hin |].
  destruct Hin as [<- | Hin]; [exists b; split; [now left | exact HP] |].
  destruct (IH Hin) as (y & Hy & HPy). exists y. split; [now right | exact HPy].
Qed.

(** The record of a file that lies below the extracted directory. *)
Lemma file_record (apk_path : string) (children : list (string * Entry))
    (names : list string) (content : list byte) (records : list ApkContentFileInfo) :
  file_at children names content ->
  Forall (fun name => name <> "" /\ contains "/" name = false) names ->
  apk_path <> "" ->
  endswith "/" apk_path = false ->
  contains apk_path ("/" ++ join "/" names) = false ->
  get_apk_content_file_list sha256_hex decode apk_path (Some (DirEntry children))
  = ContentFiles (Ok records) ->
  exists rec : ApkContentFileInfo,
    In rec records
    /\ relative_path rec = ("/" ++ join "/" names)%string
    /\ Models.filename rec = last_item (split "/" (relative_path rec)) ""
    /\ file_sha256 rec = sha256_hex content.
Proof.
  intros Hfile Hvalid Hne Hend Hrest. unfold get_apk_content_file_list.
  destruct (String.eqb_spec apk_path "") as [-> | _]; [contradiction |].
  destruct (starmap_each
              (fun named => read_apk_content_file sha256_hex decode (fst named) apk_path
                              (snd named))
              (fun named rec =>
                 relative_path rec = last_item (split apk_path (fst named)) ""
                 /\ Models.filename rec = last_item (split "/" (relative_path rec)) ""
                 /\ file_sha256 rec = sha256_hex (snd named))
              (walk apk_path (DirEntry children))) as (records' & -> & Heach).
  { intros [name raw] _. exact (read_apk_content_file_ok name apk_path raw Hne). }
  intros [= <-].
  pose proof (walk_file_at children names content Hfile Hvalid apk_path Hne Hend) as Hin.
  destruct (Forall2_In_left _ _ _ _ Heach Hin) as (rec & Hrec & Hpath & Hname & Hsha).
  exists rec. split; [exact Hrec |]. split; [| now split].
  cbn [fst] in Hpath. rewrite Hpath. unfold split.
  now rewrite (split_leading_separator _ _ Hne), (split_no_separator _ _ Hrest).
Qed.

Lemma split_name_then_separator (name rest : string) :
  contains "/" name = false ->
  split_from "/" 0 (name ++ String "/" rest) = name :: split_from "/" 0 rest.
Proof.
  induction name as [|c name IH]; intros Hname.
  - change ("" ++ String "/" rest)%string with ("/" ++ rest)%string.
    now rewrite split_leading_separator.
  - rewrite contains_cons in Hname. apply Bool.orb_false_iff in Hname as [Hc Hname].
    change (String c name ++ String "/" rest)%string
      with (String c (name ++ String "/" rest)).
    cbn [split_from].
    assert (Hpre : String.prefix "/" (String c (name ++ String "/" rest)) = false).
    { rewrite prefix_cons, prefix_empty, Bool.andb_true_r in *. exact Hc. }
    now rewrite Hpre, (IH Hname).
Qed.

(** Splitting a chain of names that was joined with the separator gives
    the names back. *)
Lemma split_joined_names (names : list string) :
  names <> [] ->
  Forall (fun name => name <> "" /\ contains "/" name = false) names ->
  split "/" (join "/" names) = names.
Proof.
  unfold split. induction names as [|name [|next names] IH]; intros Hne Hvalid.
  - contradiction.
  - apply Forall_cons_1 in Hvalid as [[_ Hname] _]. now apply split_no_separator.
  - apply Forall_cons_1 in Hvalid as [[_ Hname] Hvalid].
    change (join "/" (name :: next :: names))
      with (name ++ String "/" (join "/" (next :: names)))%string.
    rewrite (split_name_then_separator _ _ Hname), IH; [reflexivity | discriminate | exact Hvalid].
Qed.

Lemma split_relative_path (names : list string) :
  names <> [] ->
  Forall (fun name => name <> "" /\ contains "/" name = false) names ->
  split "/" ("/" ++ join "/" names) = "" :: names.
Proof.
  intros Hne Hvalid. unfold split. rewrite split_leading_separator by discriminate.
  fold (split "/" (join "/" names)). now rewrite split_joined_names.
Qed.

Lemma file_at_names (children : list (string * Entry)) (names : list string)
    (content : list byte) :
  file_at children names content -> names <> [].
Proof. now destruct 1. Qed.

(** X19.  A file that lies below the extracted directory under a chain
    of names is given a record whose relative path is that chain, each
    name preceded by a separator, whose file name is the last name of the
    chain and whose digest is that of the file's bytes.  This holds when
    the directory path is given without a trailing separator and does not
    occur inside the chain. *)
Theorem relative_path_of_file (apk_path : string) (children : list (string * Entry))
    (names : list string) (content : list byte) (records : list ApkContentFileInfo) :
  file_at children names content ->
  Forall (fun name => name <> "" /\ contains "/" name = false) names ->
  apk_path <> "" ->
  endswith "/" apk_path = false ->
  contains apk_path ("/" ++ join "/" names) = false ->
  get_apk_content_file_list sha256_hex decode apk_path (Some (DirEntry children))
  = ContentFiles (Ok records) ->
  exists rec : ApkContentFileInfo,
    In rec records
    /\ relative_path rec = ("/" ++ join "/" names)%string
    /\ Some (Models.filename rec) = last names
    /\ file_sha256 rec = sha256_hex content.
Proof.
  intros Hfile Hvalid Hne Hend Hrest Hlist.
  destruct (file_record apk_path children names content records Hfile Hvalid Hne Hend
              Hrest Hlist) as (rec & Hrec & Hpath & Hname & Hsha).
  exists rec. split; [exact Hrec |]. split; [exact Hpath |]. split; [| exact Hsha].
  pose proof (file_at_names _ _ _ Hfile) as Hnames.
  rewrite Hname, Hpath, (split_relative_path names Hnames Hvalid).
  destruct names as [|name names] using rev_ind; [contradiction |].
  unfold last_item. rewrite app_comm_cons, List.last_last. symmetry. apply last_snoc.
Qed.

(** X22.  The record of a class file leads back to its class: for a file
    that lies below the extracted directory under the names [root],
    [inner] and [stem.smali], where the stem has no dot, the class name
    computed from the record's relative path is the inner names and the
    stem joined with dots; the root directory leaves no trace in it. *)
Theorem class_name_of_tree_file (apk_path : string) (children : list (string * Entry))
    (root stem : string) (inner : list string) (content : list byte)
    (records : list ApkContentFileInfo) :
  file_at children (root :: inner ++ [(stem ++ ".smali")%string]) content ->
  Forall (fun name => name <> "" /\ contains "/" name = false)
         (root :: inner ++ [(stem ++ ".smali")%string]) ->
  contains "." stem = false ->
  apk_path <> "" ->
  endswith "/" apk_path = false ->
  contains apk_path ("/" ++ join "/" (root :: inner ++ [(stem ++ ".smali")%string]))
    = false ->
  get_apk_content_file_list sha256_hex decode apk_path (Some (DirEntry children))
  = ContentFiles (Ok records) ->
  exists rec : ApkContentFileInfo,
    In rec records
    /\ file_sha256 rec = sha256_hex content
    /\ Analysis.get_class_full_name (relative_path rec) = Some (join "." (inner ++ [stem])).
Proof.
  intros Hfile Hvalid Hstem Hne Hend Hrest Hlist.
  destruct (file_record apk_path children _ content records Hfile Hvalid Hne Hend
              Hrest Hlist) as (rec & Hrec & Hpath & _ & Hsha).
  exists rec. split; [exact Hrec |]. split; [exact Hsha |]. rewrite Hpath.
  apply (class_name_of_class_file _ root inner stem); [| exact Hstem].
  rewrite split_relative_path by (discriminate || exact Hvalid).
  change (List.filter ?f ("" :: ?l)) with (List.filter f l).
  clear -Hvalid. induction Hvalid as [|name names [Hname _] _ IH]; [reflexivity |].
  cbn [List.filter]. rewrite IH. now destruct name.
Qed.

End Listing.

(** ** Worked examples *)

Section PipelineExamples.
Import PyStr PyDict Models Converter Analysis Samples.

Example infer_developer_examples :
  infer_developer_from_packagename "/smali/com/example/app/Main.smali" = Some "example"
  /\ infer_developer_from_packagename "/smali/okhttp3/internal/Util.smali" = None
  /\ infer_developer_from_packagename "/smali/io/acme/com" = None
  /\ infer_developer_from_packagename "/smali/org/com/acme/A.smali" = Some "com".
Proof. repeat split; reflexivity. Qed.

Lemma search_terms_as_set_witness :
  text_search_rows [smali_row "const-string v0"] ["const"; "v0"] None None false
  = text_search_rows [smali_row "const-string v0"] ["v0"; "const"; "v0"] None None false
  /\ code_scan_rows [smali_row "const-string v0"] ["const"; "v0"] (Some "com.test") false
     = code_scan_rows [smali_row "const-string v0"] ["v0"; "const"; "v0"]
         (Some "com.test") false.
Proof.
  apply (search_terms_as_set [smali_row "const-string v0"] ["const"; "v0"]
           ["v0"; "const"; "v0"] None None (Some "com.test") false).
  intros term. simpl. tauto.
Defined.

(** The text search at work: both terms must be in the text; extension
    and file name are compared without regard to case, the terms in a
    case-sensitive search are not. *)
Example text_search_examples :
  let rows := [ text_row "/res/raw/config.JSON" "JSON" "api_key=1; Endpoint=x";
                text_row "/res/raw/other.json" "json" "api_key=2";
                text_row "/assets/config.txt" "txt" "api_key=3; endpoint=y" ] in
  map (fun r => relative_path (file r))
      (text_search_rows rows ["API_KEY"; "endpoint"] (Some ["json"; "txt"]) None false)
  = ["/res/raw/config.JSON"; "/assets/config.txt"]
  /\ map (fun r => relative_path (file r))
         (text_search_rows rows ["api_key"; "endpoint"] (Some ["json"; "txt"]) None true)
     = ["/assets/config.txt"]
  /\ map (fun r => relative_path (file r))
         (text_search_rows rows ["api_key"] (Some []) (Some "CONFIG") false)
     = ["/res/raw/config.JSON"; "/assets/config.txt"]
  /\ text_search_grouped rows ["api_key"] None None false
     = [ [("app_id", JStr "com.test.app"); ("version_name", JStr "1.2");
          ("version_code", JNum 3); ("apk_sha256", JStr "3f5a");
          ("paths", JList [JStr "/res/raw/config.JSON"; JStr "/res/raw/other.json";
                           JStr "/assets/config.txt"])] ].
Proof. repeat split; reflexivity. Qed.

Lemma text_search_rows_spec_witness :
  In (text_row "/res/raw/config.JSON" "JSON" "api_key=1; Endpoint=x")
     (text_search_rows
        [ text_row "/res/raw/config.JSON" "JSON" "api_key=1; Endpoint=x";
          text_row "/res/raw/other.json" "json" "api_key=2" ]
        ["API_KEY"; "endpoint"] (Some ["json"]) (Some "Config") false).
Proof.
  destruct (text_search_rows_spec
              [ text_row "/res/raw/config.JSON" "JSON" "api_key=1; Endpoint=x";
                text_row "/res/raw/other.json" "json" "api_key=2" ]
              ["API_KEY"; "endpoint"] (Some ["json"]) (Some "Config")
              ltac:(repeat constructor) ltac:(repeat constructor) eq_refl)
    as [Hspec _].
  apply (Hspec false (text_row "/res/raw/config.JSON" "JSON" "api_key=1; Endpoint=x")
               eq_refl).
  split; [left; reflexivity |]. split; [| split].
  - intros term Hterm. exists "api_key=1; Endpoint=x". split; [reflexivity |].
    destruct Hterm as [<- | [<- | []]]; reflexivity.
  - intros given [= <-] _. reflexivity.
  - intros name [= <-] _. reflexivity.
Defined.

Lemma code_scan_rows_spec_witness :
  In (smali_row "const-string v1, AES", "const-string v1, AES")
     (code_scan_rows [smali_row "const-string v1, AES"] ["const-string"; "aes"]
        (Some "com.test") false).
Proof.
  apply (code_scan_rows_spec [smali_row "const-string v1, AES"] ["const-string"; "aes"]
           (Some "com.test") false (smali_row "const-string v1, AES")
           "const-string v1, AES" ltac:(repeat constructor) eq_refl eq_refl).
  split; [left; reflexivity |]. split; [reflexivity |]. split; [| split].
  - intros name [= <-] _. reflexivity.
  - exists "const-string v1, AES". split; [reflexivity | left; reflexivity].
  - intros term Hterm. destruct Hterm as [<- | [<- | []]]; reflexivity.
Defined.

(** The code scan wants all terms on one line. *)
Example code_scan_examples :
  let text := String.concat (String LF "")
                ["invoke-static {v0}, Lcom/acme/Crypto;->init()V"; "const-string v1, AES";
                 "invoke-virtual {v1}, Lcom/acme/Crypto;->aes(I)V"] in
  map snd (code_scan_rows [smali_row text] ["invoke"; "aes"] None false)
  = ["invoke-virtual {v1}, Lcom/acme/Crypto;->aes(I)V"]
  /\ code_scan_rows [smali_row text] ["const-string"; "invoke"] None false = []
  /\ code_scan_rows [smali_row text] ["invoke"] (Some "com.other") false = []
  /\ code_scan_grouped [smali_row text] ["aes"] (Some "com.test") true true false
     = [ [("app_id", JStr "com.test.app"); ("version_name", JStr "1.2");
          ("version_code", JNum 3); ("apk_sha256", JStr "3f5a");
          ("lines", JList [JStr "const-string v1, AES";
                           JStr "invoke-virtual {v1}, Lcom/acme/Crypto;->aes(I)V"]);
          ("inferred_developers", JList [JStr "test"]);
          ("classes", JList [JStr "com.test.app.Net"; JStr "com.test.app.Net"])] ].
Proof. repeat split; reflexivity. Qed.

Lemma permission_pattern_compiles :
  Regex.compile permission_pattern = Regex.Parsed permission_regex.
Proof. reflexivity. Qed.

(** The permission scan on a manifest with a known, an unknown and an
    unnamed permission. *)
Example permission_scan_example :
  let manifest :=
    String.concat (String LF "")
      [ "<manifest package=" ++ dquote ++ "com.test.app" ++ dquote ++ ">";
        "  <uses-permission android:name=" ++ dquote ++ "android.permission.CAMERA"
          ++ dquote ++ "/>";
        "  <uses-permission android:name=" ++ dquote ++ "com.test.app.PUSH" ++ dquote
          ++ "/>";
        "  <uses-permission android:name=" ++ dquote ++ dquote ++ "/>";
        "</manifest>" ]%string in
  permission_scan_grouped [("android.permission.CAMERA", "dangerous")]
    [ text_row "/AndroidManifest.xml" "xml" manifest;
      text_row "/original/AndroidManifest.xml" "xml" manifest ]
  = [ [("app_id", JStr "com.test.app"); ("version_name", JStr "1.2");
       ("version_code", JNum 3); ("apk_sha256", JStr "3f5a");
       ("permissions", JList [JStr "android.permission.CAMERA"; JStr "com.test.app.PUSH";
                              JStr ""]);
       ("protection_levels", JList [JStr "dangerous"; JStr "unidentified";
                                    JStr "unidentified"])] ].
Proof. vm_compute. reflexivity. Qed.

(** The class-name scan with the entries of one source: the signature
    shared by two entries goes to the first of them, and the entry of the
    other source is not consulted. *)
Example tracker_classname_example :
  tracker_classname_rows Regex.py_re_search spark_rlike sample_catalog "exodus"
    [ text_row "/smali/com/acme/ads/Banner.smali" "smali" "";
      text_row "/smali/com/acme/stats/Beacon.smali" "smali" "";
      text_row "/smali/com/acme/Core.smali" "smali" "" ]
  = Ok [ {| h_row := text_row "/smali/com/acme/ads/Banner.smali" "smali" "";
            h_line := None; h_matching := Some "com.acme.ads";
            h_tracker_name := "Acme Ads" |};
         {| h_row := text_row "/smali/com/acme/stats/Beacon.smali" "smali" "";
            h_line := None; h_matching := Some "com.acme.stats";
            h_tracker_name := "Acme Analytics" |} ].
Proof. vm_compute. reflexivity. Qed.

Example tracker_domain_example :
  option_map (map (fun hit => (h_matching hit, h_tracker_name hit)))
    (match tracker_domain_rows Regex.py_re_search spark_rlike sample_catalog "other"
             [smali_row ads_line] with
     | Ok hits => Some hits
     | Raise _ => None
     end)
  = Some [(Some "ads.example.com", "Other Ads")].
Proof. vm_compute. reflexivity. Qed.

Lemma relative_path_below_root_witness :
  exists rec : ApkContentFileInfo,
    read_apk_content_file (fun _ => "") utf8_decode "/decoded/3f5a/res/notes.txt"
      "/decoded/3f5a" (list_byte_of_string "hello") = Ok rec
    /\ relative_path rec = "/res/notes.txt".
Proof.
  eexists. split; [vm_compute; reflexivity |].
  apply (relative_path_below_root (fun _ => "") utf8_decode "/decoded/3f5a"
           "/res/notes.txt" (list_byte_of_string "hello")); vm_compute; reflexivity.
Defined.

(** Where the directory path occurs again below the root, the relative
    path starts after its last occurrence. *)
Example relative_path_cut_short :
  option_map relative_path
    (match read_apk_content_file (fun _ => "") utf8_decode "/tmp/x/assets/tmp/x/a.txt"
             "/tmp/x" [] with
     | Ok rec => Some rec
     | Raise _ => None
     end)
  = Some "/a.txt".
Proof. reflexivity. Qed.

Lemma name_and_extension_witness :
  exists rec : ApkContentFileInfo,
    read_apk_content_file (fun _ => "") utf8_decode "/decoded/3f5a/res/raw/xml"
      "/decoded/3f5a" (list_byte_of_string "<a/>") = Ok rec
    /\ Models.filename rec = "xml"
    /\ extension rec = "xml"
    /\ content_mode rec = "text".
Proof.
  eexists. split; [vm_compute; reflexivity |].
  destruct (name_and_extension (fun _ => "") utf8_decode "/decoded/3f5a/res/raw/xml"
              "/decoded/3f5a" (list_byte_of_string "<a/>") _ eq_refl)
    as (Hname & _ & Hext & _).
  split; [apply (Hname "/res/raw" "xml"); reflexivity |].
  split; [apply Hext |]; reflexivity.
Defined.

(** The sample package read from disk: two records, the manifest first. *)
Example content_file_list_example :
  match get_apk_content_file_list (fun _ => "") utf8_decode "/decoded/3f5a"
          (Some (Utility.DirEntry sample_tree)) with
  | ContentFiles (Ok records) =>
      map (fun rec => (relative_path rec, Models.filename rec, extension rec,
                       content_mode rec)) records
  | _ => []
  end
  = [ ("/AndroidManifest.xml", "AndroidManifest.xml", "xml", "text");
      ("/smali/com/Main.smali", "Main.smali", "smali", "text") ]
  /\ Utility.get_all_files_in_dir "/decoded/3f5a" (Utility.DirEntry sample_tree)
     = ["/decoded/3f5a/AndroidManifest.xml"; "/decoded/3f5a/smali/com/Main.smali"].
Proof. split; vm_compute; reflexivity. Qed.

Lemma content_files_one_per_file_witness :
  exists records : list ApkContentFileInfo,
    get_apk_content_file_list (fun _ => "") utf8_decode "/decoded/3f5a"
      (Some (Utility.DirEntry sample_tree)) = ContentFiles (Ok records)
    /\ length records = 2.
Proof.
  destruct (content_files_one_per_file (fun _ => "") utf8_decode "/decoded/3f5a"
              sample_tree ltac:(discriminate))
    as ((records & Hlist & Hlength & _) & _).
  exists records. split; [exact Hlist | exact Hlength].
Defined.

Lemma relative_path_of_file_witness :
  exists rec : ApkContentFileInfo,
    In rec [ {| relative_path := "/AndroidManifest.xml";
                filename := "AndroidManifest.xml"; extension := "xml";
                content_text := Some "<manifest/>"; content_blob := None;
                content_mode := "text"; file_sha256 := "" |};
             {| relative_path := "/smali/com/Main.smali"; filename := "Main.smali";
                extension := "smali"; content_text := Some ".class Lcom/Main;";
                content_blob := None; content_mode := "text"; file_sha256 := "" |} ]
    /\ relative_path rec = "/smali/com/Main.smali"
    /\ Some (Models.filename rec) = Some "Main.smali"
    /\ file_sha256 rec = "".
Proof.
  apply (relative_path_of_file (fun _ => "") utf8_decode "/decoded/3f5a" sample_tree
           ["smali"; "com"; "Main.smali"] (list_byte_of_string ".class Lcom/Main;")).
  - eapply Utility.file_below; [right; left; reflexivity |].
    eapply Utility.file_below; [left; reflexivity |].
    apply Utility.file_here. left. reflexivity.
  - repeat constructor; discriminate.
  - discriminate.
  - reflexivity.
  - reflexivity.
  - vm_compute. reflexivity.
Defined.

Lemma class_name_of_tree_file_witness :
  exists rec : ApkContentFileInfo,
    In rec [ {| relative_path := "/AndroidManifest.xml";
                filename := "AndroidManifest.xml"; extension := "xml";
                content_text := Some "<manifest/>"; content_blob := None;
                content_mode := "text"; file_sha256 := "" |};
             {| relative_path := "/smali/com/Main.smali"; filename := "Main.smali";
                extension := "smali"; content_text := Some ".class Lcom/Main;";
                content_blob := None; content_mode := "text"; file_sha256 := "" |} ]
    /\ file_sha256 rec = ""
    /\ get_class_full_name (relative_path rec) = Some "com.Main".
Proof.
  apply (class_name_of_tree_file (fun _ => "") utf8_decode "/decoded/3f5a" sample_tree
           "smali" "Main" ["com"] (list_byte_of_string ".class Lcom/Main;")).
  - eapply Utility.file_below; [right; left; reflexivity |].
    eapply Utility.file_below; [left; reflexivity |].
    apply Utility.file_here. left. reflexivity.
  - repeat constructor; discriminate.
  - reflexivity.
  - discriminate.
  - reflexivity.
  - reflexivity.
  - vm_compute. reflexivity.
Defined.

End PipelineExamples.

Section WorkerExamples.
Import PyStr PyDict Analysis Worker Samples.

Lemma new_worker_queues (action_info : AppInspectActionInfo) :
  In action_info action_info_list ->
  is_Some (dict_get (op_method action_info) (action_queues new_worker)).
Proof.
  intros Hin. unfold action_info_list in Hin.
  repeat (destruct Hin as [<- | Hin]; [now eexists |]). destruct Hin.
Qed.

Lemma run_task_reports_once_witness :
  exists outcome : option ErrorMessage,
    fst (run_task sample_env sample_worker_config new_worker "17" "query_googleplay"
           "query") = Ok tt
    /\ sent (snd (run_task sample_env sample_worker_config new_worker "17"
                    "query_googleplay" "query"))
       = sent new_worker ++ [CompleteTask "17" outcome]
    /\ action_queues (snd (run_task sample_env sample_worker_config new_worker "17"
                             "query_googleplay" "query"))
       = action_queues new_worker
    /\ (outcome = None ->
        exists (url result content : string),
          posted (snd (run_task sample_env sample_worker_config new_worker "17"
                         "query_googleplay" "query"))
          = posted new_worker ++ [(url, result)]
          /\ requests_post sample_env url result = Ok (200%Z, content)).
Proof.
  apply (run_task_reports_once sample_env sample_worker_config new_worker "17"
           "query_googleplay" "query" query_arguments).
  reflexivity.
Defined.

(** A store query is run without the parameter the action wants removed;
    a task that lacks a required parameter, or names no known action, is
    answered with an error and runs nothing; arguments that do not decode
    make [run_task] raise before anything is sent. *)
Example run_task_examples :
  run_task sample_env sample_worker_config new_worker "17" "query_googleplay" "query"
  = (Ok tt,
     {| sent := [CompleteTask "17" None];
        invoked := [("query_googleplay",
                     [("query_method", JStr "search"); ("query_json_string", JStr "{}")])];
        posted := [("https://service.example/api/task/17", "done")];
        action_queues := action_queues new_worker |})
  /\ run_task sample_env sample_worker_config new_worker "18" "retrieve_apk" "query"
     = (Ok tt, task_error_raised new_worker "18" (Message "Missing required parameters"))
  /\ run_task sample_env sample_worker_config new_worker "19" "delete_everything" "query"
     = (Ok tt, task_error_raised new_worker "19" (Message "Invalid action name"))
  /\ run_task sample_env sample_worker_config new_worker "20" "retrieve_apk" "{not json"
     = (Raise ValueError, new_worker)
  /\ run_task sample_env sample_worker_config new_worker "21" "analyse_apks" "pending"
     = (Ok tt, task_error_raised new_worker "21" (Message "Missing required parameters")).
Proof. repeat split; reflexivity. Qed.

Lemma pending_tasks_soft_limit_witness :
  exists (taken task_ids : list Json),
    sublist taken four_pending_tasks
    /\ Forall2 (fun t i => task_identifier t = Ok i) taken task_ids
    /\ method_pending_tasks sample_env new_worker "pending"
       = (Ok tt, match task_ids with
                 | [] => new_worker
                 | _ => hub_send new_worker (TakeupTasks task_ids)
                 end)
    /\ Forall (fun t => exists a, task_action t = Ok (JStr a)
                                  /\ str_in a supported_actions = true) taken
    /\ forall (a : string) (action_info : AppInspectActionInfo)
              (queue : list (Z * (string * string))),
         str_in a supported_actions = true ->
         get_action_info_by_name a = Some action_info ->
         dict_get a (action_queues new_worker) = Some queue ->
         length (List.filter (names_action a) taken)
         = Nat.min (length (List.filter (names_action a) four_pending_tasks))
                   (max_threads action_info * 2 - length queue).
Proof.
  apply (pending_tasks_soft_limit sample_env new_worker "pending" four_pending_tasks).
  - reflexivity.
  - repeat constructor; eexists; reflexivity.
  - exact new_worker_queues.
Defined.

(** With nothing queued the worker asks for the first two of the three
    analysis tasks and passes over the task of an action it does not
    support; with one task queued it asks for one. *)
Example pending_tasks_examples :
  method_pending_tasks sample_env new_worker "pending"
  = (Ok tt, hub_send new_worker (TakeupTasks [JNum 1; JNum 3]))
  /\ (let w := snd (method_assign_task new_worker "0" "analyse_apks" "{}" 0) in
      method_pending_tasks sample_env w "pending"
      = (Ok tt, hub_send w (TakeupTasks [JNum 1])))
  /\ (let w := snd (method_assign_task
                      (snd (method_assign_task new_worker "0" "analyse_apks" "{}" 0))
                      "5" "analyse_apks" "{}" 0) in
      method_pending_tasks sample_env w "pending" = (Ok tt, w)).
Proof. repeat split; reflexivity. Qed.

Example assign_task_example :
  dict_get "analyse_apks"
    (action_queues (snd (method_assign_task new_worker "0" "analyse_apks" "{}" 7)))
  = Some [(7%Z, ("0", "{}"))]
  /\ sent (snd (method_assign_task new_worker "0" "analyse_apks" "{}" 7)) = [].
Proof.
  destruct (assign_task_enqueues new_worker "0" "analyse_apks" "{}" 7 new_worker_queues)
    as (_ & _ & Hsupported).
  change (str_in "analyse_apks" supported_actions) with true in Hsupported.
  destruct Hsupported as [Hsent Hqueues].
  split; [| exact Hsent]. now rewrite Hqueues.
Qed.

Lemma default_limit_witness :
  call_task TextSearch sample_backend [("search_terms", JList [JStr "token"])]
  = Ok {| total := 3; output_limit := 500; records := Some three_groups |}.
Proof.
  exact (proj1 (default_limit TextSearch sample_backend
                  [("search_terms", JList [JStr "token"])]
                  [("app_parquet_basenames", JList [JStr "*"]);
                   ("search_terms", JList [JStr "token"]); ("extensions", JNull);
                   ("filename", JNull); ("case_sensitive", JBool false);
                   ("limit", JNum 500)]
                  three_groups eq_refl eq_refl eq_refl eq_refl)).
Defined.

End WorkerExamples.

(** ** Requests that do not fit *)

Section Misfits.
Import PyStr PyDict Analysis Ops Worker.

(** X20.  Calling a recipe through [analyse_apks] with an argument name
    that the recipe does not declare raises [TypeError]: the session is
    built and the method is looked up, but no data is read and no result
    is returned, whatever the other arguments are. *)
Theorem unexpected_argument_raises
    (new_analysis : APKAnalysisConfig -> PyResult Backend) (config : APKAnalysisConfig)
    (be : Backend) (task_name : string) (r : Recipe) (task_arguments : list (string * Json))
    (key : string) :
  new_analysis config = Ok be ->
  dict_get task_name task_names = Some r ->
  dict_has key task_arguments = true ->
  dict_has key (signature r) = false ->
  analyse_apks new_analysis (Some config) (Some task_name) task_arguments
  = Raise TypeError.
Proof.
  intros Hnew Hname Hgiven Hforeign.
  assert (Hpre : startswith "task_" task_name = true /\ String.eqb task_name "" = false).
  { apply dict_get_In in Hname. unfold task_names in Hname.
    repeat (destruct Hname as [[= <- _] | Hname]; [now split |]).
    destruct Hname. }
  destruct Hpre as [Hpre Hne].
  unfold analyse_apks. rewrite Hne, Hpre. cbn [negb py_bind]. rewrite Hnew. cbn [py_bind].
  unfold getattr_task. rewrite Hname. cbn [py_bind].
  unfold call_task, bind_kwargs.
  assert (Hall : forallb (fun kv => dict_has (fst kv) (signature r)) task_arguments = false).
  { apply Bool.not_true_iff_false. intros Hall. rewrite forallb_forall in Hall.
    unfold dict_has in Hgiven at 1. apply existsb_exists in Hgiven as ([k v] & Hin & Hk).
    apply String.eqb_eq in Hk. cbn [fst] in Hk. subst k.
    specialize (Hall (key, v) Hin). cbn [fst] in Hall. congruence. }
  now rewrite Hall.
Qed.

Lemma unexpected_argument_raises_witness :
  analyse_apks (fun _ => Ok Samples.sample_backend)
    (Some {| java_home := "/usr/lib/jvm"; spark_home := "/opt/spark";
             spark_master := "local"; apk_parquet_basepath := "/parquet" |})
    (Some "task_text_search")
    [("search_terms", JList [JStr "token"]); ("limt", JNum 5)]
  = Raise TypeError.
Proof.
  apply (unexpected_argument_raises _ _ Samples.sample_backend "task_text_search"
           TextSearch _ "limt"); reflexivity.
Defined.

Lemma required_parameters_listed (action_name : string)
    (action_info : AppInspectActionInfo) :
  get_action_info_by_name action_name = Some action_info ->
  exists (rp : string) (others : list string),
    required_parameters action_info = rp :: others.
Proof.
  intros Hinfo. apply find_some in Hinfo as [Hlisted _]. unfold action_info_list in Hlisted.
  repeat (destruct Hlisted as [<- | Hlisted]; [now eexists _, _ |]). destruct Hlisted.
Qed.

(** X21.  The [try] statement of [run_task] does not cover the decoding
    of the arguments and the test for the required parameters.  Arguments
    that do not decode make [run_task] raise the decoding error; arguments
    that decode to a number, a boolean or null make it raise [TypeError]
    for every known action.  In both cases nothing is sent, invoked or
    posted: the task is left without an answer. *)
Theorem run_task_raises_outside_try (env : Env) (worker_config : AppInspectWorkerConfig)
    (w : WorkerState) (task_id action_name s : string) :
  (forall e : PyError,
      json_loads env s = Raise e ->
      run_task env worker_config w task_id action_name s = (Raise e, w))
  /\ (forall (task_arguments : Json) (action_info : AppInspectActionInfo),
        json_loads env s = Ok task_arguments ->
        get_action_info_by_name action_name = Some action_info ->
        (task_arguments = JNull
         \/ (exists b, task_arguments = JBool b)
         \/ (exists z, task_arguments = JNum z)) ->
        run_task env worker_config w task_id action_name s = (Raise TypeError, w)).
Proof.
  split.
  - intros e Hloads. unfold run_task. now rewrite Hloads.
  - intros task_arguments action_info Hloads Hinfo Hscalar.
    destruct (required_parameters_listed action_name action_info Hinfo)
      as (rp & others & Hrequired).
    unfold run_task. rewrite Hloads, Hinfo, Hrequired.
    destruct Hscalar as [-> | [[b ->] | [z ->]]]; reflexivity.
Qed.

End Misfits.
(** ** What the matcher finds is a match *)

Section RegexSoundness.
Import Regex.

Variable fl : flavour.

Lemma rep_loop_sound (step : mstate -> (mstate -> option mstate) -> option mstate)
    (body : mstate -> mstate -> Prop) (lo : nat) (hi : option nat)
    (k : mstate -> option mstate) :
  (forall st k' res, step st k' = Some res ->
                     exists st', body st st' /\ k' st' = Some res) ->
  forall (fuel cnt : nat) (st res : mstate),
    match hi with Some h => cnt <= h | None => True end ->
    rep_loop step lo hi k fuel cnt st = Some res ->
    exists (n : nat) (st' : mstate),
      iterate n body st st'
      /\ lo <= cnt + n
      /\ match hi with Some h => cnt + n <= h | None => True end
      /\ k st' = Some res.
Proof.
  intros Hstep. induction fuel as [|fuel IH]; intros cnt st res Hcnt H; [discriminate |].
  cbn [rep_loop] in H.
  assert (Hexit : (if (lo <=? cnt)%nat then k st else None) = Some res ->
                  exists (n : nat) (st' : mstate),
                    iterate n body st st' /\ lo <= cnt + n
                    /\ match hi with Some h => cnt + n <= h | None => True end
                    /\ k st' = Some res).
  { destruct (Nat.leb_spec lo cnt); [| discriminate]. intros Hk.
    exists 0, st. rewrite Nat.add_0_r. repeat split; assumption. }
  destruct (below hi cnt) eqn:Hbelow; [| exact (Hexit H)].
  destruct (step st _) as [res0|] eqn:Hagain; [| exact (Hexit H)].
  injection H as ->.
  destruct (Hstep _ _ _ Hagain) as (st1 & Hbody & Hcont).
  assert (Hnext : match hi with Some h => S cnt <= h | None => True end).
  { destruct hi as [h|]; [| exact I]. cbn in Hbelow.
    apply Nat.ltb_lt in Hbelow. lia. }
  destruct ((pos st1 =? pos st)%nat && (lo <=? cnt)%nat) eqn:Hsame.
  - apply andb_prop in Hsame as [_ Hlo]. apply Nat.leb_le in Hlo.
    exists 1, st1. split; [exists st1; now split |].
    split; [lia |]. split; [| exact Hcont].
    destruct hi; [lia | exact I].
  - destruct (IH (S cnt) st1 res Hnext Hcont) as (n & st' & Hiter & Hlo & Hhi & Hk).
    exists (S n), st'. split; [exists st1; now split |].
    split; [lia |]. split; [| exact Hk].
    destruct hi; [lia | exact I].
Qed.

(** Whatever the matcher returns, it has called its continuation on a
    state that a match of the pattern leads to. *)
Lemma rmatch_sound (r : regex) :
  forall (st : mstate) (k : mstate -> option mstate) (res : mstate),
    rmatch fl r st k = Some res ->
    exists st' : mstate, reaches fl r st st' /\ k st' = Some res.
Proof.
  induction r as [| c | ranges | r1 IH1 r2 IH2 | r1 IH1 r2 IH2 | r IH lo hi
                 | idx r IH | |]; intros st k res H; cbn [rmatch reaches] in *.
  - now exists st.
  - destruct (rest st) as [|d s'] eqn:Hrest; [discriminate |].
    destruct (Ascii.eqb_spec c d) as [<- | _]; [| discriminate].
    eexists. split; [| exact H]. now exists s'.
  - destruct (rest st) as [|d s'] eqn:Hrest; [discriminate |].
    destruct (in_ranges d ranges) eqn:Hin; [| discriminate].
    eexists. split; [| exact H]. now exists d, s'.
  - destruct (IH1 _ _ _ H) as (mid & Hmid & H2).
    destruct (IH2 _ _ _ H2) as (st' & Hst' & Hk).
    exists st'. split; [now exists mid | exact Hk].
  - destruct (rmatch fl r1 st k) as [res1|] eqn:E1.
    + injection H as ->. destruct (IH1 _ _ _ E1) as (st' & Hst' & Hk).
      exists st'. split; [now left | exact Hk].
    + destruct (IH2 _ _ _ H) as (st' & Hst' & Hk).
      exists st'. split; [now right | exact Hk].
  - destruct (rep_loop_sound (rmatch fl r) (reaches fl r) lo hi k IH
                (String.length (rest st) + lo + 1) 0 st res)
      as (n & st' & Hiter & Hlo & Hhi & Hk); [destruct hi; [lia | exact I] | exact H |].
    exists st'. split; [| exact Hk]. exists n. repeat split; assumption.
  - destruct (IH _ _ _ H) as (inner & Hinner & Hk).
    eexists. split; [| exact Hk]. now exists inner.
  - destruct (pos st =? 0)%nat eqn:Hpos; [| discriminate].
    apply Nat.eqb_eq in Hpos. exists st. now repeat split.
  - destruct (at_eol fl (before st) (rest st)) eqn:Heol; [| discriminate].
    exists st. now repeat split.
Qed.

(** The leftmost match starts somewhere in the subject. *)
Lemma search_from_sound (r : regex) (s : string) :
  forall (start : nat) (prev : option ascii) (cs : list (nat * (nat * nat))),
    search_from fl r start prev s = Some cs ->
    exists (passed left : string) (prev' : option ascii) (st' : mstate),
      s = (passed ++ left)%string
      /\ reaches fl r (MState (start + String.length passed) prev' left []) st'
      /\ cs = (0, (start + String.length passed, pos st')) :: caps st'.
Proof.
  induction s as [|c s IH]; intros start prev cs H; cbn [search_from] in H.
  - destruct (rmatch fl r _ Some) as [st|] eqn:E; [| discriminate].
    injection H as <-. destruct (rmatch_sound r _ _ _ E) as (st' & Hst' & [= ->]).
    exists "", "", prev, st. cbn [String.length]. rewrite Nat.add_0_r. now repeat split.
  - destruct (rmatch fl r _ Some) as [st|] eqn:E.
    + injection H as <-. destruct (rmatch_sound r _ _ _ E) as (st' & Hst' & [= ->]).
      exists "", (String c s), prev, st. cbn [String.length]. rewrite Nat.add_0_r.
      now repeat split.
    + destruct (IH _ _ _ H) as (passed & left & prev' & st' & -> & Hreach & ->).
      exists (String c passed), left, prev', st'. cbn [String.length].
      replace (start + S (String.length passed)) with (S start + String.length passed)
        by lia.
      now repeat split.
Qed.


Lemma chars_app (a b : string) :
  list_ascii_of_string (a ++ b) = list_ascii_of_string a ++ list_ascii_of_string b.
Proof.
  induction a as [|c a IH]; [reflexivity |].
  change (String c a ++ b)%string with (String c (a ++ b)).
  cbn [list_ascii_of_string]. now rewrite IH.
Qed.

Lemma length_chars (s : string) : length (list_ascii_of_string s) = String.length s.
Proof.
  induction s as [|c s IH]; [reflexivity |].
  cbn [list_ascii_of_string length String.length]. now rewrite IH.
Qed.

Lemma string_append_nil_r (a : string) : (a ++ "")%string = a.
Proof.
  induction a as [|x a IH]; [reflexivity |].
  change (String x a ++ "")%string with (String x (a ++ "")). now rewrite IH.
Qed.

Lemma string_append_length (a b : string) :
  String.length (a ++ b) = String.length a + String.length b.
Proof.
  induction a as [|x a IH]; [reflexivity |].
  change (String x a ++ b)%string with (String x (a ++ b)).
  cbn [String.length]. now rewrite IH.
Qed.

Lemma in_ranges_allowed (allowed : ascii -> bool) (ranges : list (ascii * ascii))
    (d : ascii) :
  forallb (fun n => implb (in_ranges (ascii_of_nat n) ranges) (allowed (ascii_of_nat n)))
          (seq 0 256) = true ->
  in_ranges d ranges = true -> allowed d = true.
Proof.
  intros Hall Hd.
  assert (Hn : In (nat_of_ascii d) (seq 0 256))
    by (apply in_seq; pose proof (nat_ascii_bounded d); lia).
  pose proof (proj1 (forallb_forall _ _) Hall (nat_of_ascii d) Hn) as H.
  cbv beta in H. now rewrite ascii_nat_embedding, Hd in H.
Qed.

(** A match passes over a stretch of the subject; if the characters and
    sets of the pattern are within [allowed], so is the stretch. *)
Lemma reaches_consumes (allowed : ascii -> bool) (r : regex) :
  consumes_only allowed r = true ->
  forall st st' : mstate,
    reaches fl r st st' ->
    exists w : string,
      rest st = (w ++ rest st')%string
      /\ pos st' = pos st + String.length w
      /\ forallb allowed (list_ascii_of_string w) = true.
Proof.
  induction r as [| c | ranges | r1 IH1 r2 IH2 | r1 IH1 r2 IH2 | r IH lo hi
                 | idx r IH | |]; intros Hok st st' H; cbn [consumes_only reaches] in *.
  - subst st'. exists "". cbn. now rewrite Nat.add_0_r.
  - destruct H as (s' & Hrest & ->). exists (String c ""). cbn.
    rewrite Hok. repeat split; [exact Hrest | lia].
  - destruct H as (d & s' & Hrest & Hin & ->). exists (String d ""). cbn.
    rewrite (in_ranges_allowed allowed ranges d Hok Hin).
    repeat split; [exact Hrest | lia].
  - apply andb_prop in Hok as [Hok1 Hok2]. destruct H as (mid & H1 & H2).
    destruct (IH1 Hok1 _ _ H1) as (w1 & Hr1 & Hp1 & Hc1).
    destruct (IH2 Hok2 _ _ H2) as (w2 & Hr2 & Hp2 & Hc2).
    exists (w1 ++ w2)%string. rewrite string_append_assoc, <- Hr2, <- Hr1.
    rewrite chars_app, forallb_app, Hc1, Hc2, string_append_length. repeat split. lia.
  - apply andb_prop in Hok as [Hok1 Hok2]. destruct H as [H | H]; auto.
  - destruct H as (n & _ & _ & Hiter). clear lo hi. revert st Hiter.
    induction n as [|n IHn]; intros st Hiter; cbn [iterate] in Hiter.
    + subst st'. exists "". cbn. now rewrite Nat.add_0_r.
    + destruct Hiter as (mid & Hstep & Hiter).
      destruct (IH Hok _ _ Hstep) as (w1 & Hr1 & Hp1 & Hc1).
      destruct (IHn _ Hiter) as (w2 & Hr2 & Hp2 & Hc2).
      exists (w1 ++ w2)%string. rewrite string_append_assoc, <- Hr2, <- Hr1.
      rewrite chars_app, forallb_app, Hc1, Hc2, string_append_length. repeat split. lia.
  - destruct H as (inner & Hinner & ->). cbn [rest pos].
    exact (IH Hok _ _ Hinner).
  - destruct H as [_ ->]. exists "". cbn. now rewrite Nat.add_0_r.
  - destruct H as [_ ->]. exists "". cbn. now rewrite Nat.add_0_r.
Qed.

Lemma substring_middle (passed w left : string) :
  String.substring (String.length passed) (String.length w) (passed ++ w ++ left) = w.
Proof.
  induction passed as [|c passed IH]; [| exact IH].
  change ("" ++ w ++ left)%string with (w ++ left)%string. cbn [String.length].
  induction w as [|c w IH]; [now destruct left |].
  change (String c w ++ left)%string with (String c (w ++ left)).
  cbn [String.length String.substring]. now rewrite IH.
Qed.

Lemma substring_allowed (allowed : ascii -> bool) (s : string) :
  forallb allowed (list_ascii_of_string s) = true ->
  forall a n : nat,
    forallb allowed (list_ascii_of_string (String.substring a n s)) = true.
Proof.
  induction s as [|c s IH]; intros Hs a n; [now destruct a, n |].
  cbn in Hs. apply andb_prop in Hs as [Hc Hs].
  destruct a as [|a]; [| exact (IH Hs a n)].
  destruct n as [|n]; [reflexivity |]. cbn. now rewrite Hc, (IH Hs 0 n).
Qed.

(** The text of the leftmost match is made of characters of the pattern. *)
Lemma whole_match_allowed (allowed : ascii -> bool) (r : regex) (s : string)
    (cs : list (nat * (nat * nat))) :
  consumes_only allowed r = true ->
  search fl r s = Some cs ->
  forallb allowed (list_ascii_of_string (group_text s cs 0)) = true.
Proof.
  intros Hok Hsearch. unfold search in Hsearch.
  destruct (search_from_sound r s 0 None cs Hsearch)
    as (passed & left & prev' & st' & -> & Hreach & ->).
  destruct (reaches_consumes allowed r Hok _ _ Hreach) as (w & Hrest & Hpos & Hchars).
  cbn [rest pos] in Hrest, Hpos. unfold group_text. cbn [cap_lookup Nat.eqb].
  rewrite Hrest, Hpos. cbn [Nat.add].
  replace (String.length passed + String.length w - String.length passed)
    with (String.length w) by lia.
  now rewrite substring_middle.
Qed.

Lemma group_text_allowed (allowed : ascii -> bool) (s : string)
    (cs : list (nat * (nat * nat))) (idx : nat) :
  forallb allowed (list_ascii_of_string s) = true ->
  forallb allowed (list_ascii_of_string (group_text s cs idx)) = true.
Proof.
  intros Hs. unfold group_text. destruct (cap_lookup idx cs) as [[a b]|]; [| reflexivity].
  now apply substring_allowed.
Qed.

End RegexSoundness.

(** ** The shape of the domains that are kept *)

Section FqdnShape.
Import PyStr Regex Analysis Claimed.

Local Abbreviation alnum := [("a"%char, "z"%char); ("0"%char, "9"%char)].
Local Abbreviation alnum_hyphen :=
  [("a"%char, "z"%char); ("0"%char, "9"%char); ("-"%char, "-"%char)].

(** The characters of a URL: printable ASCII, no blank. *)
Local Abbreviation url_char :=
  (fun c : ascii => (33 <=? nat_of_ascii c)%nat && (nat_of_ascii c <=? 126)%nat).

(** Labels, each followed by a dot, before [tail]. *)
Local Abbreviation dotted labels tail :=
  (fold_right (fun (label : string) (acc : string) => (label ++ String "." acc)%string)
              tail labels).

Lemma in_alnum (c : ascii) : in_ranges c alnum = fqdn_alnum c.
Proof. destruct c as [[] [] [] [] [] [] [] []]; reflexivity. Qed.

Lemma in_alnum_hyphen (c : ascii) : in_ranges c alnum_hyphen = fqdn_label_char c.
Proof. destruct c as [[] [] [] [] [] [] [] []]; reflexivity. Qed.

Lemma label_char_no_dot (c : ascii) : fqdn_label_char c = true -> Ascii.eqb "." c = false.
Proof. destruct c as [[] [] [] [] [] [] [] []]; (reflexivity || discriminate). Qed.

Lemma alnum_label_char (c : ascii) : fqdn_alnum c = true -> fqdn_label_char c = true.
Proof. unfold fqdn_label_char. now intros ->. Qed.

(** A run of characters of one set. *)
Lemma set_run (ranges : list (ascii * ascii)) (lo : nat) (hi : option nat)
    (st st' : mstate) :
  reaches JavaRegex (RRep (RSet ranges) lo hi) st st' ->
  exists w : string,
    rest st = (w ++ rest st')%string
    /\ forallb (fun c => in_ranges c ranges) (list_ascii_of_string w) = true
    /\ lo <= String.length w
    /\ match hi with Some h => String.length w <= h | None => True end.
Proof.
  intros (n & Hlo & Hhi & Hiter).
  assert (Hrun : exists w : string,
             rest st = (w ++ rest st')%string
             /\ forallb (fun c => in_ranges c ranges) (list_ascii_of_string w) = true
             /\ String.length w = n).
  { clear Hlo Hhi. revert st Hiter. induction n as [|n IH]; intros st Hiter.
    - cbn [iterate] in Hiter. subst st'. now exists "".
    - destruct Hiter as (mid & (d & s' & Hrest & Hin & ->) & Hiter).
      destruct (IH _ Hiter) as (w & Hw & Hchars & Hlen). cbn [rest] in Hw.
      exists (String d w). rewrite Hrest, Hw. cbn [list_ascii_of_string forallb String.length].
      rewrite Hin, Hchars, Hlen. now repeat split. }
  destruct Hrun as (w & Hw & Hchars & <-). exists w. now repeat split.
Qed.

Lemma fqdn_label_single (c : ascii) :
  fqdn_alnum c = true -> fqdn_label (String c "") = true.
Proof.
  intros Hc. unfold fqdn_label. cbn [list_ascii_of_string length hd List.last forallb].
  now rewrite (alnum_label_char c Hc), Hc.
Qed.

Lemma fqdn_label_long (first : ascii) (w : string) (last : ascii) :
  fqdn_alnum first = true ->
  forallb fqdn_label_char (list_ascii_of_string w) = true ->
  String.length w <= 61 ->
  fqdn_alnum last = true ->
  fqdn_label (String first (w ++ String last "")) = true.
Proof.
  intros Hfirst Hw Hlen Hlast. unfold fqdn_label.
  cbn [list_ascii_of_string]. rewrite chars_app. cbn [list_ascii_of_string hd].
  rewrite app_comm_cons, last_last, Hfirst, Hlast, forallb_app, !Bool.andb_true_r.
  cbn [forallb app]. rewrite (alnum_label_char first Hfirst), Hw.
  rewrite (alnum_label_char last Hlast). cbn [andb].
  cbn [length]. rewrite length_app, length_chars. cbn [length].
  rewrite Bool.andb_true_r. apply andb_true_intro. split; apply Nat.leb_le; lia.
Qed.

Lemma fqdn_label_no_dot (label : string) :
  fqdn_label label = true -> contains "." label = false.
Proof.
  unfold fqdn_label. intros H.
  apply andb_prop in H as [H _]. apply andb_prop in H as [H _].
  apply andb_prop in H as [_ H]. induction label as [|c label IH]; [reflexivity |].
  cbn [list_ascii_of_string forallb] in H. apply andb_prop in H as [Hc H].
  rewrite contains_cons, (IH H), Bool.orb_false_r, prefix_cons, prefix_empty.
  now rewrite (label_char_no_dot c Hc).
Qed.

(** The optional second part of a label. *)
Lemma label_tail (st st' : mstate) :
  reaches JavaRegex
    (RSeq (RRep (RSet alnum_hyphen) 0 (Some 61)) (RSeq (RSet alnum) REps)) st st' ->
  exists (w : string) (last : ascii),
    rest st = (w ++ String last (rest st'))%string
    /\ forallb fqdn_label_char (list_ascii_of_string w) = true
    /\ String.length w <= 61
    /\ fqdn_alnum last = true.
Proof.
  intros (mid & Hrun & mid' & (d & s' & Hrest & Hin & ->) & ->).
  destruct (set_run _ _ _ _ _ Hrun) as (w & Hw & Hchars & _ & Hlen).
  exists w, d. rewrite Hw, Hrest. cbn [rest]. rewrite <- in_alnum.
  repeat split; try assumption.
  apply forallb_forall. intros c Hc. rewrite <- in_alnum_hyphen.
    exact (proj1 (forallb_forall _ _) Hchars c Hc).
Qed.

(** A label and the dot after it. *)
Lemma label_and_dot (st st' : mstate) :
  reaches JavaRegex
    (RSeq (RSet alnum)
       (RSeq (RRep (RSeq (RRep (RSet alnum_hyphen) 0 (Some 61)) (RSeq (RSet alnum) REps))
                   0 (Some 1))
          (RSeq (RChar ".") REps))) st st' ->
  exists label : string,
    rest st = (label ++ String "." (rest st'))%string /\ fqdn_label label = true.
Proof.
  intros (mid1 & (first & s1 & Hrest & Hfirst & ->)
          & mid2 & (n & _ & Hn & Hiter) & mid3 & (s3 & Hdot & ->) & ->).
  rewrite in_alnum in Hfirst. cbn [rest].
  destruct n as [|[|n]]; [| | lia].
  - cbn [iterate] in Hiter. subst mid2. cbn [rest] in Hdot. subst s1.
    exists (String first ""). split; [exact Hrest | now apply fqdn_label_single].
  - destruct Hiter as (mid & Htail & ->).
    destruct (label_tail _ _ Htail) as (w & last & Hw & Hchars & Hlen & Hlast).
    cbn [rest] in Hw. exists (String first (w ++ String last "")).
    split; [| now apply fqdn_label_long].
    rewrite Hrest, Hw, Hdot.
    change (String first (w ++ String last "") ++ String "." s3)%string
      with (String first ((w ++ String last "") ++ String "." s3)).
    now rewrite string_append_assoc.
Qed.

Lemma labels_and_dots (r : regex) (n : nat) (st st' : mstate) :
  (forall a b : mstate,
      reaches JavaRegex r a b ->
      exists label : string,
        rest a = (label ++ String "." (rest b))%string /\ fqdn_label label = true) ->
  iterate n (reaches JavaRegex r) st st' ->
  exists labels : list string,
    length labels = n
    /\ Forall (fun label => fqdn_label label = true) labels
    /\ rest st = dotted labels (rest st').
Proof.
  intros Hr. revert st. induction n as [|n IH]; intros st Hiter.
  - cbn [iterate] in Hiter. subst st'. now exists [].
  - destruct Hiter as (mid & Hstep & Hiter).
    destruct (Hr _ _ Hstep) as (label & Hlabel & Hshape).
    destruct (IH _ Hiter) as (labels & Hlen & Hall & Hrest).
    exists (label :: labels). cbn [length fold_right]. rewrite Hlen, <- Hrest.
    repeat split; [now constructor | exact Hlabel].
Qed.

(** The last label, which has two characters at least, and the end of
    the subject. *)
Lemma final_label (st st' : mstate) :
  reaches JavaRegex
    (RSeq (RSet alnum)
       (RSeq (RRep (RSet alnum_hyphen) 0 (Some 61))
          (RSeq (RSet alnum) (RSeq REol REps)))) st st' ->
  exists label : string,
    rest st = (label ++ rest st')%string
    /\ fqdn_label label = true
    /\ 2 <= String.length label
    /\ at_eol JavaRegex (before st') (rest st') = true.
Proof.
  intros (mid1 & (first & s1 & Hrest & Hfirst & ->)
          & mid2 & Hrun & mid3 & (last & s3 & Hlast_rest & Hlast & ->)
          & mid4 & (Heol & ->) & ->).
  rewrite in_alnum in Hfirst, Hlast.
  destruct (set_run _ _ _ _ _ Hrun) as (w & Hw & Hchars & _ & Hlen).
  cbn [rest before] in *.
  exists (String first (w ++ String last "")). split; [| split; [| split]].
  - rewrite Hrest, Hw, Hlast_rest.
    change (String first (w ++ String last "") ++ s3)%string
      with (String first ((w ++ String last "") ++ s3)).
    now rewrite string_append_assoc.
  - apply fqdn_label_long; try assumption.
    apply forallb_forall. intros c Hc. rewrite <- in_alnum_hyphen.
    exact (proj1 (forallb_forall _ _) Hchars c Hc).
  - cbn [String.length]. rewrite string_append_length. cbn [String.length]. lia.
  - exact Heol.
Qed.

(** Before the end of the subject Java lets a line terminator pass; none
    is made of characters of a URL. *)
Lemma at_eol_url_chars (prev : option ascii) (t : string) :
  at_eol JavaRegex prev t = true ->
  forallb url_char (list_ascii_of_string t) = true ->
  t = "".
Proof.
  unfold at_eol, str_of_codes. cbn [fold_right existsb].
  intros Heol Hchars.
  repeat (apply Bool.orb_true_iff in Heol as [Heol | Heol]);
    try (apply andb_prop in Heol as [Heol _]);
    try (apply String.eqb_eq in Heol; subst t);
    solve [reflexivity | discriminate Hchars | discriminate Heol].
Qed.

Lemma split_segment_then_dot (segment rest : string) :
  contains "." segment = false ->
  split_from "." 0 (segment ++ String "." rest) = segment :: split_from "." 0 rest.
Proof.
  induction segment as [|c segment IH]; intros Hsegment.
  - change ("" ++ String "." rest)%string with ("." ++ rest)%string.
    now rewrite split_leading_separator.
  - rewrite contains_cons in Hsegment.
    apply Bool.orb_false_iff in Hsegment as [Hc Hsegment].
    change (String c segment ++ String "." rest)%string
      with (String c (segment ++ String "." rest)).
    cbn [split_from].
    assert (Hpre : String.prefix "." (String c (segment ++ String "." rest)) = false).
    { rewrite prefix_cons, prefix_empty, Bool.andb_true_r in *. exact Hc. }
    now rewrite Hpre, (IH Hsegment).
Qed.

Lemma split_dotted (labels : list string) (final : string) :
  Forall (fun label => fqdn_label label = true) labels ->
  fqdn_label final = true ->
  split "." (dotted labels final) = labels ++ [final].
Proof.
  intros Hlabels Hfinal. unfold split.
  induction Hlabels as [|label labels Hlabel _ IH]; cbn [fold_right app].
  - apply split_no_separator. now apply fqdn_label_no_dot.
  - rewrite split_segment_then_dot by now apply fqdn_label_no_dot. now rewrite IH.
Qed.

(** What the pattern of the filter lets through, in a subject made of
    characters of a URL: two labels at least, the last of two characters
    at least. *)
Lemma fqdn_regex_shape (domain : string) :
  forallb url_char (list_ascii_of_string domain) = true ->
  rlike domain fqdn_regex = true ->
  exists (labels : list string) (final : string),
    labels <> []
    /\ Forall (fun label => fqdn_label label = true) labels
    /\ fqdn_label final = true
    /\ 2 <= String.length final
    /\ split "." domain = labels ++ [final].
Proof.
  intros Hchars Hlike. unfold rlike, search in Hlike.
  destruct (search_from JavaRegex fqdn_regex 0 None domain) as [cs|] eqn:Hsearch;
    [| discriminate].
  destruct (search_from_sound JavaRegex fqdn_regex domain 0 None cs Hsearch)
    as (passed & left & prev' & st' & -> & Hreach & _).
  unfold fqdn_regex in Hreach.
  destruct Hreach as (mid0 & (Hpos & ->) & mid1 & (n & Hn & _ & Hiter) & Hfinal).
  cbn [pos Nat.add] in Hpos. destruct passed; [| discriminate Hpos]. clear Hpos.
  change ("" ++ left)%string with left in *.
  destruct (labels_and_dots _ n _ _ label_and_dot Hiter) as (labels & Hlen & Hlabels & Hrest).
  destruct (final_label _ _ Hfinal) as (final & Hfinal_rest & Hshape & Hlong & Heol).
  cbn [rest] in Hrest. rewrite Hfinal_rest in Hrest.
  assert (Ht : rest st' = "").
  { apply (at_eol_url_chars _ _ Heol).
    rewrite Hrest in Hchars. clear - Hchars.
    induction labels as [|label labels IH]; cbn [fold_right] in Hchars.
    - rewrite chars_app, forallb_app in Hchars. now apply andb_prop in Hchars as [_ H].
    - rewrite chars_app, forallb_app in Hchars. apply andb_prop in Hchars as [_ H].
      cbn [list_ascii_of_string forallb] in H. apply andb_prop in H as [_ H]. auto. }
  rewrite Ht, string_append_nil_r in Hrest.
  exists labels, final. repeat split; try assumption.
  - intros ->. cbn in Hlen. lia.
  - rewrite Hrest. now apply split_dotted.
Qed.

Lemma url_regex_chars : consumes_only url_char url_regex = true.
Proof. vm_compute. reflexivity. Qed.

(** The domain taken from the URL of a line and let through by the
    filter has the shape of a fully qualified domain name. *)
Lemma kept_domain_shape (line : string) :
  rlike (regexp_extract (regexp_extract line url_regex 0) domain_regex 2) fqdn_regex = true ->
  fqdn_shape (regexp_extract (regexp_extract line url_regex 0) domain_regex 2) = true
  /\ exists (labels : list string) (final : string),
       split "." (regexp_extract (regexp_extract line url_regex 0) domain_regex 2)
       = labels ++ [final]
       /\ labels <> [] /\ 2 <= String.length final.
Proof.
  set (url := regexp_extract line url_regex 0).
  set (domain := regexp_extract url domain_regex 2).
  assert (Hurl : forallb url_char (list_ascii_of_string url) = true).
  { unfold url, regexp_extract.
    destruct (search JavaRegex url_regex line) as [cs|] eqn:Hsearch; [| reflexivity].
    exact (whole_match_allowed JavaRegex url_char url_regex line cs url_regex_chars Hsearch). }
  assert (Hdomain : forallb url_char (list_ascii_of_string domain) = true).
  { unfold domain, regexp_extract.
    destruct (search JavaRegex domain_regex url) as [cs|]; [| reflexivity].
    now apply group_text_allowed. }
  intros Hlike.
  destruct (fqdn_regex_shape domain Hdomain Hlike)
    as (labels & final & Hne & Hlabels & Hfinal & Hlong & Hsplit).
  split; [| now exists labels, final].
  unfold fqdn_shape. rewrite Hsplit, forallb_app, length_app. cbn [length forallb].
  rewrite Hfinal. cbn [andb].
  assert (Hall : forallb fqdn_label labels = true)
    by (apply forallb_forall; intros l Hl;
        exact (proj1 (List.Forall_forall _ _) Hlabels l Hl)).
  rewrite Hall. destruct labels; [contradiction |]. cbn [length].
  now destruct (Nat.leb_spec 2 (S (length labels) + 1)); [| lia].
Qed.

End FqdnShape.

Section UrlFilter.
Import PyStr Models Analysis Claimed Samples.

(** C8.  Every row that [task_url_extraction] keeps has a URL matched in
    its line that is neither bare scheme, and a domain, the authority
    between the scheme and the next slash of that URL, that has the shape
    of a fully qualified domain name as the document describes it: labels
    separated by dots, two at least, each made of lower-case letters,
    digits and hyphens, beginning and ending with a letter or digit and no
    longer than 63 characters.  The [const-string] line with the bare
    scheme leaves no row, wherever it stands; the [const-string] line with
    [https://ads.example.com/x], in a class file, leaves a row with that
    URL and the domain [ads.example.com].  For a package with one class
    file made of one of these lines, the grouped result is empty in the
    first case and holds the URL and the domain in the second. *)
Theorem url_extraction_filter :
  (forall (df : list StoreRow) (u : UrlRow),
      In u (url_extraction_rows df) ->
      u_url u = Regex.regexp_extract (u_line u) url_regex 0
      /\ u_url u <> "https://"
      /\ u_url u <> "http://"
      /\ u_domain u = Regex.regexp_extract (u_url u) domain_regex 2
      /\ fqdn_shape (u_domain u) = true
      /\ u_line u <> bare_scheme_line)
  /\ (forall (df : list StoreRow) (r : StoreRow) (text : string),
      In r df ->
      str_in (lower (extension (file r))) ["smali"] = true ->
      content_text (file r) = Some text ->
      In ads_line (split (String LF "") text) ->
      In {| u_row := r; u_line := ads_line; u_url := "https://ads.example.com/x";
            u_domain := "ads.example.com";
            u_class_name := get_class_full_name (relative_path (file r)) |}
         (url_extraction_rows df))
  /\ url_extraction_grouped [smali_row bare_scheme_line] = []
  /\ url_extraction_grouped [smali_row ads_line]
     = [ [("app_id", JStr "com.test.app"); ("version_name", JStr "1.2");
          ("version_code", JNum 3); ("apk_sha256", JStr "3f5a");
          ("urls", JList [JStr "https://ads.example.com/x"]);
          ("domains", JList [JStr "ads.example.com"]);
          ("classes", JList [JStr "com.test.app.Net"]);
          ("lines", JList [JStr ads_line])] ].
Proof.
  split; [| split; [| split; vm_compute; reflexivity]].
  - intros df u Hu. pose proof (bare_scheme_line_dropped df u Hu) as Hbare.
    apply url_extraction_rows_spec in Hu
      as (text & _ & _ & _ & _ & _ & _ & _ & Hurl & Hhttps & Hhttp & Hdomain & Hfqdn & _).
    repeat split; try assumption.
    rewrite Hdomain, Hurl in Hfqdn |- *. now apply kept_domain_shape.
  - apply ads_line_kept.
Qed.

(** The two class files side by side in one frame: only the second leaves
    a row, and its domain has the shape. *)
Lemma url_extraction_filter_witness :
  In {| u_row := smali_row ads_line; u_line := ads_line;
        u_url := "https://ads.example.com/x"; u_domain := "ads.example.com";
        u_class_name := Some "com.test.app.Net" |}
     (url_extraction_rows [smali_row bare_scheme_line; smali_row ads_line])
  /\ fqdn_shape "ads.example.com" = true.
Proof.
  destruct url_extraction_filter as (Hfilter & Hkept & _).
  assert (Hin : In {| u_row := smali_row ads_line; u_line := ads_line;
                      u_url := "https://ads.example.com/x";
                      u_domain := "ads.example.com";
                      u_class_name := Some "com.test.app.Net" |}
                   (url_extraction_rows [smali_row bare_scheme_line; smali_row ads_line])).
  { apply (Hkept _ (smali_row ads_line) ads_line);
      [right; left; reflexivity | reflexivity | reflexivity | left; reflexivity]. }
  split; [exact Hin |].
  exact (proj1 (proj2 (proj2 (proj2 (proj2 (Hfilter _ _ Hin)))))).
Defined.

(** The filter is narrower than the shape: the domain is not folded to
    lower case before the test, and its last label must have two
    characters; a host written with capitals, a host with a last label of
    one letter and a host without a dot leave no row. *)
Example url_extraction_dropped_hosts :
  url_extraction_rows
    [smali_row ("    const-string v0, " ++ dquote ++ "https://Ads.Example.com/x" ++ dquote)]
  = []
  /\ fqdn_shape (lower "Ads.Example.com") = true
  /\ url_extraction_rows
       [smali_row ("    const-string v0, " ++ dquote ++ "https://ads.example.c/x" ++ dquote)]
     = []
  /\ fqdn_shape "ads.example.c" = true
  /\ url_extraction_rows
       [smali_row ("    const-string v0, " ++ dquote ++ "https://localhost/x" ++ dquote)]
     = []
  /\ fqdn_shape "localhost" = false.
Proof. repeat split; vm_compute; reflexivity. Qed.

End UrlFilter.
